(** * Ecocredit accounting core of regen-ledger: a shallow embedding

    The development follows the Go sources of the ecocredit module:
    - [x/ecocredit/server/core/send.go]    (Keeper.Send, Keeper.sendEcocredits)
    - [x/ecocredit/server/core/retire.go]  (Keeper.Retire)
    - [x/ecocredit/server/core/cancel.go]  (Keeper.Cancel)
    - [x/ecocredit/core/genesis.go]        (ValidateGenesis, calculateSupply,
                                            validateSupply, Batch.Validate)

    Amounts are kept at rest as decimal strings, exactly as the ORM tables of
    the module keep them, and are parsed into exact decimals for every
    computation.  A keeper method is a function from a context (tables, event
    manager, gas meter) to a result and a context: a Go method that returns an
    error leaves whatever it has already written in the context it was given. *)

From Stdlib Require Import ZArith QArith Lqa String Ascii.
From stdpp Require Import gmap strings list fin_maps.

Local Open Scope Z_scope.

(** ** Errors and results *)

(** The error values that the modelled functions return.  Constructors carry
    the data that the Go code formats into the message. *)
Inductive Error : Type :=
  (* types/math *)
  | InvalidAmount (s : string)            (* not a decimal, or negative *)
  | PrecisionExceeded (s : string) (max : N)
  | InsufficientBalance                   (* errors.ErrInsufficientFunds *)
  (* cosmos-sdk orm/types/ormerrors *)
  | NotFound
  | NotFoundOnUpdate
  (* cosmos-sdk types/errors and x/ecocredit, with the wrapped message *)
  | ErrInvalidRequest_getBatch (denom : string)
  | ErrInvalidRequest_getBalance (denom : string) (owner : string)
  | ErrInvalidRequest_noBalances
  | ErrInvalidRequest_noSupplies
  | ErrInvalidRequest_projectKey
  | ErrInvalidRequest_startDate
  | ErrInvalidRequest_endDate
  | ErrInvalidRequest_dates
  | ErrInsufficientCredits (denom : string)
  | ErrNotFound_creditType (abbrev : string)
  | ErrNotFound_supply (batch : N)
  | ErrInvalidCoins_supply (batch : N)
  | ErrInvalidType_batch (batch : N)
  | ErrUnknownBatchInBasket (batch : N)
  (* errors of functions that live outside the module *)
  | ErrExternal (msg : string).

Inductive Result (A : Type) : Type :=
  | Ok (a : A)
  | Err (e : Error).
Arguments Ok {A} a.
Arguments Err {A} e.

Definition isOk {A} (r : Result A) : bool :=
  match r with Ok _ => true | Err _ => false end.

#[export] Instance Result_ret : MRet Result := fun _ a => Ok a.
#[export] Instance Result_bind : MBind Result := fun _ _ f r =>
  match r with Ok a => f a | Err e => Err e end.

(** ** The decimal engine (package types/math) *)

Module math.

(** Modelled from the spec: the Decimal Engine of section 4.1, which is the
    package [types/math] that the keeper and the genesis validation import;
    every definition of this module belongs to that model.  A decimal is an
    exact fixed-point value: an integer coefficient and a number of
    fractional digits, [coeff / 10^scale].  Parsing keeps the digits that
    were written ("10.50" has scale 2), addition and subtraction work at the
    larger scale of the two operands, and printing writes exactly [scale]
    fractional digits. *)
Record Dec : Type := mkDec { coeff : Z; scale : nat }.

#[export] Instance Dec_eq_dec : EqDecision Dec.
Proof. solve_decision. Defined.

Definition pow10 (n : nat) : Z := 10 ^ Z.of_nat n.

(** The rational number a decimal stands for. *)
Definition value (d : Dec) : Q := inject_Z (coeff d) / inject_Z (pow10 (scale d)).

(** Modelled from the spec: the decimal of an integer. *)
Definition NewDecFromInt64 (n : Z) : Dec := mkDec n 0.

(** Modelled from the spec: the sign tests of a decimal. *)
Definition IsZero (d : Dec) : bool := bool_decide (coeff d = 0).

Definition IsNegative (d : Dec) : bool := bool_decide (coeff d < 0).

(** Modelled from the spec: the fractional digit count of a decimal. *)
Definition NumDecimalPlaces (d : Dec) : N := N.of_nat (scale d).

(** Coefficient of [d] rewritten at a scale [s] that is at least its own. *)
Definition rescale (s : nat) (d : Dec) : Z := coeff d * pow10 (s - scale d).

(** Modelled from the spec: [add(a, b)] is exact and never loses precision. *)
Definition Add (x y : Dec) : Result Dec :=
  let s := Nat.max (scale x) (scale y) in
  Ok (mkDec (rescale s x + rescale s y) s).

(** Modelled from the spec: [Dec.Sub] of [types/math], the subtraction of
    the decimal type itself.  The spec describes [safeSub] as the variant
    that fails when [b > a]; the plain one is exact like [add] and its
    result is signed. *)
Definition Sub (x y : Dec) : Result Dec :=
  let s := Nat.max (scale x) (scale y) in
  Ok (mkDec (rescale s x - rescale s y) s).

(** Modelled from the spec: [safeSub(a, b)] fails with kind
    InsufficientBalance if [b > a]. *)
Definition SafeSubBalance (x y : Dec) : Result Dec :=
  z ← Sub x y;
  if IsNegative z then Err InsufficientBalance else Ok z.

(** Modelled from the spec: the addition used on balances, with the same
    result as [Add]. *)
Definition SafeAddBalance (x y : Dec) : Result Dec := Add x y.

(** Modelled from the spec: [compare(a, b)]. *)
Definition Cmp (x y : Dec) : comparison :=
  let s := Nat.max (scale x) (scale y) in
  Z.compare (rescale s x) (rescale s y).

(** *** Decimal strings *)

Definition zero_char : ascii := "0"%char.
Definition dot_char : ascii := "."%char.
Definition minus_char : ascii := "-"%char.

Definition digit_of_ascii (c : ascii) : option Z :=
  let n := Z.of_N (N_of_ascii c) in
  if bool_decide (48 ≤ n ≤ 57) then Some (n - 48) else None.

Definition ascii_of_digit (d : Z) : ascii := ascii_of_N (Z.to_N (48 + d)).

Definition is_digit (c : ascii) : Prop := is_Some (digit_of_ascii c).

(** Horner evaluation of a run of digits, [None] at the first other
    character. *)
Fixpoint read_digits (l : list ascii) (acc : Z) : option Z :=
  match l with
  | [] => Some acc
  | c :: r =>
      match digit_of_ascii c with
      | Some d => read_digits r (10 * acc + d)
      | None => None
      end
  end.

(** Cuts a string at its first dot. *)
Fixpoint split_dot (l : list ascii) : list ascii * option (list ascii) :=
  match l with
  | [] => ([], None)
  | c :: r =>
      if bool_decide (c = dot_char) then ([], Some r)
      else let '(a, b) := split_dot r in (c :: a, b)
  end.

Definition parse_unsigned (l : list ascii) : option Dec :=
  match split_dot l with
  | ([], _) => None
  | (ip, None) => c ← read_digits ip 0; Some (mkDec c 0)
  | (_, Some []) => None
  | (ip, Some fp) => c ← read_digits (ip ++ fp) 0; Some (mkDec c (length fp))
  end.

Definition parse_signed (l : list ascii) : option Dec :=
  match l with
  | c :: r =>
      if bool_decide (c = minus_char)
      then d ← parse_unsigned r; Some (mkDec (- coeff d) (scale d))
      else parse_unsigned l
  | [] => None
  end.

(** Modelled from the spec: parsing of a base-10 decimal string (no exponent
    notation), with an optional leading minus sign. *)
Definition NewDecFromString (s : string) : Result Dec :=
  match parse_signed (list_ascii_of_string s) with
  | Some d => Ok d
  | None => Err (InvalidAmount s)
  end.

(** Modelled from the spec: reject (kind InvalidAmount) what is not a
    well-formed non-negative base-10 number. *)
Definition NewNonNegativeDecFromString (s : string) : Result Dec :=
  d ← NewDecFromString s;
  if IsNegative d then Err (InvalidAmount s) else Ok d.

(** Modelled from the spec: reject (kind PrecisionExceeded) a value whose
    fractional digit count exceeds the target precision. *)
Definition NewNonNegativeFixedDecFromString (s : string) (max : N) : Result Dec :=
  d ← NewNonNegativeDecFromString s;
  if bool_decide (max < NumDecimalPlaces d)%N
  then Err (PrecisionExceeded s max) else Ok d.

(** The digits of a non-negative integer, most significant first.  The fuel
    bounds the number of digits; [digits] supplies enough of it. *)
Fixpoint digits_fuel (fuel : nat) (n : Z) (acc : list ascii) : list ascii :=
  match fuel with
  | O => acc
  | S f =>
      let acc' := ascii_of_digit (n mod 10) :: acc in
      if bool_decide (n < 10) then acc' else digits_fuel f (n / 10) acc'
  end.

Definition digits (n : Z) : list ascii :=
  digits_fuel (S (Z.to_nat (Z.log2 n))) n [].

Definition print_unsigned (c : Z) (k : nat) : list ascii :=
  let ds := digits c in
  let padded := replicate (S k - length ds) zero_char ++ ds in
  let n := (length padded - k)%nat in
  match k with
  | O => padded
  | S _ => take n padded ++ dot_char :: drop n padded
  end.

(** Modelled from the spec: values are carried as exact decimal strings at
    rest; [String] writes a decimal in plain notation with all the
    fractional digits of its scale. *)
Definition String (d : Dec) : string :=
  string_of_list_ascii
    (if bool_decide (coeff d < 0)
     then minus_char :: print_unsigned (- coeff d) (scale d)
     else print_unsigned (coeff d) (scale d)).

End math.


#[export] Instance Dec_inhabited : Inhabited math.Dec :=
  populate (math.mkDec 0 0).

(** The decimal value of an amount string at rest; a string that is not a
    decimal (the empty string of an unset field among them) counts for
    nothing, as in [calculateSupply]. *)
Definition amount (s : string) : Q :=
  match math.NewDecFromString s with
  | Ok d => math.value d
  | Err _ => 0%Q
  end.

(** ** State tables (api/regen/ecocredit/v1) *)

(** An account address: the raw bytes of [sdk.AccAddress]. *)
Definition AccAddress : Type := string.

Module CreditType.
Record t : Type := mk { Abbreviation : string; Precision : N }.
End CreditType.

Module Class.
Record t : Type := mk { Key : N; Id : string; CreditTypeAbbrev : string }.
End Class.

Module Project.
Record t : Type := mk { Key : N; Id : string; ClassKey : N }.
End Project.

(** google.protobuf.Timestamp, compared as gogoproto's [Timestamp.Compare]
    does: seconds first, then nanoseconds. *)
Module Timestamp.
Record t : Type := mk { Seconds : Z; Nanos : Z }.

Definition Compare (this that : t) : Z :=
  if bool_decide (Seconds this ≠ Seconds that) then
    if bool_decide (Seconds this < Seconds that) then -1 else 1
  else if bool_decide (Nanos this ≠ Nanos that) then
    if bool_decide (Nanos this < Nanos that) then -1 else 1
  else 0.

(** [a] is strictly later than [b]. *)
Definition after (a b : t) : Prop :=
  Seconds b < Seconds a ∨ (Seconds b = Seconds a ∧ Nanos b < Nanos a).
End Timestamp.

Module Batch.
Record t : Type := mk {
  Key : N;
  Issuer : AccAddress;
  ProjectKey : N;
  Denom : string;
  StartDate : option Timestamp.t;
  EndDate : option Timestamp.t;
}.
End Batch.

Module BatchSupply.
Record t : Type := mk {
  BatchKey : N;
  TradableAmount : string;
  RetiredAmount : string;
  CancelledAmount : string;
}.
End BatchSupply.

Module BatchBalance.
Record t : Type := mk {
  BatchKey : N;
  Address : AccAddress;
  TradableAmount : string;
  RetiredAmount : string;
  EscrowedAmount : string;
}.
End BatchBalance.

(** basket/v1 BasketBalance: credits of a batch held by a basket. *)
Module BasketBalance.
Record t : Type := mk { BasketId : N; BatchDenom : string; Balance : string }.
End BasketBalance.

(** The tables of [api.StateStore] and of the basket store, each keyed by
    its primary key. *)
Record StateStore : Type := mkStateStore {
  CreditTypeTable : gmap string CreditType.t;
  ClassTable : gmap N Class.t;
  ProjectTable : gmap N Project.t;
  BatchTable : gmap N Batch.t;
  BatchSupplyTable : gmap N BatchSupply.t;
  BatchBalanceTable : gmap (AccAddress * N) BatchBalance.t;
  BasketBalanceTable : gmap (N * string) BasketBalance.t;
}.

(** ** Messages and events (regen/ecocredit/v1 tx.proto, events.proto) *)

Module SendCredits.
Record t : Type := mk {
  BatchDenom : string;
  TradableAmount : string;
  RetiredAmount : string;
  RetirementJurisdiction : string;
}.
End SendCredits.

Module MsgSend.
Record t : Type := mk {
  Sender : string;
  Recipient : string;
  Credits : list SendCredits.t;
}.
End MsgSend.

Module Credits.
Record t : Type := mk { BatchDenom : string; Amount : string }.
End Credits.

Module MsgRetire.
Record t : Type := mk {
  Owner : string;
  Credits : list Credits.t;
  Jurisdiction : string;
}.
End MsgRetire.

Module MsgCancel.
Record t : Type := mk {
  Owner : string;
  Credits : list Credits.t;
  Reason : string;
}.
End MsgCancel.

Inductive MsgSendResponse : Type := mkMsgSendResponse.
Inductive MsgRetireResponse : Type := mkMsgRetireResponse.
Inductive MsgCancelResponse : Type := mkMsgCancelResponse.

Inductive Event : Type :=
  | EventTransfer (Sender Recipient BatchDenom TradableAmount RetiredAmount : string)
  | EventRetire (Owner BatchDenom Amount Jurisdiction : string)
  | EventCancel (Owner BatchDenom Amount Reason : string).

(** ** The context of a keeper call *)

(** A write made to a table through the context. *)
Inductive Write : Type :=
  | WriteBalance (b : BatchBalance.t)
  | WriteSupply (s : BatchSupply.t).

(** What a keeper method reads and changes: the tables, the log of the
    writes made to them (latest first), the events handed to the event
    manager (latest first) and the gas consumed.  The gas meter is taken
    without a limit. *)
Record Context : Type := mkContext {
  stateStore : StateStore;
  storeWrites : list Write;
  events : list Event;
  gasConsumed : N;
}.

(** A keeper method: the Go method returns a value or an error, and in both
    cases the context keeps what was written before the return. *)
Definition M (A : Type) : Type := Context → Result A * Context.

#[export] Instance M_ret : MRet M := fun _ a ctx => (Ok a, ctx).
#[export] Instance M_bind : MBind M := fun _ _ f m ctx =>
  match m ctx with
  | (Ok a, ctx') => f a ctx'
  | (Err e, ctx') => (Err e, ctx')
  end.

Definition fail {A} (e : Error) : M A := fun ctx => (Err e, ctx).

Definition lift {A} (r : Result A) : M A := fun ctx => (r, ctx).

(** Runs [m] and hands its error, if any, to the caller as a value: the
    [x, err := f(...)] of the Go code before [err] is inspected. *)
Definition try {A} (m : M A) : M (Result A) := fun ctx =>
  let '(r, ctx') := m ctx in (Ok r, ctx').

Definition getStore : M StateStore := fun ctx => (Ok (stateStore ctx), ctx).

Fixpoint forEach {A} (l : list A) (body : A → M unit) : M unit :=
  match l with
  | [] => mret ()
  | x :: r => body x ≫= λ _, forEach r body
  end.

Definition set_BatchBalanceTable (t : gmap (AccAddress * N) BatchBalance.t)
    (s : StateStore) : StateStore :=
  mkStateStore (CreditTypeTable s) (ClassTable s) (ProjectTable s)
    (BatchTable s) (BatchSupplyTable s) t (BasketBalanceTable s).

Definition set_BatchSupplyTable (t : gmap N BatchSupply.t)
    (s : StateStore) : StateStore :=
  mkStateStore (CreditTypeTable s) (ClassTable s) (ProjectTable s)
    (BatchTable s) t (BatchBalanceTable s) (BasketBalanceTable s).

(** *** Table access (cosmos-sdk orm) *)

Definition lookupOr {K A} `{Countable K} (t : gmap K A) (k : K) : Result A :=
  match t !! k with
  | Some a => Ok a
  | None => Err NotFound
  end.

(** The unique index of the batch table on its denom. *)
Definition batchByDenom (t : gmap N Batch.t) (denom : string) : option Batch.t :=
  match list_find (λ kb, Batch.Denom kb.2 = denom) (map_to_list t) with
  | Some (_, (_, batch)) => Some batch
  | None => None
  end.

Definition BatchTable_GetByDenom (denom : string) : M Batch.t :=
  store ← getStore;
  match batchByDenom (BatchTable store) denom with
  | Some batch => mret batch
  | None => fail NotFound
  end.

Definition BatchSupplyTable_Get (key : N) : M BatchSupply.t :=
  store ← getStore; lift (lookupOr (BatchSupplyTable store) key).

Definition BatchBalanceTable_Get (addr : AccAddress) (key : N) : M BatchBalance.t :=
  store ← getStore; lift (lookupOr (BatchBalanceTable store) (addr, key)).

Definition balanceKey (b : BatchBalance.t) : AccAddress * N :=
  (BatchBalance.Address b, BatchBalance.BatchKey b).

(** [Save] inserts the record or replaces the one with its primary key. *)
Definition BatchBalanceTable_Save (b : BatchBalance.t) : M unit := fun ctx =>
  let store := stateStore ctx in
  (Ok (),
   mkContext
     (set_BatchBalanceTable (<[balanceKey b := b]> (BatchBalanceTable store)) store)
     (WriteBalance b :: storeWrites ctx) (events ctx) (gasConsumed ctx)).

(** [Update] replaces the record with the same primary key and fails when
    there is none. *)
Definition BatchBalanceTable_Update (b : BatchBalance.t) : M unit :=
  store ← getStore;
  match BatchBalanceTable store !! balanceKey b with
  | Some _ => BatchBalanceTable_Save b
  | None => fail NotFoundOnUpdate
  end.

Definition BatchSupplyTable_Update (s : BatchSupply.t) : M unit := fun ctx =>
  let store := stateStore ctx in
  match BatchSupplyTable store !! BatchSupply.BatchKey s with
  | Some _ =>
      (Ok (),
       mkContext
         (set_BatchSupplyTable
            (<[BatchSupply.BatchKey s := s]> (BatchSupplyTable store)) store)
         (WriteSupply s :: storeWrites ctx) (events ctx) (gasConsumed ctx))
  | None => (Err NotFoundOnUpdate, ctx)
  end.

Definition EmitTypedEvent (e : Event) : M unit := fun ctx =>
  (Ok (),
   mkContext (stateStore ctx) (storeWrites ctx) (e :: events ctx) (gasConsumed ctx)).

Definition ConsumeGas (amount : N) : M unit := fun ctx =>
  (Ok (),
   mkContext (stateStore ctx) (storeWrites ctx) (events ctx)
     (gasConsumed ctx + amount)%N).

(** ecocredit.GasCostPerIteration, a constant of the package [x/ecocredit];
    its value plays no part in what is proved. *)
Definition GasCostPerIteration : N := 10.

(** *** server/utils *)

(** Modelled from the spec: utils.GetNonNegativeFixedDecs parses every string
    at the given precision, in order, and fails at the first that does not
    parse. *)
Fixpoint GetNonNegativeFixedDecs (precision : N) (decimals : list string)
    : Result (list math.Dec) :=
  match decimals with
  | [] => Ok []
  | s :: r =>
      d ← math.NewNonNegativeFixedDecFromString s precision;
      ds ← GetNonNegativeFixedDecs precision r;
      Ok (d :: ds)
  end.

(** Modelled from the spec: utils.GetCreditTypeFromBatchDenom resolves the
    credit type of a batch through the chain batch, project, class, credit
    type. *)
Definition creditTypeOfDenom (store : StateStore) (denom : string) : Result CreditType.t :=
  match batchByDenom (BatchTable store) denom with
  | Some batch =>
      project ← lookupOr (ProjectTable store) (Batch.ProjectKey batch);
      class ← lookupOr (ClassTable store) (Project.ClassKey project);
      lookupOr (CreditTypeTable store) (Class.CreditTypeAbbrev class)
  | None => Err NotFound
  end.

Definition GetCreditTypeFromBatchDenom (denom : string) : M CreditType.t :=
  store ← getStore; lift (creditTypeOfDenom store denom).

(** Bech32 coding of addresses belongs to the cosmos-sdk; the keeper only
    calls it. *)
Class Bech32 : Type := {
  AccAddressFromBech32 : string → Result AccAddress;
  AccAddress_String : AccAddress → string;
}.

(** [addr, _ := sdk.AccAddressFromBech32(s)]: the error is dropped and the
    address is then empty. *)
Definition addressOrEmpty (r : Result AccAddress) : AccAddress :=
  match r with
  | Ok a => a
  | Err _ => EmptyString
  end.

(** ** The keeper (x/ecocredit/server/core) *)

(** The balance that [sendEcocredits] works with for the recipient: the
    stored record, or a record of zeros when there is none. *)
Definition sendTo (batch : Batch.t) (to : AccAddress) (store : StateStore)
    : BatchBalance.t :=
  default (BatchBalance.mk (Batch.Key batch) to "0" "0" EmptyString)
    (BatchBalanceTable store !! (to, Batch.Key batch)).

Section Keeper.
Context {codec : Bech32}.

Local Open Scope string_scope.

(** send.go, [Keeper.sendEcocredits]: one entry of a MsgSend. *)
Definition sendEcocredits (credit : SendCredits.t) (to from : AccAddress) : M unit :=
  r ← try (BatchTable_GetByDenom (SendCredits.BatchDenom credit));
  batch ← match r with
          | Ok b => mret b
          | Err _ => fail (ErrInvalidRequest_getBatch (SendCredits.BatchDenom credit))
          end;
  creditType ← GetCreditTypeFromBatchDenom (Batch.Denom batch);
  let precision := CreditType.Precision creditType in
  batchSupply ← BatchSupplyTable_Get (Batch.Key batch);
  r ← try (BatchBalanceTable_Get from (Batch.Key batch));
  fromBalance ← match r with
                | Ok b => mret b
                | Err NotFound => fail (ErrInsufficientCredits (Batch.Denom batch))
                | Err e => fail e
                end;
  r ← try (BatchBalanceTable_Get to (Batch.Key batch));
  toBalance ← match r with
              | Ok b => mret b
              | Err NotFound =>
                  mret (BatchBalance.mk (Batch.Key batch) to "0" "0" EmptyString)
              | Err e => fail e
              end;
  decs ← lift (GetNonNegativeFixedDecs precision
                 [BatchBalance.TradableAmount toBalance;
                  BatchBalance.RetiredAmount toBalance;
                  BatchBalance.TradableAmount fromBalance;
                  BatchBalance.RetiredAmount fromBalance;
                  SendCredits.TradableAmount credit;
                  SendCredits.RetiredAmount credit;
                  BatchSupply.TradableAmount batchSupply;
                  BatchSupply.RetiredAmount batchSupply]);
  let toTradableBalance := decs !!! 0%nat in
  let toRetiredBalance := decs !!! 1%nat in
  let fromTradableBalance := decs !!! 2%nat in
  let fromRetiredBalance := decs !!! 3%nat in
  let sendAmtTradable := decs !!! 4%nat in
  let sendAmtRetired := decs !!! 5%nat in
  let batchSupplyTradable := decs !!! 6%nat in
  let batchSupplyRetired := decs !!! 7%nat in
  '(fromTradableBalance, toTradableBalance) ←
    (if negb (math.IsZero sendAmtTradable) then
       fromTradableBalance ← lift (math.SafeSubBalance fromTradableBalance sendAmtTradable);
       toTradableBalance ← lift (math.Add toTradableBalance sendAmtTradable);
       mret (fromTradableBalance, toTradableBalance)
     else mret (fromTradableBalance, toTradableBalance));
  let didRetire := negb (math.IsZero sendAmtRetired) in
  '(fromTradableBalance, toRetiredBalance, batchSupplyRetired, batchSupplyTradable) ←
    (if didRetire then
       fromTradableBalance ← lift (math.SafeSubBalance fromTradableBalance sendAmtRetired);
       toRetiredBalance ← lift (math.Add toRetiredBalance sendAmtRetired);
       batchSupplyRetired ← lift (math.Add batchSupplyRetired sendAmtRetired);
       batchSupplyTradable ← lift (math.Sub batchSupplyTradable sendAmtRetired);
       mret (fromTradableBalance, toRetiredBalance, batchSupplyRetired, batchSupplyTradable)
     else mret (fromTradableBalance, toRetiredBalance, batchSupplyRetired, batchSupplyTradable));
  (* update the "to" balance *)
  _ ← BatchBalanceTable_Save
        (BatchBalance.mk (Batch.Key batch) to
           (math.String toTradableBalance) (math.String toRetiredBalance) EmptyString);
  (* update the "from" balance *)
  _ ← BatchBalanceTable_Update
        (BatchBalance.mk (Batch.Key batch) from
           (math.String fromTradableBalance) (math.String fromRetiredBalance) EmptyString);
  (* update the "retired" supply only if credits were retired *)
  if didRetire then
    _ ← BatchSupplyTable_Update
          (BatchSupply.mk (Batch.Key batch)
             (math.String batchSupplyTradable) (math.String batchSupplyRetired)
             (BatchSupply.CancelledAmount batchSupply));
    EmitTypedEvent
      (EventRetire (AccAddress_String to) (SendCredits.BatchDenom credit)
         (math.String sendAmtRetired) (SendCredits.RetirementJurisdiction credit))
  else mret ().

(** send.go, [Keeper.Send]. *)
Definition Send (req : MsgSend.t) : M MsgSendResponse :=
  let sender := addressOrEmpty (AccAddressFromBech32 (MsgSend.Sender req)) in
  let recipient := addressOrEmpty (AccAddressFromBech32 (MsgSend.Recipient req)) in
  _ ← forEach (MsgSend.Credits req) (λ credit,
        _ ← sendEcocredits credit recipient sender;
        _ ← EmitTypedEvent
              (EventTransfer (MsgSend.Sender req) (MsgSend.Recipient req)
                 (SendCredits.BatchDenom credit)
                 (SendCredits.TradableAmount credit)
                 (SendCredits.RetiredAmount credit));
        ConsumeGas GasCostPerIteration);
  mret mkMsgSendResponse.

(** retire.go, [Keeper.Retire]: the body of the loop over the credits. *)
Definition retireCredits (req : MsgRetire.t) (owner : AccAddress)
    (credit : Credits.t) : M unit :=
  r ← try (BatchTable_GetByDenom (Credits.BatchDenom credit));
  batch ← match r with
          | Ok b => mret b
          | Err _ => fail (ErrInvalidRequest_getBatch (Credits.BatchDenom credit))
          end;
  creditType ← GetCreditTypeFromBatchDenom (Batch.Denom batch);
  r ← try (BatchBalanceTable_Get owner (Batch.Key batch));
  userBalance ← match r with
                | Ok b => mret b
                | Err _ => fail (ErrInvalidRequest_getBalance (Batch.Denom batch)
                                   (AccAddress_String owner))
                end;
  decs ← lift (GetNonNegativeFixedDecs (CreditType.Precision creditType)
                 [Credits.Amount credit; BatchBalance.TradableAmount userBalance]);
  let amtToRetire := decs !!! 0%nat in
  let userTradableBalance := decs !!! 1%nat in
  userTradableBalance ← lift (math.SafeSubBalance userTradableBalance amtToRetire);
  userRetiredBalance ← lift (math.NewNonNegativeFixedDecFromString
                               (BatchBalance.RetiredAmount userBalance)
                               (CreditType.Precision creditType));
  userRetiredBalance ← lift (math.Add userRetiredBalance amtToRetire);
  batchSupply ← BatchSupplyTable_Get (Batch.Key batch);
  decs ← lift (GetNonNegativeFixedDecs (CreditType.Precision creditType)
                 [BatchSupply.RetiredAmount batchSupply;
                  BatchSupply.TradableAmount batchSupply]);
  let supplyRetired := decs !!! 0%nat in
  let supplyTradable := decs !!! 1%nat in
  supplyRetired ← lift (math.Add supplyRetired amtToRetire);
  supplyTradable ← lift (math.SafeSubBalance supplyTradable amtToRetire);
  _ ← BatchBalanceTable_Update
        (BatchBalance.mk (Batch.Key batch) owner
           (math.String userTradableBalance) (math.String userRetiredBalance) EmptyString);
  _ ← BatchSupplyTable_Update
        (BatchSupply.mk (Batch.Key batch)
           (math.String supplyTradable) (math.String supplyRetired)
           (BatchSupply.CancelledAmount batchSupply));
  _ ← EmitTypedEvent
        (EventRetire (MsgRetire.Owner req) (Credits.BatchDenom credit)
           (Credits.Amount credit) (MsgRetire.Jurisdiction req));
  ConsumeGas GasCostPerIteration.

(** retire.go, [Keeper.Retire]. *)
Definition Retire (req : MsgRetire.t) : M MsgRetireResponse :=
  let owner := addressOrEmpty (AccAddressFromBech32 (MsgRetire.Owner req)) in
  _ ← forEach (MsgRetire.Credits req) (retireCredits req owner);
  mret mkMsgRetireResponse.

(** cancel.go, [Keeper.Cancel]: the body of the loop over the credits. *)
Definition cancelCredits (req : MsgCancel.t) (owner : AccAddress)
    (credit : Credits.t) : M unit :=
  r ← try (BatchTable_GetByDenom (Credits.BatchDenom credit));
  batch ← match r with
          | Ok b => mret b
          | Err _ => fail (ErrInvalidRequest_getBatch (Credits.BatchDenom credit))
          end;
  creditType ← GetCreditTypeFromBatchDenom (Batch.Denom batch);
  r ← try (BatchBalanceTable_Get owner (Batch.Key batch));
  userBalance ← match r with
                | Ok b => mret b
                | Err _ => fail (ErrInvalidRequest_getBalance (Batch.Denom batch)
                                   (AccAddress_String owner))
                end;
  batchSupply ← BatchSupplyTable_Get (Batch.Key batch);
  decs ← lift (GetNonNegativeFixedDecs (CreditType.Precision creditType)
                 [Credits.Amount credit;
                  BatchSupply.TradableAmount batchSupply;
                  BatchBalance.TradableAmount userBalance;
                  BatchSupply.CancelledAmount batchSupply]);
  let amtToCancelDec := decs !!! 0%nat in
  let supplyTradable := decs !!! 1%nat in
  let userBalTradable := decs !!! 2%nat in
  let cancelledDec := decs !!! 3%nat in
  userBalTradable ← lift (math.SafeSubBalance userBalTradable amtToCancelDec);
  supplyTradable ← lift (math.SafeSubBalance supplyTradable amtToCancelDec);
  cancelledDec ← lift (math.Add cancelledDec amtToCancelDec);
  _ ← BatchBalanceTable_Update
        (BatchBalance.mk (Batch.Key batch) owner
           (math.String userBalTradable)
           (BatchBalance.RetiredAmount userBalance) EmptyString);
  _ ← BatchSupplyTable_Update
        (BatchSupply.mk (Batch.Key batch)
           (math.String supplyTradable)
           (BatchSupply.RetiredAmount batchSupply)
           (math.String cancelledDec));
  _ ← EmitTypedEvent
        (EventCancel (AccAddress_String owner) (Credits.BatchDenom credit)
           (Credits.Amount credit) (MsgCancel.Reason req));
  ConsumeGas GasCostPerIteration.

(** cancel.go, [Keeper.Cancel]. *)
Definition Cancel (req : MsgCancel.t) : M MsgCancelResponse :=
  owner ← lift (AccAddressFromBech32 (MsgCancel.Owner req));
  _ ← forEach (MsgCancel.Credits req) (cancelCredits req owner);
  mret mkMsgCancelResponse.

End Keeper.

(** ** Genesis validation (x/ecocredit/core/genesis.go) *)

(** The content of the tables after the JSON import, each as the sequence of
    records that the iterator of the table yields. *)
Record GenesisState : Type := mkGenesisState {
  CreditTypes : list CreditType.t;
  Classes : list Class.t;
  Projects : list Project.t;
  Batches : list Batch.t;
  BatchSupplies : list BatchSupply.t;
  BatchBalances : list BatchBalance.t;
  BasketBalances : list BasketBalance.t;
}.

Fixpoint foldlM {A B} (f : B → A → Result B) (b : B) (l : list A) : Result B :=
  match l with
  | [] => Ok b
  | x :: r => b' ← f b x; foldlM f b' r
  end.

(** Parses an amount field, an unset (empty) field standing for zero. *)
Definition parseOrZero (s : string) (precision : N) : Result math.Dec :=
  if bool_decide (s ≠ EmptyString)
  then math.NewNonNegativeFixedDecFromString s precision
  else Ok (math.NewDecFromInt64 0).

(** genesis.go, [calculateSupply]: one step of the loop over the balances. *)
Definition calculateSupply_step (batchIdToPrecision : gmap N N)
    (batchIdToSupply : gmap N math.Dec) (balance : BatchBalance.t)
    : Result (gmap N math.Dec) :=
  match batchIdToPrecision !! BatchBalance.BatchKey balance with
  | None => Err (ErrInvalidType_batch (BatchBalance.BatchKey balance))
  | Some precision =>
      tradable ← parseOrZero (BatchBalance.TradableAmount balance) precision;
      retired ← parseOrZero (BatchBalance.RetiredAmount balance) precision;
      escrowed ← parseOrZero (BatchBalance.EscrowedAmount balance) precision;
      total ← math.Add tradable retired;
      total ← math.Add total escrowed;
      match batchIdToSupply !! BatchBalance.BatchKey balance with
      | Some supply =>
          result ← math.SafeAddBalance supply total;
          Ok (<[BatchBalance.BatchKey balance := result]> batchIdToSupply)
      | None =>
          Ok (<[BatchBalance.BatchKey balance := total]> batchIdToSupply)
      end
  end.

(** genesis.go, [calculateSupply]. *)
Definition calculateSupply (batchIdToPrecision : gmap N N)
    (balances : list BatchBalance.t) (batchIdToSupply : gmap N math.Dec)
    : Result (gmap N math.Dec) :=
  foldlM (calculateSupply_step batchIdToPrecision) batchIdToSupply balances.

(** genesis.go, [validateSupply]: the loop over the calculated supplies.  Go
    ranges over a map in an order of its choosing; the loop is given here
    for any order of the entries. *)
Fixpoint validateSupply_range (batchIdToSupply : gmap N math.Dec)
    (entries : list (N * math.Dec)) : Result unit :=
  match entries with
  | [] => Ok ()
  | (denom, cs) :: rest =>
      match batchIdToSupply !! denom with
      | Some s =>
          if bool_decide (math.Cmp s cs ≠ Eq)
          then Err (ErrInvalidCoins_supply denom)
          else validateSupply_range batchIdToSupply rest
      | None => Err (ErrNotFound_supply denom)
      end
  end.

(** genesis.go, [validateSupply]. *)
Definition validateSupply (batchIdToSupplyCal batchIdToSupply : gmap N math.Dec)
    : Result unit :=
  if bool_decide (size batchIdToSupplyCal = 0 ∧ 0 < size batchIdToSupply)%nat
  then Err ErrInvalidRequest_noBalances
  else if bool_decide (size batchIdToSupply = 0 ∧ 0 < size batchIdToSupplyCal)%nat
  then Err ErrInvalidRequest_noSupplies
  else validateSupply_range batchIdToSupply (map_to_list batchIdToSupplyCal).

(** genesis.go, [ValidateGenesis], from the point where the tables have been
    imported (line 74 on): the maps built from the credit types, classes,
    projects and batches, the declared supply of every batch, the supply
    calculated from the balances and the basket balances, and their
    comparison.  The checks made before that point, on the params and on
    each row while it is imported ([validateMsg], with [Batch.Validate] and
    the like), are not part of this definition: a state that the program
    accepts is accepted here, and a state accepted here is accepted by the
    program only if it passes those checks too. *)
Definition ValidateGenesis (g : GenesisState) : Result unit :=
  let abbrevToPrecision : gmap string N :=
    foldl (λ m ct, <[CreditType.Abbreviation ct := CreditType.Precision ct]> m)
      ∅ (CreditTypes g) in
  (* make sure credit type exist for class abbreviation in params *)
  _ ← foldlM (λ _ class,
        match abbrevToPrecision !! Class.CreditTypeAbbrev class with
        | Some _ => Ok ()
        | None => Err (ErrNotFound_creditType (Class.CreditTypeAbbrev class))
        end) () (Classes g);
  let projectKeyToClassKey : gmap N N :=
    foldl (λ m project,
        match m !! Project.Key project with
        | Some _ => m
        | None => <[Project.Key project := Project.ClassKey project]> m
        end) ∅ (Projects g) in
  (* create index batchID => precision for faster lookup *)
  idx ← foldlM (λ (acc : gmap N N * gmap string N) batch,
        let '(batchIdToPrecision, batchDenomToIdMap) := acc in
        let batchDenomToIdMap := <[Batch.Denom batch := Batch.Key batch]> batchDenomToIdMap in
        match batchIdToPrecision !! Batch.Key batch with
        | Some _ => Ok (batchIdToPrecision, batchDenomToIdMap)
        | None =>
            let classKey := default 0%N (projectKeyToClassKey !! Batch.ProjectKey batch) in
            match list_find (λ c, Class.Key c = classKey) (Classes g) with
            | None => Err NotFound
            | Some (_, class) =>
                if bool_decide (Class.Key class = classKey)
                then Ok (<[Batch.Key batch :=
                            default 0%N (abbrevToPrecision !! Class.CreditTypeAbbrev class)]>
                           batchIdToPrecision, batchDenomToIdMap)
                else Ok (batchIdToPrecision, batchDenomToIdMap)
            end
        end) (∅, ∅) (Batches g);
  let '(batchIdToPrecision, batchDenomToIdMap) := idx in
  (* calculate total supply for each credit batch (tradable + retired supply) *)
  batchIdToSupply ← foldlM (λ (m : gmap N math.Dec) batchSupply,
        let precision := default 0%N (batchIdToPrecision !! BatchSupply.BatchKey batchSupply) in
        tSupply ← parseOrZero (BatchSupply.TradableAmount batchSupply) precision;
        rSupply ← parseOrZero (BatchSupply.RetiredAmount batchSupply) precision;
        total ← math.SafeAddBalance tSupply rSupply;
        Ok (<[BatchSupply.BatchKey batchSupply := total]> m)) ∅ (BatchSupplies g);
  (* calculate credit batch supply from genesis tradable, retired and escrowed balances *)
  batchIdToCalSupply ← calculateSupply batchIdToPrecision (BatchBalances g) ∅;
  batchIdToCalSupply ← foldlM (λ (m : gmap N math.Dec) bBalance,
        match batchDenomToIdMap !! BasketBalance.BatchDenom bBalance with
        | None => Err (ErrUnknownBatchInBasket 0)
        | Some batchId =>
            bb ← math.NewNonNegativeDecFromString (BasketBalance.Balance bBalance);
            match m !! batchId with
            | Some amount =>
                result ← math.SafeAddBalance amount bb;
                Ok (<[batchId := result]> m)
            | None => Err (ErrUnknownBatchInBasket batchId)
            end
        end) batchIdToCalSupply (BasketBalances g);
  (* verify calculated total amount of each credit batch matches the total supply *)
  validateSupply batchIdToCalSupply batchIdToSupply.

Section BatchValidate.
Context {codec : Bech32}.
(** [ValidateBatchDenom] checks the format of a denom; it is declared in
    another file of the package and is taken as given. *)
Variable ValidateBatchDenom : string → Result unit.

(** genesis.go, [Batch.Validate]. *)
Definition Batch_Validate (b : Batch.t) : Result unit :=
  _ ← ValidateBatchDenom (Batch.Denom b);
  if bool_decide (Batch.ProjectKey b = 0%N) then Err ErrInvalidRequest_projectKey
  else
    match Batch.StartDate b, Batch.EndDate b with
    | None, _ => Err ErrInvalidRequest_startDate
    | Some _, None => Err ErrInvalidRequest_endDate
    | Some startDate, Some endDate =>
        if bool_decide (Timestamp.Compare endDate startDate ≠ 1)
        then Err ErrInvalidRequest_dates
        else
          _ ← AccAddressFromBech32 (AccAddress_String (Batch.Issuer b));
          Ok ()
    end.

End BatchValidate.

(** ** The accounted quantities *)

(** What a holder's record holds of its batch. *)
Definition balanceTotal (b : BatchBalance.t) : Q :=
  (amount (BatchBalance.TradableAmount b) + amount (BatchBalance.RetiredAmount b)
   + amount (BatchBalance.EscrowedAmount b))%Q.

(** Sum over all holders of a batch of what their records hold. *)
Definition holdersTotal (key : N) (t : gmap (AccAddress * N) BatchBalance.t) : Q :=
  map_fold (λ k b acc,
      if bool_decide (k.2 = key) then (balanceTotal b + acc)%Q else acc) 0%Q t.

(** Sum of the basket balances of a batch: those whose denom is the denom
    of the batch with the given key. *)
Definition basketTotal (key : N) (s : StateStore) : Q :=
  map_fold (λ _ bb acc,
      match batchByDenom (BatchTable s) (BasketBalance.BatchDenom bb) with
      | Some batch =>
          if bool_decide (Batch.Key batch = key)
          then (amount (BasketBalance.Balance bb) + acc)%Q else acc
      | None => acc
      end) 0%Q (BasketBalanceTable s).

Definition supplyOf (key : N) (s : StateStore) : BatchSupply.t :=
  default (BatchSupply.mk key EmptyString EmptyString EmptyString) (BatchSupplyTable s !! key).

(** Tradable plus retired supply of a batch, as recorded. *)
Definition declaredSupply (key : N) (s : StateStore) : Q :=
  (amount (BatchSupply.TradableAmount (supplyOf key s))
   + amount (BatchSupply.RetiredAmount (supplyOf key s)))%Q.

(** Tradable plus retired plus cancelled supply of a batch. *)
Definition issuedSupply (key : N) (s : StateStore) : Q :=
  (declaredSupply key s + amount (BatchSupply.CancelledAmount (supplyOf key s)))%Q.

(** The global invariant of the data model, for one batch. *)
Definition supplyInvariant (key : N) (s : StateStore) : Prop :=
  (holdersTotal key (BatchBalanceTable s) + basketTotal key s
   == declaredSupply key s)%Q.

(** What the record [b] stored under the primary key [k] counts for in
    the total held of the batch [key]. *)
Definition held (key : N) (k : AccAddress * N) (b : BatchBalance.t) : Q :=
  if bool_decide (k.2 = key) then balanceTotal b else 0%Q.

Definition heldBefore (key : N) (k : AccAddress * N)
    (t : gmap (AccAddress * N) BatchBalance.t) : Q :=
  match t !! k with
  | Some b => held key k b
  | None => 0%Q
  end.

(** The record that the holder has of the batch of the denom, if there is
    one, has nothing in escrow. *)
Definition noEscrow (addr : AccAddress) (denom : string) (s : StateStore) : Prop :=
  ∀ batch b,
    batchByDenom (BatchTable s) denom = Some batch →
    BatchBalanceTable s !! (addr, Batch.Key batch) = Some b →
    (amount (BatchBalance.EscrowedAmount b) == 0)%Q.

(** A message to the keeper and its execution. *)
Inductive Msg : Type :=
  | MSend (req : MsgSend.t)
  | MRetire (req : MsgRetire.t)
  | MCancel (req : MsgCancel.t).

Definition deliver {codec : Bech32} (m : Msg) : M unit :=
  match m with
  | MSend req => Send req ≫= λ _, mret ()
  | MRetire req => Retire req ≫= λ _, mret ()
  | MCancel req => Cancel req ≫= λ _, mret ()
  end.

(** The context reached from [ctx] by messages that all succeed. *)
Inductive delivered {codec : Bech32} : Context → list Msg → Context → Prop :=
  | delivered_nil ctx : delivered ctx [] ctx
  | delivered_cons ctx m ctx1 ms ctx2 :
      deliver m ctx = (Ok (), ctx1) →
      delivered ctx1 ms ctx2 →
      delivered ctx (m :: ms) ctx2.



(** ** A small ledger for the scenarios *)

Module Scenario.
Local Open Scope string_scope.

(** Addresses written as their text; the empty string is no address. *)
Definition textBech32 : Bech32 := {|
  AccAddressFromBech32 := λ s,
    if bool_decide (s = EmptyString) then Err (ErrExternal "empty address string is not allowed")
    else Ok s;
  AccAddress_String := λ a, a;
|}.

Definition denom : string := "C01-001-20200101-20210101-001".

Definition batch1 : Batch.t :=
  Batch.mk 1 "issuer" 1 denom
    (Some (Timestamp.mk 1577836800 0)) (Some (Timestamp.mk 1609459200 0)).

(** One credit type of precision 2, one class, one project and one batch
    (key 1), with the given balances and supply of that batch. *)
Definition ledger (balances : list BatchBalance.t) (supply : BatchSupply.t) : Context :=
  mkContext
    (mkStateStore
       {[ "C" := CreditType.mk "C" 2 ]}
       {[ 1%N := Class.mk 1 "C01" "C" ]}
       {[ 1%N := Project.mk 1 "C01-001" 1 ]}
       {[ 1%N := batch1 ]}
       {[ 1%N := supply ]}
       (list_to_map ((λ b, (balanceKey b, b)) <$> balances))
       ∅)
    [] [] 0.

(** Scenario A: the sender holds 100.00 tradable credits. *)
Definition ledgerA : Context :=
  ledger [BatchBalance.mk 1 "alice" "100.00" "0" EmptyString]
         (BatchSupply.mk 1 "100.00" "0" "0").

Definition sendA : MsgSend.t :=
  MsgSend.mk "alice" "bob" [SendCredits.mk denom "30.00" "10.00" "US"].

(** A second entry that asks for more than what is left. *)
Definition sendTwice : MsgSend.t :=
  MsgSend.mk "alice" "bob"
    [SendCredits.mk denom "30.00" "10.00" "US";
     SendCredits.mk denom "70.00" "0" EmptyString].

(** A holder with 5.00 credits in escrow next to 20.00 tradable ones. *)
Definition ledgerEscrow : Context :=
  ledger [BatchBalance.mk 1 "alice" "20.00" "0" "5.00"]
         (BatchSupply.mk 1 "25.00" "0" "0").

Definition cancelFive : MsgCancel.t :=
  MsgCancel.mk "alice" [Credits.mk denom "5.00"] "bridge-out".

(** A supply whose tradable part (5) is less than what one holder has as
    tradable credits (10); the other 5 of the supply are recorded as
    retired. *)
Definition ledgerLowSupply : Context :=
  ledger [BatchBalance.mk 1 "alice" "10" "0" EmptyString]
         (BatchSupply.mk 1 "5" "5" "0").

Definition sendRetireTen : MsgSend.t :=
  MsgSend.mk "alice" "bob" [SendCredits.mk denom "0" "10" "US"].

(** The same ledger as a genesis state. *)
Definition genesisLowSupply : GenesisState :=
  mkGenesisState
    [CreditType.mk "C" 2] [Class.mk 1 "C01" "C"] [Project.mk 1 "C01-001" 1]
    [batch1]
    [BatchSupply.mk 1 "5" "5" "0"]
    [BatchBalance.mk 1 "alice" "10" "0" EmptyString]
    [].

(** Scenario D: a supply and no balance at all. *)
Definition genesisD : GenesisState :=
  mkGenesisState
    [CreditType.mk "C" 2] [Class.mk 1 "C01" "C"] [Project.mk 1 "C01-001" 1]
    [batch1]
    [BatchSupply.mk 1 "100" "0" EmptyString]
    [] [].

(** Scenario A with a recipient that already holds 5.00 tradable credits. *)
Definition ledgerBobFive : Context :=
  ledger [BatchBalance.mk 1 "alice" "100.00" "0" EmptyString;
          BatchBalance.mk 1 "bob" "5.00" "0" EmptyString]
         (BatchSupply.mk 1 "105.00" "0" "0").

(** Scenario A with a second record of the sender, of another batch (key
    2), that has 7.00 credits in escrow. *)
Definition ledgerOtherEscrow : Context :=
  ledger [BatchBalance.mk 1 "alice" "100.00" "0" EmptyString;
          BatchBalance.mk 2 "alice" "0" "0" "7.00"]
         (BatchSupply.mk 1 "100.00" "0" "0").

(** A genesis state with a basket: 70 tradable and 20 retired credits with
    one holder, 10 credits in a basket, and a supply of 80 tradable and 20
    retired credits. *)
Definition genesisWithBasket : GenesisState :=
  mkGenesisState
    [CreditType.mk "C" 2] [Class.mk 1 "C01" "C"] [Project.mk 1 "C01-001" 1]
    [batch1]
    [BatchSupply.mk 1 "80" "20" "0"]
    [BatchBalance.mk 1 "alice" "70" "20" EmptyString]
    [BasketBalance.mk 1 denom "10"].

Definition retireTen : MsgRetire.t :=
  MsgRetire.mk "alice" [Credits.mk denom "10.00"] "US".

(** The entry of [sendA]. *)
Definition creditA : SendCredits.t := SendCredits.mk denom "30.00" "10.00" "US".

(** Balance records of two holders of the batch, 100 credits in all. *)
Definition twoBalances : list BatchBalance.t :=
  [BatchBalance.mk 1 "alice" "70" "20" EmptyString;
   BatchBalance.mk 1 "bob" "5" EmptyString "5"].

End Scenario.

(** * What a genesis state holds for a batch *)

(** The value that a map of supplies has for a batch, zero when it has none. *)
Definition mapValue (m : gmap N math.Dec) (key : N) : Q :=
  match m !! key with
  | Some d => math.value d
  | None => 0%Q
  end.

(** Sum of what the balance records of a batch hold, over a sequence of
    records. *)
Fixpoint genesisHeld (key : N) (l : list BatchBalance.t) : Q :=
  match l with
  | [] => 0%Q
  | b :: r =>
      if bool_decide (BatchBalance.BatchKey b = key)
      then (balanceTotal b + genesisHeld key r)%Q
      else genesisHeld key r
  end.

(** The last record in a sequence that satisfies a test: the one that a Go
    map filled in sequence order ends up with. *)
Fixpoint lastWith {A} (P : A → bool) (l : list A) : option A :=
  match l with
  | [] => None
  | x :: r =>
      match lastWith P r with
      | Some y => Some y
      | None => if P x then Some x else None
      end
  end.

Definition lastSupply (key : N) (l : list BatchSupply.t) : option BatchSupply.t :=
  lastWith (λ s, bool_decide (BatchSupply.BatchKey s = key)) l.

Definition lastBatch (denom : string) (l : list Batch.t) : option Batch.t :=
  lastWith (λ b, bool_decide (Batch.Denom b = denom)) l.

(** Sum of the basket balances whose denom is that of the batch [key]. *)
Fixpoint genesisBasket (key : N) (batches : list Batch.t)
    (l : list BasketBalance.t) : Q :=
  match l with
  | [] => 0%Q
  | bb :: r =>
      if bool_decide (Batch.Key <$> lastBatch (BasketBalance.BatchDenom bb) batches
                      = Some key)
      then (amount (BasketBalance.Balance bb) + genesisBasket key batches r)%Q
      else genesisBasket key batches r
  end.


(** ** What a keeper call leaves alone *)

(** The stores [s] and [s'] differ at most in the amounts of the supply
    records and in the balance records of the given holders: the other
    tables are the same, no supply record and no balance record has been
    created for another holder or deleted. *)
Definition frame (holders : list AccAddress) (s s' : StateStore) : Prop :=
  CreditTypeTable s' = CreditTypeTable s ∧
  ClassTable s' = ClassTable s ∧
  ProjectTable s' = ProjectTable s ∧
  BatchTable s' = BatchTable s ∧
  BasketBalanceTable s' = BasketBalanceTable s ∧
  (∀ key, is_Some (BatchSupplyTable s' !! key) ↔ is_Some (BatchSupplyTable s !! key)) ∧
  (∀ k, is_Some (BatchBalanceTable s !! k) → is_Some (BatchBalanceTable s' !! k)) ∧
  (∀ addr key, addr ∉ holders →
     BatchBalanceTable s' !! (addr, key) = BatchBalanceTable s !! (addr, key)).

(** The holders that a message names, as the keeper decodes them. *)
Definition parties {codec : Bech32} (m : Msg) : list AccAddress :=
  match m with
  | MSend req =>
      [addressOrEmpty (AccAddressFromBech32 (MsgSend.Sender req));
       addressOrEmpty (AccAddressFromBech32 (MsgSend.Recipient req))]
  | MRetire req => [addressOrEmpty (AccAddressFromBech32 (MsgRetire.Owner req))]
  | MCancel req => [addressOrEmpty (AccAddressFromBech32 (MsgCancel.Owner req))]
  end.

(** The number of entries of a message. *)
Definition entries (m : Msg) : nat :=
  match m with
  | MSend req => length (MsgSend.Credits req)
  | MRetire req => length (MsgRetire.Credits req)
  | MCancel req => length (MsgCancel.Credits req)
  end.

(** ** What stays retired *)

(** The retired amount that a holder has of a batch, zero without a
    record. *)
Definition retiredBy (addr : AccAddress) (key : N) (s : StateStore) : Q :=
  match BatchBalanceTable s !! (addr, key) with
  | Some b => amount (BatchBalance.RetiredAmount b)
  | None => 0%Q
  end.

(** Nothing retired or cancelled in [s] is tradable again in [s']. *)
Definition retiredKept (s s' : StateStore) : Prop :=
  ∀ key,
    (amount (BatchSupply.RetiredAmount (supplyOf key s))
     <= amount (BatchSupply.RetiredAmount (supplyOf key s')))%Q ∧
    (amount (BatchSupply.CancelledAmount (supplyOf key s))
     <= amount (BatchSupply.CancelledAmount (supplyOf key s')))%Q ∧
    ∀ addr, (retiredBy addr key s <= retiredBy addr key s')%Q.

(** ** Simulation helpers (x/ecocredit/simulation/utils) *)

Module utils.

Definition exponents : list N := [0; 1; 2; 3; 6; 9; 12; 15; 18; 21; 24]%N.

(** [r.Intn(n)], a number below [n], from the next number [d] of the
    generator. *)
Definition Intn (d n : nat) : nat := d mod n.

(** [RandomExponent]: the loop draws an index with [r.Intn(len(exponents))]
    until the exponent at that index exceeds the precision.  The generator
    is given by the numbers it produces, in order; the result is [None] when
    the loop is still running after the numbers given. *)
Fixpoint RandomExponent (r : list nat) (precision : N) : option N :=
  match r with
  | [] => None
  | d :: rest =>
      match exponents !! Intn d (length exponents) with
      | Some x =>
          if bool_decide (precision < x)%N then Some x
          else RandomExponent rest precision
      | None => None
      end
  end.

(** [Contains]. *)
Fixpoint Contains (s : list string) (e : string) : bool :=
  match s with
  | [] => false
  | a :: rest => if bool_decide (a = e) then true else Contains rest e
  end.

End utils.


(** * Properties of the decimal engine *)

Module math_facts.
Import math.

Lemma pow10_pos n : 0 < pow10 n.
Proof. unfold pow10. apply Z.pow_pos_nonneg; lia. Qed.

Lemma pow10_add a b : pow10 (a + b) = pow10 a * pow10 b.
Proof. unfold pow10. rewrite Nat2Z.inj_add, Z.pow_add_r; lia. Qed.

Lemma digit_roundtrip d : 0 ≤ d < 10 → digit_of_ascii (ascii_of_digit d) = Some d.
Proof.
  intros Hd.
  assert (Hcases : d = 0 ∨ d = 1 ∨ d = 2 ∨ d = 3 ∨ d = 4 ∨ d = 5 ∨ d = 6
                   ∨ d = 7 ∨ d = 8 ∨ d = 9) by lia.
  destruct Hcases as [->|[->|[->|[->|[->|[->|[->|[->|[->| ->]]]]]]]]];
    reflexivity.
Qed.

Lemma digit_of_ascii_range c d : digit_of_ascii c = Some d → 0 ≤ d < 10.
Proof.
  unfold digit_of_ascii. case_bool_decide; [|done]. intros [= <-]. lia.
Qed.

Lemma is_digit_ascii_of_digit d : 0 ≤ d < 10 → is_digit (ascii_of_digit d).
Proof. intros. red. rewrite digit_roundtrip; eauto. Qed.

Lemma is_digit_not_dot c : is_digit c → c ≠ dot_char.
Proof. intros [d Hd] ->. discriminate Hd. Qed.

Lemma is_digit_not_minus c : is_digit c → c ≠ minus_char.
Proof. intros [d Hd] ->. discriminate Hd. Qed.

Lemma read_digits_app a b acc :
  read_digits (a ++ b) acc = read_digits a acc ≫= read_digits b.
Proof.
  revert acc. induction a as [|c a IH]; intros acc; simpl; [done|].
  destruct (digit_of_ascii c); [apply IH | done].
Qed.

Lemma read_digits_zeros m l :
  read_digits (replicate m zero_char ++ l) 0 = read_digits l 0.
Proof. induction m as [|m IH]; simpl; [done | exact IH]. Qed.

Lemma digits_fuel_acc f : ∀ n acc,
  digits_fuel f n acc = digits_fuel f n [] ++ acc.
Proof.
  induction f as [|f IH]; intros n acc; simpl; [done|].
  case_bool_decide; [done|].
  rewrite (IH _ (_ :: acc)), (IH _ [_]), <- app_assoc. done.
Qed.

Lemma digits_fuel_step f n :
  digits_fuel (S f) n [] =
    if bool_decide (n < 10) then [ascii_of_digit (n mod 10)]
    else digits_fuel f (n / 10) [] ++ [ascii_of_digit (n mod 10)].
Proof. simpl. case_bool_decide; [done|]. apply digits_fuel_acc. Qed.

(** With enough fuel the digits read back as the number. *)
Lemma digits_fuel_spec f : ∀ n,
  0 ≤ n < 2 ^ Z.of_nat (S f) →
  let ds := digits_fuel (S f) n [] in
  Forall is_digit ds ∧ ds ≠ [] ∧
  ∀ acc, read_digits ds acc = Some (acc * pow10 (length ds) + n).
Proof.
  induction f as [|f IH]; intros n Hn ds; subst ds; rewrite digits_fuel_step.
  - assert (n < 10) by (change (2 ^ Z.of_nat 1) with 2 in Hn; lia).
    rewrite bool_decide_true by done.
    split_and!; [|done|].
    + repeat constructor. apply is_digit_ascii_of_digit.
      apply Z.mod_pos_bound; lia.
    + intros acc. simpl. rewrite digit_roundtrip by (apply Z.mod_pos_bound; lia).
      rewrite Z.mod_small by lia. f_equal. change (pow10 1) with 10. lia.
  - case_bool_decide as Hlt.
    + split_and!; [|done|].
      * repeat constructor. apply is_digit_ascii_of_digit.
        apply Z.mod_pos_bound; lia.
      * intros acc. simpl.
        rewrite digit_roundtrip by (apply Z.mod_pos_bound; lia).
        rewrite Z.mod_small by lia. f_equal. change (pow10 1) with 10. lia.
    + assert (Hq : 0 ≤ n / 10 < 2 ^ Z.of_nat (S f)).
      { split; [apply Z.div_pos; lia|].
        apply Z.div_lt_upper_bound; [lia|].
        replace (Z.of_nat (S (S f))) with (Z.succ (Z.of_nat (S f))) in Hn by lia.
        rewrite Z.pow_succ_r in Hn by lia.
        assert (0 < 2 ^ Z.of_nat (S f)) by (apply Z.pow_pos_nonneg; lia). lia. }
      destruct (IH _ Hq) as (Hall & Hne & Hread).
      split_and!.
      * apply Forall_app. split; [done|]. repeat constructor.
        apply is_digit_ascii_of_digit. apply Z.mod_pos_bound; lia.
      * intros Heq. apply app_eq_nil in Heq as [_ [=]].
      * intros acc. rewrite read_digits_app, Hread. simpl.
        rewrite digit_roundtrip by (apply Z.mod_pos_bound; lia).
        f_equal. rewrite length_app. simpl length.
        rewrite pow10_add. change (pow10 1) with 10.
        pose proof (Z.div_mod n 10). lia.
Qed.

Lemma digits_spec n :
  0 ≤ n →
  Forall is_digit (digits n) ∧ digits n ≠ [] ∧
  read_digits (digits n) 0 = Some n.
Proof.
  intros Hn. unfold digits.
  destruct (digits_fuel_spec (Z.to_nat (Z.log2 n)) n) as (H1 & H2 & H3).
  - split; [done|]. rewrite Nat2Z.inj_succ, Z2Nat.id by apply Z.log2_nonneg.
    destruct (decide (n = 0)) as [->|]; [done|].
    apply Z.log2_spec. lia.
  - split_and!; [done..|]. rewrite H3; f_equal; lia.
Qed.

Lemma split_dot_digits l :
  Forall is_digit l → split_dot l = (l, None).
Proof.
  induction 1 as [|c l Hc _ IH]; simpl; [done|].
  rewrite bool_decide_false by (by apply is_digit_not_dot). by rewrite IH.
Qed.

Lemma split_dot_app ip fp :
  Forall is_digit ip → split_dot (ip ++ dot_char :: fp) = (ip, Some fp).
Proof.
  induction 1 as [|c l Hc _ IH]; simpl.
  - reflexivity.
  - rewrite bool_decide_false by (by apply is_digit_not_dot). by rewrite IH.
Qed.

Lemma parse_print_unsigned c k :
  0 ≤ c → parse_unsigned (print_unsigned c k) = Some (mkDec c k).
Proof.
  intros Hc. destruct (digits_spec c Hc) as (Hall & Hne & Hread).
  unfold print_unsigned.
  set (padded := replicate (S k - length (digits c)) zero_char ++ digits c).
  assert (Hpad : Forall is_digit padded).
  { apply Forall_app. split; [|done]. apply Forall_replicate.
    by exists 0. }
  assert (Hlen : (k < length padded)%nat).
  { unfold padded. rewrite length_app, length_replicate.
    destruct (digits c); [done|]. simpl. lia. }
  assert (Hval : read_digits padded 0 = Some c).
  { unfold padded. by rewrite read_digits_zeros. }
  destruct k as [|k].
  - unfold parse_unsigned. rewrite split_dot_digits by done.
    destruct padded; [simpl in Hlen; lia|]. by rewrite Hval.
  - unfold parse_unsigned. rewrite split_dot_app by (by apply Forall_take).
    assert (Htake : take (length padded - S k) padded ≠ []).
    { intros Heq. apply (f_equal length) in Heq.
      rewrite length_take in Heq. simpl in Heq. lia. }
    assert (Hdrop : length (drop (length padded - S k) padded) = S k).
    { rewrite length_drop. lia. }
    destruct (take (length padded - S k) padded) as [|t ts] eqn:Et; [done|].
    destruct (drop (length padded - S k) padded) as [|u us] eqn:Ed;
      [discriminate Hdrop|].
    rewrite <- Et, <- Ed, take_drop, Hval. simpl. by rewrite Ed, Hdrop.
Qed.

Lemma print_unsigned_head c k :
  0 ≤ c → ∃ h t, print_unsigned c k = h :: t ∧ h ≠ minus_char.
Proof.
  intros Hc. destruct (digits_spec c Hc) as (Hall & Hne & _).
  unfold print_unsigned.
  set (padded := replicate (S k - length (digits c)) zero_char ++ digits c).
  assert (Hpad : Forall is_digit padded).
  { apply Forall_app. split; [|done]. apply Forall_replicate. by exists 0. }
  assert (Hlen : (k < length padded)%nat).
  { unfold padded. rewrite length_app, length_replicate.
    destruct (digits c); [done|]. simpl. lia. }
  destruct padded as [|h t] eqn:E; [simpl in Hlen; lia|].
  apply Forall_cons in Hpad as [Hh _].
  destruct k as [|k].
  - exists h, t. split; [done|]. by apply is_digit_not_minus.
  - simpl in Hlen. replace (length (h :: t) - S k)%nat
      with (S (length t - S k)) by (simpl; lia).
    simpl. eexists _, _. split; [done|]. by apply is_digit_not_minus.
Qed.

(** Parsing what [String] wrote gives the decimal back, digits and scale. *)
Lemma NewDecFromString_String d : NewDecFromString (String d) = Ok d.
Proof.
  unfold NewDecFromString, String.
  rewrite list_ascii_of_string_of_list_ascii.
  destruct d as [c k]; simpl. case_bool_decide as Hneg.
  - change (parse_signed (minus_char :: ?l)) with
      (d ← parse_unsigned l; Some (mkDec (- coeff d) (scale d))).
    rewrite parse_print_unsigned by lia. simpl. do 2 f_equal. lia.
  - destruct (print_unsigned_head c k) as (h & t & E & Hh); [lia|].
    unfold parse_signed. rewrite E, bool_decide_false by done.
    rewrite <- E, parse_print_unsigned by lia. done.
Qed.

Lemma inject_pow10_nonzero n : ¬ (inject_Z (pow10 n) == 0)%Q.
Proof.
  pose proof (pow10_pos n) as Hp. unfold Qeq. simpl. lia.
Qed.

Lemma value_rescale s d :
  (scale d ≤ s)%nat →
  (inject_Z (rescale s d) / inject_Z (pow10 s) == value d)%Q.
Proof.
  intros Hs. unfold rescale, value.
  replace s with ((s - scale d) + scale d)%nat at 2 by lia.
  rewrite pow10_add, !inject_Z_mult.
  field. split; apply inject_pow10_nonzero.
Qed.

Lemma value_Add x y z : Add x y = Ok z → (value z == value x + value y)%Q.
Proof.
  intros [= <-]. unfold value at 1. simpl.
  rewrite inject_Z_plus.
  rewrite <- (value_rescale (scale x `max` scale y) x) by lia.
  rewrite <- (value_rescale (scale x `max` scale y) y) by lia.
  field. apply inject_pow10_nonzero.
Qed.

Lemma value_Sub x y z : Sub x y = Ok z → (value z == value x - value y)%Q.
Proof.
  intros [= <-]. unfold value at 1. simpl.
  unfold Z.sub. rewrite inject_Z_plus, inject_Z_opp.
  rewrite <- (value_rescale (scale x `max` scale y) x) by lia.
  rewrite <- (value_rescale (scale x `max` scale y) y) by lia.
  field. apply inject_pow10_nonzero.
Qed.

Lemma value_sign d : (0 <= value d)%Q ↔ 0 ≤ coeff d.
Proof.
  unfold value. pose proof (pow10_pos (scale d)) as Hp.
  assert (Hq : (0 < inject_Z (pow10 (scale d)))%Q).
  { unfold Qlt. simpl. lia. }
  split.
  - intros Hv. apply Qmult_le_r with (z := inject_Z (pow10 (scale d))) in Hv; [|done].
    rewrite Qmult_0_l in Hv. unfold Qdiv in Hv.
    rewrite <- Qmult_assoc, (Qmult_comm (/ _)), Qmult_inv_r, Qmult_1_r in Hv
      by (apply inject_pow10_nonzero).
    unfold Qle in Hv. simpl in Hv. lia.
  - intros Hc. apply Qle_shift_div_l; [done|]. rewrite Qmult_0_l.
    unfold Qle. simpl. lia.
Qed.

Lemma value_SafeSubBalance x y z :
  SafeSubBalance x y = Ok z → (value z == value x - value y)%Q ∧ 0 ≤ coeff z.
Proof.
  unfold SafeSubBalance. destruct (Sub x y) as [w|] eqn:Hsub; [|done]. simpl.
  unfold IsNegative. case_bool_decide; [done|]. intros [= <-].
  split; [by apply value_Sub | lia].
Qed.

Lemma value_IsZero d : IsZero d = true → (value d == 0)%Q.
Proof.
  unfold IsZero. intros Hz%bool_decide_eq_true. unfold value. rewrite Hz.
  unfold Qdiv. apply Qmult_0_l.
Qed.

Lemma amount_String d : (amount (String d) = value d).
Proof. unfold amount. by rewrite NewDecFromString_String. Qed.

Lemma NewNonNegativeFixed_Ok s p d :
  NewNonNegativeFixedDecFromString s p = Ok d →
  NewDecFromString s = Ok d ∧ 0 ≤ coeff d ∧ (N.of_nat (scale d) ≤ p)%N.
Proof.
  unfold NewNonNegativeFixedDecFromString, NewNonNegativeDecFromString.
  destruct (NewDecFromString s) as [d'|]; [|done]. simpl.
  unfold IsNegative. case_bool_decide; [done|]. simpl.
  unfold NumDecimalPlaces. case_bool_decide; [done|]. intros [= <-].
  split_and!; [done|lia|lia].
Qed.

Lemma amount_parsed s p d :
  NewNonNegativeFixedDecFromString s p = Ok d → amount s = value d.
Proof.
  intros (Hd & _)%NewNonNegativeFixed_Ok. unfold amount. by rewrite Hd.
Qed.

Lemma value_zero_iff d : (value d == 0)%Q ↔ IsZero d = true.
Proof.
  split; [|apply value_IsZero].
  intros Hv. unfold IsZero. apply bool_decide_eq_true.
  pose proof (proj1 (value_sign d)) as H1.
  pose proof (proj1 (value_sign (mkDec (- coeff d) (scale d)))) as H2.
  assert (Hneg : (value (mkDec (- coeff d) (scale d)) == - value d)%Q).
  { unfold value. simpl. rewrite inject_Z_opp. field. apply inject_pow10_nonzero. }
  rewrite Hneg, Hv in H2. rewrite Hv in H1. simpl in H2.
  specialize (H1 (Qle_refl 0)). specialize (H2 (Qle_refl 0)). lia.
Qed.

Lemma parsed_literal s p d d0 :
  NewNonNegativeFixedDecFromString s p = Ok d →
  NewDecFromString s = Ok d0 → d = d0.
Proof. intros (Hd & _)%NewNonNegativeFixed_Ok. congruence. Qed.

Lemma Cmp_Eq_value s cs : Cmp s cs = Eq ↔ (value s == value cs)%Q.
Proof.
  unfold Cmp. rewrite Z.compare_eq_iff.
  set (m := (scale s `max` scale cs)%nat).
  rewrite <- (value_rescale m s), <- (value_rescale m cs) by lia.
  split.
  - intros Heq. rewrite Heq. reflexivity.
  - intros Hv. unfold Qdiv in Hv. apply Qmult_inj_r in Hv.
    + apply inject_Z_injective. exact Hv.
    + intros Hz. apply (inject_pow10_nonzero m).
      rewrite <- (Qinv_involutive (inject_Z (pow10 m))), Hz. reflexivity.
Qed.

Lemma rescale_nonneg s d : 0 ≤ coeff d → 0 ≤ rescale s d.
Proof.
  intros Hd. unfold rescale. pose proof (pow10_pos (s - scale d)). nia.
Qed.

Lemma Add_nonneg x y z :
  Add x y = Ok z → 0 ≤ coeff x → 0 ≤ coeff y → 0 ≤ coeff z.
Proof.
  intros [= <-] Hx Hy. simpl.
  pose proof (rescale_nonneg (scale x `max` scale y) x Hx).
  pose proof (rescale_nonneg (scale x `max` scale y) y Hy). lia.
Qed.

Lemma amount_String_nonneg d : 0 ≤ coeff d → (0 <= amount (String d))%Q.
Proof. intros Hd. rewrite amount_String. by apply value_sign. Qed.

End math_facts.

(** * Running the keeper monad *)

Lemma M_bind_Ok {A B} (f : A → M B) (m : M A) ctx b ctx' :
  (m ≫= f) ctx = (Ok b, ctx') →
  ∃ a ctx1, m ctx = (Ok a, ctx1) ∧ f a ctx1 = (Ok b, ctx').
Proof.
  unfold mbind, M_bind. destruct (m ctx) as [[a|e] ctx1]; [eauto | discriminate].
Qed.

Lemma M_bind_Err {A B} (f : A → M B) (m : M A) ctx e ctx' :
  (m ≫= f) ctx = (Err e, ctx') →
  m ctx = (Err e, ctx') ∨
  ∃ a ctx1, m ctx = (Ok a, ctx1) ∧ f a ctx1 = (Err e, ctx').
Proof.
  unfold mbind, M_bind. destruct (m ctx) as [[a|e1] ctx1]; [eauto |].
  intros [= -> ->]. by left.
Qed.

Lemma M_bind_run {A B} (f : A → M B) (m : M A) ctx a ctx1 :
  m ctx = (Ok a, ctx1) → (m ≫= f) ctx = f a ctx1.
Proof. unfold mbind, M_bind. by intros ->. Qed.


Lemma try_run {A} (m : M A) ctx :
  try m ctx = (Ok (m ctx).1, (m ctx).2).
Proof. unfold try. by destruct (m ctx). Qed.

Lemma BatchTable_GetByDenom_run denom ctx :
  BatchTable_GetByDenom denom ctx =
    (match batchByDenom (BatchTable (stateStore ctx)) denom with
     | Some b => Ok b
     | None => Err NotFound
     end, ctx).
Proof.
  unfold BatchTable_GetByDenom, getStore, mbind, M_bind.
  by destruct (batchByDenom _ _).
Qed.

Lemma GetCreditTypeFromBatchDenom_run denom ctx :
  GetCreditTypeFromBatchDenom denom ctx = (creditTypeOfDenom (stateStore ctx) denom, ctx).
Proof. reflexivity. Qed.

Lemma BatchSupplyTable_Get_run key ctx :
  BatchSupplyTable_Get key ctx = (lookupOr (BatchSupplyTable (stateStore ctx)) key, ctx).
Proof. reflexivity. Qed.

Lemma BatchBalanceTable_Get_run addr key ctx :
  BatchBalanceTable_Get addr key ctx =
    (lookupOr (BatchBalanceTable (stateStore ctx)) (addr, key), ctx).
Proof. reflexivity. Qed.

Lemma lookupOr_Ok {K A} `{Countable K} (t : gmap K A) k a :
  lookupOr t k = Ok a ↔ t !! k = Some a.
Proof. unfold lookupOr. destruct (t !! k); split; congruence. Qed.

Lemma lookupOr_Err {K A} `{Countable K} (t : gmap K A) k e :
  lookupOr t k = Err e ↔ t !! k = None ∧ e = NotFound.
Proof. unfold lookupOr. destruct (t !! k); split; [done|intros [? _]; done|intros [= <-]; done| by intros [_ ->]]. Qed.

Ltac mstep H Hm :=
  cbv beta zeta in H; apply M_bind_Ok in H;
  let a := fresh "a" in let c := fresh "c" in let H' := fresh "H" in
  destruct H as (a & c & Hm & H'); rename H' into H; cbv beta zeta in H.

Lemma GetNonNegativeFixedDecs_length p l ds :
  GetNonNegativeFixedDecs p l = Ok ds → length ds = length l.
Proof.
  revert ds. induction l as [|s l IH]; intros ds; simpl.
  - by intros [= <-].
  - destruct (math.NewNonNegativeFixedDecFromString s p); [|done]. simpl.
    destruct (GetNonNegativeFixedDecs p l) as [ds'|]; [|done]. simpl.
    intros [= <-]. simpl. f_equal. by apply IH.
Qed.

Lemma lift_inv {A} (r : Result A) ctx x c : lift r ctx = (x, c) → r = x ∧ c = ctx.
Proof. by intros [= <- <-]. Qed.

Ltac mlift H Hm :=
  mstep H Hm; apply lift_inv in Hm; destruct Hm as [Hm ->].

Lemma BatchBalanceTable_Update_run b ctx :
  is_Some (BatchBalanceTable (stateStore ctx) !! balanceKey b) →
  BatchBalanceTable_Update b ctx = BatchBalanceTable_Save b ctx.
Proof.
  intros [old Hold]. unfold BatchBalanceTable_Update.
  rewrite (M_bind_run _ getStore _ _ _ eq_refl). by rewrite Hold.
Qed.

Lemma BatchBalanceTable_Update_missing b ctx :
  BatchBalanceTable (stateStore ctx) !! balanceKey b = None →
  BatchBalanceTable_Update b ctx = (Err NotFoundOnUpdate, ctx).
Proof.
  intros Hold. unfold BatchBalanceTable_Update.
  rewrite (M_bind_run _ getStore _ _ _ eq_refl). by rewrite Hold.
Qed.

Lemma try_ok {A} (m : M A) ctx r c : m ctx = (r, c) → try m ctx = (Ok r, c).
Proof. unfold try. by intros ->. Qed.
Ltac mstepE H Hm :=
  cbv beta zeta in H; apply M_bind_Err in H;
  let a := fresh "a" in let c := fresh "c" in let H' := fresh "H" in
  destruct H as [H | (a & c & Hm & H')];
  [ | rename H' into H; cbv beta zeta in H ].
Import math_facts.

Lemma GetNonNegativeFixedDecs_cons p s l d ds :
  GetNonNegativeFixedDecs p (s :: l) = Ok (d :: ds) →
  math.NewNonNegativeFixedDecFromString s p = Ok d ∧
  GetNonNegativeFixedDecs p l = Ok ds.
Proof.
  simpl. destruct (math.NewNonNegativeFixedDecFromString s p); [|done]. simpl.
  destruct (GetNonNegativeFixedDecs p l); [|done]. simpl. by intros [= <- <-].
Qed.

Lemma GetNonNegativeFixedDecs_amounts p l ds :
  GetNonNegativeFixedDecs p l = Ok ds →
  amount <$> l = math.value <$> ds ∧ Forall (λ d, 0 ≤ math.coeff d) ds.
Proof.
  revert ds. induction l as [|s l IH]; intros ds Hds.
  - injection Hds as <-. by split.
  - pose proof (GetNonNegativeFixedDecs_length _ _ _ Hds) as Hlen.
    destruct ds as [|d ds]; [done|].
    apply GetNonNegativeFixedDecs_cons in Hds as [Hd Hds].
    destruct (IH _ Hds) as [IH1 IH2]. split.
    + simpl. f_equal; [by eapply amount_parsed | done].
    + constructor; [|done]. by apply NewNonNegativeFixed_Ok in Hd as (_ & ? & _).
Qed.

(** * What one entry of a message does *)

(** Adding a literal of scale 2 to a zero of scale at most 2 gives the
    literal. *)
Lemma Add_zero_literal (z lit r : math.Dec) :
  (math.value z == 0)%Q → (N.of_nat (math.scale z) ≤ 2)%N → math.scale lit = 2%nat →
  math.Add z lit = Ok r → r = lit.
Proof.
  intros Hz Hs Hl [= <-].
  apply value_zero_iff in Hz. unfold math.IsZero in Hz.
  apply bool_decide_eq_true in Hz.
  destruct z as [c s], lit as [c' s']. simpl in *. subst c s'.
  unfold math.rescale. simpl.
  replace (Nat.max s 2) with 2%nat by lia.
  f_equal. rewrite Nat.sub_diag. unfold math.pow10. simpl. lia.
Qed.

Section KeeperFacts.
Context {codec : Bech32}.

Lemma sendEcocredits_Ok credit to from ctx ctx' :
  sendEcocredits credit to from ctx = (Ok (), ctx') →
  ∃ batch creditType batchSupply fromBalance
    tT tR fT fR aT aR sT sR fT1 tT1 fT2 tR1 sR1 sT1,
    let store := stateStore ctx in
    let key := Batch.Key batch in
    let toBalance := sendTo batch to store in
    let newTo := BatchBalance.mk key to (math.String tT1) (math.String tR1) EmptyString in
    let newFrom := BatchBalance.mk key from (math.String fT2) (math.String fR) EmptyString in
    let newSupply := BatchSupply.mk key (math.String sT1) (math.String sR1)
                       (BatchSupply.CancelledAmount batchSupply) in
    let didRetire := negb (math.IsZero aR) in
    batchByDenom (BatchTable store) (SendCredits.BatchDenom credit) = Some batch ∧
    creditTypeOfDenom store (Batch.Denom batch) = Ok creditType ∧
    BatchSupplyTable store !! key = Some batchSupply ∧
    BatchBalanceTable store !! (from, key) = Some fromBalance ∧
    GetNonNegativeFixedDecs (CreditType.Precision creditType)
      [BatchBalance.TradableAmount toBalance; BatchBalance.RetiredAmount toBalance;
       BatchBalance.TradableAmount fromBalance; BatchBalance.RetiredAmount fromBalance;
       SendCredits.TradableAmount credit; SendCredits.RetiredAmount credit;
       BatchSupply.TradableAmount batchSupply; BatchSupply.RetiredAmount batchSupply]
      = Ok [tT; tR; fT; fR; aT; aR; sT; sR] ∧
    (if negb (math.IsZero aT)
     then math.SafeSubBalance fT aT = Ok fT1 ∧ math.Add tT aT = Ok tT1
     else fT1 = fT ∧ tT1 = tT) ∧
    (if didRetire
     then math.SafeSubBalance fT1 aR = Ok fT2 ∧ math.Add tR aR = Ok tR1 ∧
          math.Add sR aR = Ok sR1 ∧ math.Sub sT aR = Ok sT1
     else fT2 = fT1 ∧ tR1 = tR ∧ sR1 = sR ∧ sT1 = sT) ∧
    ctx' =
      mkContext
        (mkStateStore (CreditTypeTable store) (ClassTable store) (ProjectTable store)
           (BatchTable store)
           (if didRetire then <[key := newSupply]> (BatchSupplyTable store)
            else BatchSupplyTable store)
           (<[(from, key) := newFrom]> (<[(to, key) := newTo]> (BatchBalanceTable store)))
           (BasketBalanceTable store))
        ((if didRetire then [WriteSupply newSupply] else [])
           ++ WriteBalance newFrom :: WriteBalance newTo :: storeWrites ctx)
        ((if didRetire
          then [EventRetire (AccAddress_String to) (SendCredits.BatchDenom credit)
                  (math.String aR) (SendCredits.RetirementJurisdiction credit)]
          else []) ++ events ctx)
        (gasConsumed ctx).
Proof.
  intros Hrun. unfold sendEcocredits in Hrun.
  mstep Hrun H1. rewrite try_run, BatchTable_GetByDenom_run in H1. simpl in H1.
  injection H1 as <- <-.
  mstep Hrun H2.
  destruct (batchByDenom _ _) as [batch|] eqn:Hbatch; [|discriminate H2].
  injection H2 as <- <-.
  mstep Hrun H3. rewrite GetCreditTypeFromBatchDenom_run in H3.
  injection H3 as H3 <-. rename a into creditType.
  mstep Hrun H4. rewrite BatchSupplyTable_Get_run in H4. injection H4 as H4 <-.
  apply lookupOr_Ok in H4. rename a into batchSupply.
  mstep Hrun H5. rewrite try_run, BatchBalanceTable_Get_run in H5. simpl in H5.
  injection H5 as <- <-.
  mstep Hrun H6. rename a into fromBalance.
  assert (Hfrom : BatchBalanceTable (stateStore ctx) !! (from, Batch.Key batch)
                  = Some fromBalance ∧ c = ctx).
  { unfold lookupOr in H6. destruct (_ !! (from, _)); [by injection H6 as <- <-|discriminate H6]. }
  destruct Hfrom as [Hfrom ->]. clear H6.
  mstep Hrun H7. rewrite try_run, BatchBalanceTable_Get_run in H7. simpl in H7.
  injection H7 as <- <-.
  mstep Hrun H8.
  assert (Hto : a = sendTo batch to (stateStore ctx) ∧ c = ctx).
  { unfold sendTo, lookupOr in *. destruct (_ !! (to, _)); by injection H8 as <- <-. }
  destruct Hto as [-> ->]. clear H8.
  mlift Hrun H9.
  pose proof (GetNonNegativeFixedDecs_length _ _ _ H9) as Hlen.
  destruct a as [|tT [|tR [|fT [|fR [|aT [|aR [|sT [|sR [|]]]]]]]]]; try discriminate Hlen.
  clear Hlen.
  change ([tT; tR; fT; fR; aT; aR; sT; sR] !!! 0%nat) with tT in Hrun.
  change ([tT; tR; fT; fR; aT; aR; sT; sR] !!! 1%nat) with tR in Hrun.
  change ([tT; tR; fT; fR; aT; aR; sT; sR] !!! 2%nat) with fT in Hrun.
  change ([tT; tR; fT; fR; aT; aR; sT; sR] !!! 3%nat) with fR in Hrun.
  change ([tT; tR; fT; fR; aT; aR; sT; sR] !!! 4%nat) with aT in Hrun.
  change ([tT; tR; fT; fR; aT; aR; sT; sR] !!! 5%nat) with aR in Hrun.
  change ([tT; tR; fT; fR; aT; aR; sT; sR] !!! 6%nat) with sT in Hrun.
  change ([tT; tR; fT; fR; aT; aR; sT; sR] !!! 7%nat) with sR in Hrun.
  mstep Hrun H10. destruct a as [fT1 tT1].
  assert (Hstep1 : (if negb (math.IsZero aT)
     then math.SafeSubBalance fT aT = Ok fT1 ∧ math.Add tT aT = Ok tT1
     else fT1 = fT ∧ tT1 = tT) ∧ c = ctx).
  { destruct (negb (math.IsZero aT)).
    - mlift H10 Ha. mlift H10 Hb. by injection H10 as <- <- <-.
    - by injection H10 as <- <- <-. }
  destruct Hstep1 as [Hstep1 ->]. clear H10.
  mstep Hrun H11. destruct a as [[[fT2 tR1] sR1] sT1].
  assert (Hstep2 : (if negb (math.IsZero aR)
     then math.SafeSubBalance fT1 aR = Ok fT2 ∧ math.Add tR aR = Ok tR1 ∧
          math.Add sR aR = Ok sR1 ∧ math.Sub sT aR = Ok sT1
     else fT2 = fT1 ∧ tR1 = tR ∧ sR1 = sR ∧ sT1 = sT) ∧ c = ctx).
  { destruct (negb (math.IsZero aR)).
    - mlift H11 Ha. mlift H11 Hb. mlift H11 Hc. mlift H11 Hd.
      by injection H11 as <- <- <- <- <-.
    - by injection H11 as <- <- <- <- <-. }
  destruct Hstep2 as [Hstep2 ->]. clear H11.
  mstep Hrun H12. injection H12 as <- <-.
  mstep Hrun H13. rewrite BatchBalanceTable_Update_run in H13; last first.
  { unfold balanceKey.
    cbn [stateStore BatchBalanceTable set_BatchBalanceTable
         BatchBalance.Address BatchBalance.BatchKey].
    rewrite lookup_insert. case_decide; [done|]. by rewrite Hfrom. }
  injection H13 as <- <-.
  exists batch, creditType, batchSupply, fromBalance,
    tT, tR, fT, fR, aT, aR, sT, sR, fT1, tT1, fT2, tR1, sR1, sT1.
  cbv zeta. split_and!; try done.
  destruct (negb (math.IsZero aR)).
  - mstep Hrun H14. unfold BatchSupplyTable_Update in H14.
    cbn [stateStore BatchSupplyTable set_BatchBalanceTable BatchSupply.BatchKey] in H14.
    rewrite H4 in H14. injection H14 as <- <-.
    by injection Hrun as <-.
  - by injection Hrun as <-.
Qed.

Lemma sendEcocredits_intro credit to from ctx
    batch creditType batchSupply fromBalance
    tT tR fT fR aT aR sT sR fT1 tT1 fT2 tR1 sR1 sT1 :
    let store := stateStore ctx in
    let key := Batch.Key batch in
    let toBalance := sendTo batch to store in
    let newTo := BatchBalance.mk key to (math.String tT1) (math.String tR1) EmptyString in
    let newFrom := BatchBalance.mk key from (math.String fT2) (math.String fR) EmptyString in
    let newSupply := BatchSupply.mk key (math.String sT1) (math.String sR1)
                       (BatchSupply.CancelledAmount batchSupply) in
    let didRetire := negb (math.IsZero aR) in
    batchByDenom (BatchTable store) (SendCredits.BatchDenom credit) = Some batch →
    creditTypeOfDenom store (Batch.Denom batch) = Ok creditType →
    BatchSupplyTable store !! key = Some batchSupply →
    BatchBalanceTable store !! (from, key) = Some fromBalance →
    GetNonNegativeFixedDecs (CreditType.Precision creditType)
      [BatchBalance.TradableAmount toBalance; BatchBalance.RetiredAmount toBalance;
       BatchBalance.TradableAmount fromBalance; BatchBalance.RetiredAmount fromBalance;
       SendCredits.TradableAmount credit; SendCredits.RetiredAmount credit;
       BatchSupply.TradableAmount batchSupply; BatchSupply.RetiredAmount batchSupply]
      = Ok [tT; tR; fT; fR; aT; aR; sT; sR] →
    (if negb (math.IsZero aT)
     then math.SafeSubBalance fT aT = Ok fT1 ∧ math.Add tT aT = Ok tT1
     else fT1 = fT ∧ tT1 = tT) →
    (if didRetire
     then math.SafeSubBalance fT1 aR = Ok fT2 ∧ math.Add tR aR = Ok tR1 ∧
          math.Add sR aR = Ok sR1 ∧ math.Sub sT aR = Ok sT1
     else fT2 = fT1 ∧ tR1 = tR ∧ sR1 = sR ∧ sT1 = sT) →
    sendEcocredits credit to from ctx =
      (Ok (),
      mkContext
        (mkStateStore (CreditTypeTable store) (ClassTable store) (ProjectTable store)
           (BatchTable store)
           (if didRetire then <[key := newSupply]> (BatchSupplyTable store)
            else BatchSupplyTable store)
           (<[(from, key) := newFrom]> (<[(to, key) := newTo]> (BatchBalanceTable store)))
           (BasketBalanceTable store))
        ((if didRetire then [WriteSupply newSupply] else [])
           ++ WriteBalance newFrom :: WriteBalance newTo :: storeWrites ctx)
        ((if didRetire
          then [EventRetire (AccAddress_String to) (SendCredits.BatchDenom credit)
                  (math.String aR) (SendCredits.RetirementJurisdiction credit)]
          else []) ++ events ctx)
        (gasConsumed ctx)).
Proof.
  intros store key toBalance newTo newFrom newSupply didRetire
    Hbatch Hct Hsup Hfrom Hdecs H1 H2.
  unfold sendEcocredits.
  erewrite M_bind_run; last first.
  { apply try_ok. rewrite BatchTable_GetByDenom_run. fold store.
    rewrite Hbatch. reflexivity. }
  cbv beta. erewrite M_bind_run; [|reflexivity].
  erewrite M_bind_run; last first.
  { rewrite GetCreditTypeFromBatchDenom_run. fold store. rewrite Hct. reflexivity. }
  cbv beta zeta. erewrite M_bind_run; last first.
  { rewrite BatchSupplyTable_Get_run. unfold lookupOr. fold store key.
    rewrite Hsup. reflexivity. }
  erewrite M_bind_run; last first.
  { apply try_ok. rewrite BatchBalanceTable_Get_run. unfold lookupOr. fold store key.
    rewrite Hfrom. reflexivity. }
  cbv beta. erewrite M_bind_run; [|reflexivity].
  erewrite M_bind_run; last first.
  { apply try_ok. rewrite BatchBalanceTable_Get_run. reflexivity. }
  cbv beta. erewrite (M_bind_run _ _ ctx toBalance ctx); last first.
  { unfold toBalance, sendTo, lookupOr. fold store key.
    by destruct (BatchBalanceTable store !! (to, key)). }
  erewrite M_bind_run; last first.
  { unfold lift. fold key. rewrite Hdecs. reflexivity. }
  cbv beta zeta.
  change ([tT; tR; fT; fR; aT; aR; sT; sR] !!! 0%nat) with tT.
  change ([tT; tR; fT; fR; aT; aR; sT; sR] !!! 1%nat) with tR.
  change ([tT; tR; fT; fR; aT; aR; sT; sR] !!! 2%nat) with fT.
  change ([tT; tR; fT; fR; aT; aR; sT; sR] !!! 3%nat) with fR.
  change ([tT; tR; fT; fR; aT; aR; sT; sR] !!! 4%nat) with aT.
  change ([tT; tR; fT; fR; aT; aR; sT; sR] !!! 5%nat) with aR.
  change ([tT; tR; fT; fR; aT; aR; sT; sR] !!! 6%nat) with sT.
  change ([tT; tR; fT; fR; aT; aR; sT; sR] !!! 7%nat) with sR.
  erewrite (M_bind_run _ _ ctx (fT1, tT1) ctx); last first.
  { destruct (negb (math.IsZero aT)).
    - destruct H1 as [Ha Hb].
      erewrite M_bind_run; [|unfold lift; rewrite Ha; reflexivity].
      erewrite M_bind_run; [|unfold lift; rewrite Hb; reflexivity].
      reflexivity.
    - by destruct H1 as [-> ->]. }
  cbv beta iota.
  erewrite (M_bind_run _ _ ctx (fT2, tR1, sR1, sT1) ctx); last first.
  { fold didRetire. destruct didRetire.
    - destruct H2 as (Ha & Hb & Hc & Hd).
      erewrite M_bind_run; [|unfold lift; rewrite Ha; reflexivity].
      erewrite M_bind_run; [|unfold lift; rewrite Hb; reflexivity].
      erewrite M_bind_run; [|unfold lift; rewrite Hc; reflexivity].
      erewrite M_bind_run; [|unfold lift; rewrite Hd; reflexivity].
      reflexivity.
    - by destruct H2 as (-> & -> & -> & ->). }
  cbv beta iota.
  erewrite M_bind_run; [|reflexivity].
  erewrite M_bind_run; last first.
  { rewrite BatchBalanceTable_Update_run; [reflexivity|].
    unfold balanceKey.
    cbn [stateStore BatchBalanceTable set_BatchBalanceTable
         BatchBalance.Address BatchBalance.BatchKey].
    rewrite lookup_insert. case_decide; [done|]. fold store key. by rewrite Hfrom. }
  fold didRetire key newTo newFrom newSupply. destruct didRetire.
  - erewrite M_bind_run; last first.
    { unfold BatchSupplyTable_Update.
      cbn [stateStore BatchSupplyTable set_BatchBalanceTable BatchSupply.BatchKey newSupply].
      fold store. rewrite Hsup. reflexivity. }
    reflexivity.
  - reflexivity.
Qed.

Lemma sendEcocredits_Err credit to from ctx e ctx' :
  sendEcocredits credit to from ctx = (Err e, ctx') → ctx' = ctx.
Proof.
  intros Hrun. unfold sendEcocredits in Hrun.
  mstepE Hrun H1; [by rewrite try_run in Hrun|].
  rewrite try_run, BatchTable_GetByDenom_run in H1. simpl in H1.
  injection H1 as <- <-.
  mstepE Hrun H2; [by destruct (batchByDenom _ _); injection Hrun as _ <-|].
  destruct (batchByDenom _ _) as [batch|] eqn:Hbatch; [|discriminate H2].
  injection H2 as <- <-.
  mstepE Hrun H3; [by injection Hrun as _ <-|].
  rewrite GetCreditTypeFromBatchDenom_run in H3.
  injection H3 as H3 <-. rename a into creditType.
  mstepE Hrun H4; [by injection Hrun as _ <-|].
  rewrite BatchSupplyTable_Get_run in H4. injection H4 as H4 <-.
  apply lookupOr_Ok in H4. rename a into batchSupply.
  mstepE Hrun H5; [by rewrite try_run in Hrun|].
  rewrite try_run, BatchBalanceTable_Get_run in H5. simpl in H5.
  injection H5 as <- <-.
  mstepE Hrun H6.
  { unfold lookupOr in Hrun. destruct (_ !! (from, _)); [discriminate Hrun|].
    by injection Hrun as _ <-. }
  rename a into fromBalance.
  assert (Hfrom : BatchBalanceTable (stateStore ctx) !! (from, Batch.Key batch)
                  = Some fromBalance ∧ c = ctx).
  { unfold lookupOr in H6. destruct (_ !! (from, _)); [by injection H6 as <- <-|discriminate H6]. }
  destruct Hfrom as [Hfrom ->]. clear H6.
  mstepE Hrun H7; [by rewrite try_run in Hrun|].
  rewrite try_run, BatchBalanceTable_Get_run in H7. simpl in H7.
  injection H7 as <- <-.
  mstepE Hrun H8.
  { unfold lookupOr in Hrun. destruct (_ !! (to, _)); discriminate Hrun. }
  assert (Hto : a = sendTo batch to (stateStore ctx) ∧ c = ctx).
  { unfold sendTo, lookupOr in *. destruct (_ !! (to, _)); by injection H8 as <- <-. }
  destruct Hto as [-> ->]. clear H8.
  mstepE Hrun H9; [by injection Hrun as _ <-|].
  apply lift_inv in H9 as [H9 ->].
  pose proof (GetNonNegativeFixedDecs_length _ _ _ H9) as Hlen.
  destruct a as [|tT [|tR [|fT [|fR [|aT [|aR [|sT [|sR [|]]]]]]]]]; try discriminate Hlen.
  clear Hlen.
  change ([tT; tR; fT; fR; aT; aR; sT; sR] !!! 0%nat) with tT in Hrun.
  change ([tT; tR; fT; fR; aT; aR; sT; sR] !!! 1%nat) with tR in Hrun.
  change ([tT; tR; fT; fR; aT; aR; sT; sR] !!! 2%nat) with fT in Hrun.
  change ([tT; tR; fT; fR; aT; aR; sT; sR] !!! 3%nat) with fR in Hrun.
  change ([tT; tR; fT; fR; aT; aR; sT; sR] !!! 4%nat) with aT in Hrun.
  change ([tT; tR; fT; fR; aT; aR; sT; sR] !!! 5%nat) with aR in Hrun.
  change ([tT; tR; fT; fR; aT; aR; sT; sR] !!! 6%nat) with sT in Hrun.
  change ([tT; tR; fT; fR; aT; aR; sT; sR] !!! 7%nat) with sR in Hrun.
  mstepE Hrun H10.
  { destruct (negb (math.IsZero aT)); [|discriminate Hrun].
    mstepE Hrun Ha; [by injection Hrun as _ <-|]. apply lift_inv in Ha as [Ha ->].
    mstepE Hrun Hb; [by injection Hrun as _ <-|]. discriminate Hrun. }
  destruct a as [fT1 tT1].
  assert (Hc : c = ctx).
  { destruct (negb (math.IsZero aT)).
    - mlift H10 Ha. mlift H10 Hb. by injection H10 as _ _ <-.
    - by injection H10 as _ _ <-. }
  subst c. clear H10.
  mstepE Hrun H11.
  { destruct (negb (math.IsZero aR)); [|discriminate Hrun].
    mstepE Hrun Ha; [by injection Hrun as _ <-|]. apply lift_inv in Ha as [Ha ->].
    mstepE Hrun Hb; [by injection Hrun as _ <-|]. apply lift_inv in Hb as [Hb ->].
    mstepE Hrun Hc; [by injection Hrun as _ <-|]. apply lift_inv in Hc as [Hc ->].
    mstepE Hrun Hd; [by injection Hrun as _ <-|]. discriminate Hrun. }
  destruct a as [[[fT2 tR1] sR1] sT1].
  assert (Hc : c = ctx).
  { destruct (negb (math.IsZero aR)).
    - mlift H11 Ha. mlift H11 Hb. mlift H11 Hc. mlift H11 Hd.
      by injection H11 as _ _ _ _ <-.
    - by injection H11 as _ _ _ _ <-. }
  subst c. clear H11.
  mstepE Hrun H12; [discriminate Hrun|].
  assert (Hupd : ∀ b, balanceKey b = (from, Batch.Key batch) →
            BatchBalanceTable_Update b c = BatchBalanceTable_Save b c).
  { intros b Hb. apply BatchBalanceTable_Update_run. rewrite Hb.
    injection H12 as _ <-. unfold balanceKey.
    cbn [stateStore BatchBalanceTable set_BatchBalanceTable
         BatchBalance.Address BatchBalance.BatchKey].
    rewrite lookup_insert. case_decide; [done|]. by rewrite Hfrom. }
  mstepE Hrun H13.
  { rewrite Hupd in Hrun by reflexivity. discriminate Hrun. }
  rewrite Hupd in H13 by reflexivity. clear Hupd.
  injection H12 as _ <-. injection H13 as _ <-.
  destruct (negb (math.IsZero aR)); [|discriminate Hrun].
  mstepE Hrun H14; [|discriminate Hrun].
  unfold BatchSupplyTable_Update in Hrun.
  cbn [stateStore BatchSupplyTable set_BatchBalanceTable BatchSupply.BatchKey] in Hrun.
  rewrite H4 in Hrun. discriminate Hrun.
Qed.

Lemma BatchSupplyTable_Update_run s ctx :
  is_Some (BatchSupplyTable (stateStore ctx) !! BatchSupply.BatchKey s) →
  BatchSupplyTable_Update s ctx =
    (Ok (),
     mkContext
       (set_BatchSupplyTable
          (<[BatchSupply.BatchKey s := s]> (BatchSupplyTable (stateStore ctx)))
          (stateStore ctx))
       (WriteSupply s :: storeWrites ctx) (events ctx) (gasConsumed ctx)).
Proof. intros [old Hold]. unfold BatchSupplyTable_Update. by rewrite Hold. Qed.

Lemma retireCredits_Ok req owner credit ctx ctx' :
  retireCredits req owner credit ctx = (Ok (), ctx') →
  ∃ batch creditType userBalance batchSupply amt uT uT1 uR uR1 sR sT sR1 sT1,
    let store := stateStore ctx in
    let key := Batch.Key batch in
    let p := CreditType.Precision creditType in
    let newBalance := BatchBalance.mk key owner (math.String uT1) (math.String uR1) EmptyString in
    let newSupply := BatchSupply.mk key (math.String sT1) (math.String sR1)
                       (BatchSupply.CancelledAmount batchSupply) in
    batchByDenom (BatchTable store) (Credits.BatchDenom credit) = Some batch ∧
    creditTypeOfDenom store (Batch.Denom batch) = Ok creditType ∧
    BatchBalanceTable store !! (owner, key) = Some userBalance ∧
    BatchSupplyTable store !! key = Some batchSupply ∧
    GetNonNegativeFixedDecs p
      [Credits.Amount credit; BatchBalance.TradableAmount userBalance] = Ok [amt; uT] ∧
    math.SafeSubBalance uT amt = Ok uT1 ∧
    math.NewNonNegativeFixedDecFromString (BatchBalance.RetiredAmount userBalance) p = Ok uR ∧
    math.Add uR amt = Ok uR1 ∧
    GetNonNegativeFixedDecs p
      [BatchSupply.RetiredAmount batchSupply; BatchSupply.TradableAmount batchSupply]
      = Ok [sR; sT] ∧
    math.Add sR amt = Ok sR1 ∧
    math.SafeSubBalance sT amt = Ok sT1 ∧
    ctx' =
      mkContext
        (mkStateStore (CreditTypeTable store) (ClassTable store) (ProjectTable store)
           (BatchTable store)
           (<[key := newSupply]> (BatchSupplyTable store))
           (<[(owner, key) := newBalance]> (BatchBalanceTable store))
           (BasketBalanceTable store))
        (WriteSupply newSupply :: WriteBalance newBalance :: storeWrites ctx)
        (EventRetire (MsgRetire.Owner req) (Credits.BatchDenom credit)
           (Credits.Amount credit) (MsgRetire.Jurisdiction req) :: events ctx)
        (gasConsumed ctx + GasCostPerIteration)%N.
Proof.
  intros Hrun. unfold retireCredits in Hrun.
  mstep Hrun H1. rewrite try_run, BatchTable_GetByDenom_run in H1. simpl in H1.
  injection H1 as <- <-.
  mstep Hrun H2.
  destruct (batchByDenom _ _) as [batch|] eqn:Hbatch; [|discriminate H2].
  injection H2 as <- <-.
  mstep Hrun H3. rewrite GetCreditTypeFromBatchDenom_run in H3.
  injection H3 as H3 <-. rename a into creditType.
  mstep Hrun H5. rewrite try_run, BatchBalanceTable_Get_run in H5. simpl in H5.
  injection H5 as <- <-.
  mstep Hrun H6. rename a into userBalance.
  assert (Huser : BatchBalanceTable (stateStore ctx) !! (owner, Batch.Key batch)
                  = Some userBalance ∧ c = ctx).
  { unfold lookupOr in H6. destruct (_ !! (owner, _)); [by injection H6 as <- <-|discriminate H6]. }
  destruct Huser as [Huser ->]. clear H6.
  mlift Hrun H7.
  pose proof (GetNonNegativeFixedDecs_length _ _ _ H7) as Hlen.
  destruct a as [|amt [|uT [|]]]; try discriminate Hlen. clear Hlen.
  change ([amt; uT] !!! 0%nat) with amt in Hrun.
  change ([amt; uT] !!! 1%nat) with uT in Hrun.
  mlift Hrun H8. rename a into uT1.
  mlift Hrun H9. rename a into uR.
  mlift Hrun H10. rename a into uR1.
  mstep Hrun H4. rewrite BatchSupplyTable_Get_run in H4. injection H4 as H4 <-.
  apply lookupOr_Ok in H4. rename a into batchSupply.
  mlift Hrun H11.
  pose proof (GetNonNegativeFixedDecs_length _ _ _ H11) as Hlen.
  destruct a as [|sR [|sT [|]]]; try discriminate Hlen. clear Hlen.
  change ([sR; sT] !!! 0%nat) with sR in Hrun.
  change ([sR; sT] !!! 1%nat) with sT in Hrun.
  mlift Hrun H12. rename a into sR1.
  mlift Hrun H13. rename a into sT1.
  mstep Hrun H14. rewrite BatchBalanceTable_Update_run in H14
    by (unfold balanceKey; cbn [BatchBalance.Address BatchBalance.BatchKey]; by rewrite Huser).
  injection H14 as _ <-.
  mstep Hrun H15. rewrite BatchSupplyTable_Update_run in H15
    by (cbn [stateStore BatchSupplyTable set_BatchBalanceTable BatchSupply.BatchKey];
        by rewrite H4).
  injection H15 as _ <-.
  mstep Hrun H16. injection H16 as _ <-.
  injection Hrun as <-.
  exists batch, creditType, userBalance, batchSupply, amt, uT, uT1, uR, uR1, sR, sT, sR1, sT1.
  cbv zeta. split_and!; done.
Qed.

Lemma retireCredits_Err req owner credit ctx e ctx' :
  retireCredits req owner credit ctx = (Err e, ctx') → ctx' = ctx.
Proof.
  intros Hrun. unfold retireCredits in Hrun.
  mstepE Hrun H1; [by rewrite try_run in Hrun|].
  rewrite try_run, BatchTable_GetByDenom_run in H1. simpl in H1.
  injection H1 as <- <-.
  mstepE Hrun H2; [by destruct (batchByDenom _ _); injection Hrun as _ <-|].
  destruct (batchByDenom _ _) as [batch|] eqn:Hbatch; [|discriminate H2].
  injection H2 as <- <-.
  mstepE Hrun H3; [by injection Hrun as _ <-|].
  rewrite GetCreditTypeFromBatchDenom_run in H3.
  injection H3 as H3 <-. rename a into creditType.
  mstepE Hrun H5; [by rewrite try_run in Hrun|].
  rewrite try_run, BatchBalanceTable_Get_run in H5. simpl in H5.
  injection H5 as <- <-.
  mstepE Hrun H6.
  { unfold lookupOr in Hrun. destruct (_ !! (owner, _)); [discriminate Hrun|].
    by injection Hrun as _ <-. }
  rename a into userBalance.
  assert (Huser : BatchBalanceTable (stateStore ctx) !! (owner, Batch.Key batch)
                  = Some userBalance ∧ c = ctx).
  { unfold lookupOr in H6. destruct (_ !! (owner, _)); [by injection H6 as <- <-|discriminate H6]. }
  destruct Huser as [Huser ->]. clear H6.
  mstepE Hrun H7; [by injection Hrun as _ <-|]. apply lift_inv in H7 as [H7 ->].
  mstepE Hrun H8; [by injection Hrun as _ <-|]. apply lift_inv in H8 as [H8 ->].
  mstepE Hrun H9; [by injection Hrun as _ <-|]. apply lift_inv in H9 as [H9 ->].
  mstepE Hrun H10; [by injection Hrun as _ <-|]. apply lift_inv in H10 as [H10 ->].
  mstepE Hrun H4; [by injection Hrun as _ <-|].
  rewrite BatchSupplyTable_Get_run in H4. injection H4 as H4 <-.
  apply lookupOr_Ok in H4. rename a3 into batchSupply.
  mstepE Hrun H11; [by injection Hrun as _ <-|]. apply lift_inv in H11 as [H11 ->].
  mstepE Hrun H12; [by injection Hrun as _ <-|]. apply lift_inv in H12 as [H12 ->].
  mstepE Hrun H13; [by injection Hrun as _ <-|]. apply lift_inv in H13 as [H13 ->].
  mstepE Hrun H14.
  { rewrite BatchBalanceTable_Update_run in Hrun
      by (unfold balanceKey; cbn [BatchBalance.Address BatchBalance.BatchKey]; by rewrite Huser).
    discriminate Hrun. }
  rewrite BatchBalanceTable_Update_run in H14
    by (unfold balanceKey; cbn [BatchBalance.Address BatchBalance.BatchKey]; by rewrite Huser).
  injection H14 as _ <-.
  mstepE Hrun H15.
  { rewrite BatchSupplyTable_Update_run in Hrun
      by (cbn [stateStore BatchSupplyTable set_BatchBalanceTable BatchSupply.BatchKey];
          by rewrite H4).
    discriminate Hrun. }
  mstepE Hrun H16; discriminate Hrun.
Qed.

Lemma cancelCredits_Ok req owner credit ctx ctx' :
  cancelCredits req owner credit ctx = (Ok (), ctx') →
  ∃ batch creditType userBalance batchSupply amt sT uT cD uT1 sT1 cD1,
    let store := stateStore ctx in
    let key := Batch.Key batch in
    let p := CreditType.Precision creditType in
    let newBalance := BatchBalance.mk key owner (math.String uT1)
                        (BatchBalance.RetiredAmount userBalance) EmptyString in
    let newSupply := BatchSupply.mk key (math.String sT1)
                       (BatchSupply.RetiredAmount batchSupply) (math.String cD1) in
    batchByDenom (BatchTable store) (Credits.BatchDenom credit) = Some batch ∧
    creditTypeOfDenom store (Batch.Denom batch) = Ok creditType ∧
    BatchBalanceTable store !! (owner, key) = Some userBalance ∧
    BatchSupplyTable store !! key = Some batchSupply ∧
    GetNonNegativeFixedDecs p
      [Credits.Amount credit; BatchSupply.TradableAmount batchSupply;
       BatchBalance.TradableAmount userBalance; BatchSupply.CancelledAmount batchSupply]
      = Ok [amt; sT; uT; cD] ∧
    math.SafeSubBalance uT amt = Ok uT1 ∧
    math.SafeSubBalance sT amt = Ok sT1 ∧
    math.Add cD amt = Ok cD1 ∧
    ctx' =
      mkContext
        (mkStateStore (CreditTypeTable store) (ClassTable store) (ProjectTable store)
           (BatchTable store)
           (<[key := newSupply]> (BatchSupplyTable store))
           (<[(owner, key) := newBalance]> (BatchBalanceTable store))
           (BasketBalanceTable store))
        (WriteSupply newSupply :: WriteBalance newBalance :: storeWrites ctx)
        (EventCancel (AccAddress_String owner) (Credits.BatchDenom credit)
           (Credits.Amount credit) (MsgCancel.Reason req) :: events ctx)
        (gasConsumed ctx + GasCostPerIteration)%N.
Proof.
  intros Hrun. unfold cancelCredits in Hrun.
  mstep Hrun H1. rewrite try_run, BatchTable_GetByDenom_run in H1. simpl in H1.
  injection H1 as <- <-.
  mstep Hrun H2.
  destruct (batchByDenom _ _) as [batch|] eqn:Hbatch; [|discriminate H2].
  injection H2 as <- <-.
  mstep Hrun H3. rewrite GetCreditTypeFromBatchDenom_run in H3.
  injection H3 as H3 <-. rename a into creditType.
  mstep Hrun H5. rewrite try_run, BatchBalanceTable_Get_run in H5. simpl in H5.
  injection H5 as <- <-.
  mstep Hrun H6. rename a into userBalance.
  assert (Huser : BatchBalanceTable (stateStore ctx) !! (owner, Batch.Key batch)
                  = Some userBalance ∧ c = ctx).
  { unfold lookupOr in H6. destruct (_ !! (owner, _)); [by injection H6 as <- <-|discriminate H6]. }
  destruct Huser as [Huser ->]. clear H6.
  mstep Hrun H4. rewrite BatchSupplyTable_Get_run in H4. injection H4 as H4 <-.
  apply lookupOr_Ok in H4. rename a into batchSupply.
  mlift Hrun H7.
  pose proof (GetNonNegativeFixedDecs_length _ _ _ H7) as Hlen.
  destruct a as [|amt [|sT [|uT [|cD [|]]]]]; try discriminate Hlen. clear Hlen.
  change ([amt; sT; uT; cD] !!! 0%nat) with amt in Hrun.
  change ([amt; sT; uT; cD] !!! 1%nat) with sT in Hrun.
  change ([amt; sT; uT; cD] !!! 2%nat) with uT in Hrun.
  change ([amt; sT; uT; cD] !!! 3%nat) with cD in Hrun.
  mlift Hrun H8. rename a into uT1.
  mlift Hrun H9. rename a into sT1.
  mlift Hrun H10. rename a into cD1.
  mstep Hrun H14. rewrite BatchBalanceTable_Update_run in H14
    by (unfold balanceKey; cbn [BatchBalance.Address BatchBalance.BatchKey]; by rewrite Huser).
  injection H14 as _ <-.
  mstep Hrun H15. rewrite BatchSupplyTable_Update_run in H15
    by (cbn [stateStore BatchSupplyTable set_BatchBalanceTable BatchSupply.BatchKey];
        by rewrite H4).
  injection H15 as _ <-.
  mstep Hrun H16. injection H16 as _ <-.
  injection Hrun as <-.
  exists batch, creditType, userBalance, batchSupply, amt, sT, uT, cD, uT1, sT1, cD1.
  cbv zeta. split_and!; done.
Qed.

Lemma cancelCredits_Err req owner credit ctx e ctx' :
  cancelCredits req owner credit ctx = (Err e, ctx') → ctx' = ctx.
Proof.
  intros Hrun. unfold cancelCredits in Hrun.
  mstepE Hrun H1; [by rewrite try_run in Hrun|].
  rewrite try_run, BatchTable_GetByDenom_run in H1. simpl in H1.
  injection H1 as <- <-.
  mstepE Hrun H2; [by destruct (batchByDenom _ _); injection Hrun as _ <-|].
  destruct (batchByDenom _ _) as [batch|] eqn:Hbatch; [|discriminate H2].
  injection H2 as <- <-.
  mstepE Hrun H3; [by injection Hrun as _ <-|].
  rewrite GetCreditTypeFromBatchDenom_run in H3.
  injection H3 as H3 <-. rename a into creditType.
  mstepE Hrun H5; [by rewrite try_run in Hrun|].
  rewrite try_run, BatchBalanceTable_Get_run in H5. simpl in H5.
  injection H5 as <- <-.
  mstepE Hrun H6.
  { unfold lookupOr in Hrun. destruct (_ !! (owner, _)); [discriminate Hrun|].
    by injection Hrun as _ <-. }
  rename a into userBalance.
  assert (Huser : BatchBalanceTable (stateStore ctx) !! (owner, Batch.Key batch)
                  = Some userBalance ∧ c = ctx).
  { unfold lookupOr in H6. destruct (_ !! (owner, _)); [by injection H6 as <- <-|discriminate H6]. }
  destruct Huser as [Huser ->]. clear H6.
  mstepE Hrun H4; [by injection Hrun as _ <-|].
  rewrite BatchSupplyTable_Get_run in H4. injection H4 as H4 <-.
  apply lookupOr_Ok in H4. rename a into batchSupply.
  mstepE Hrun H7; [by injection Hrun as _ <-|]. apply lift_inv in H7 as [H7 ->].
  mstepE Hrun H8; [by injection Hrun as _ <-|]. apply lift_inv in H8 as [H8 ->].
  mstepE Hrun H9; [by injection Hrun as _ <-|]. apply lift_inv in H9 as [H9 ->].
  mstepE Hrun H10; [by injection Hrun as _ <-|]. apply lift_inv in H10 as [H10 ->].
  mstepE Hrun H14.
  { rewrite BatchBalanceTable_Update_run in Hrun
      by (unfold balanceKey; cbn [BatchBalance.Address BatchBalance.BatchKey]; by rewrite Huser).
    discriminate Hrun. }
  rewrite BatchBalanceTable_Update_run in H14
    by (unfold balanceKey; cbn [BatchBalance.Address BatchBalance.BatchKey]; by rewrite Huser).
  injection H14 as _ <-.
  mstepE Hrun H15.
  { rewrite BatchSupplyTable_Update_run in Hrun
      by (cbn [stateStore BatchSupplyTable set_BatchBalanceTable BatchSupply.BatchKey];
          by rewrite H4).
    discriminate Hrun. }
  mstepE Hrun H16; discriminate Hrun.
Qed.
(** ** Conservation of the issued supply *)

Lemma sendEcocredits_issuedSupply credit to from ctx ctx' key :
  sendEcocredits credit to from ctx = (Ok (), ctx') →
  (issuedSupply key (stateStore ctx') == issuedSupply key (stateStore ctx))%Q.
Proof.
  intros Hrun. apply sendEcocredits_Ok in Hrun
    as (batch & creditType & batchSupply & fromBalance
        & tT & tR & fT & fR & aT & aR & sT & sR & fT1 & tT1 & fT2 & tR1 & sR1 & sT1
        & Hbatch & Hct & Hsup & Hfrom & Hdecs & H1 & H2 & ->).
  unfold issuedSupply, declaredSupply, supplyOf.
  cbn [stateStore BatchSupplyTable].
  destruct (negb (math.IsZero aR)); [|reflexivity].
  rewrite lookup_insert. case_decide as Hk; [subst key|reflexivity].
  rewrite Hsup. unfold default, id.
  cbn [from_option BatchSupply.TradableAmount BatchSupply.RetiredAmount
       BatchSupply.CancelledAmount].
  apply GetNonNegativeFixedDecs_amounts in Hdecs as [Hdecs _].
  injection Hdecs as _ _ _ _ _ _ HsT HsR.
  destruct H2 as (_ & _ & HsR1 & HsT1).
  rewrite !amount_String, HsT, HsR.
  apply value_Add in HsR1. apply value_Sub in HsT1. lra.
Qed.


Lemma retireCredits_issuedSupply req owner credit ctx ctx' key :
  retireCredits req owner credit ctx = (Ok (), ctx') →
  (issuedSupply key (stateStore ctx') == issuedSupply key (stateStore ctx))%Q.
Proof.
  intros Hrun. apply retireCredits_Ok in Hrun
    as (batch & creditType & userBalance & batchSupply
        & amt & uT & uT1 & uR & uR1 & sR & sT & sR1 & sT1
        & Hbatch & Hct & Huser & Hsup & Hdecs & HuT1 & HuR & HuR1 & Hsdecs
        & HsR1 & HsT1 & ->).
  unfold issuedSupply, declaredSupply, supplyOf.
  cbn [stateStore BatchSupplyTable].
  rewrite lookup_insert. case_decide as Hk; [subst key|reflexivity].
  rewrite Hsup. unfold default, id.
  cbn [from_option BatchSupply.TradableAmount BatchSupply.RetiredAmount
       BatchSupply.CancelledAmount].
  apply GetNonNegativeFixedDecs_amounts in Hsdecs as [Hsdecs _].
  injection Hsdecs as HsR HsT.
  rewrite !amount_String, HsT, HsR.
  apply value_Add in HsR1. apply value_SafeSubBalance in HsT1 as [HsT1 _]. lra.
Qed.

Lemma cancelCredits_issuedSupply req owner credit ctx ctx' key :
  cancelCredits req owner credit ctx = (Ok (), ctx') →
  (issuedSupply key (stateStore ctx') == issuedSupply key (stateStore ctx))%Q.
Proof.
  intros Hrun. apply cancelCredits_Ok in Hrun
    as (batch & creditType & userBalance & batchSupply
        & amt & sT & uT & cD & uT1 & sT1 & cD1
        & Hbatch & Hct & Huser & Hsup & Hdecs & HuT1 & HsT1 & HcD1 & ->).
  unfold issuedSupply, declaredSupply, supplyOf.
  cbn [stateStore BatchSupplyTable].
  rewrite lookup_insert. case_decide as Hk; [subst key|reflexivity].
  rewrite Hsup. unfold default, id.
  cbn [from_option BatchSupply.TradableAmount BatchSupply.RetiredAmount
       BatchSupply.CancelledAmount].
  apply GetNonNegativeFixedDecs_amounts in Hdecs as [Hdecs _].
  injection Hdecs as _ HsT _ HcD.
  rewrite !amount_String, HsT, HcD.
  apply value_Add in HcD1. apply value_SafeSubBalance in HsT1 as [HsT1 _]. lra.
Qed.

(** A property of contexts that every successful entry preserves is
    preserved by the loop over the entries. *)
Lemma forEach_preserves {A} (P : Context → Prop) (body : A → M unit) l :
  (∀ x c c', body x c = (Ok (), c') → P c → P c') →
  ∀ ctx ctx', forEach l body ctx = (Ok (), ctx') → P ctx → P ctx'.
Proof.
  intros Hbody. induction l as [|x l IH]; intros ctx ctx' Hrun HP.
  - by injection Hrun as <-.
  - simpl in Hrun. apply M_bind_Ok in Hrun as ([] & c1 & Hx & Hrest). eauto.
Qed.

Lemma deliver_issuedSupply m ctx ctx' key :
  deliver m ctx = (Ok (), ctx') →
  (issuedSupply key (stateStore ctx') == issuedSupply key (stateStore ctx))%Q.
Proof.
  intros Hrun.
  set (P := λ c, (issuedSupply key (stateStore c) == issuedSupply key (stateStore ctx))%Q).
  change (P ctx'). assert (HP : P ctx) by (unfold P; reflexivity).
  destruct m as [req|req|req]; simpl in Hrun.
  - apply M_bind_Ok in Hrun as (? & c1 & Hrun & [= <-]).
    unfold Send in Hrun. apply M_bind_Ok in Hrun as ([] & c2 & Hrun & [= <- <-]).
    refine (forEach_preserves P _ _ _ _ _ Hrun HP).
    intros credit c c' Hbody Hc.
    apply M_bind_Ok in Hbody as ([] & c3 & Hsend & Hbody).
    apply M_bind_Ok in Hbody as ([] & c4 & [= <-] & [= <-]).
    unfold P in *. cbn [stateStore].
    etrans; [|exact Hc]. by eapply sendEcocredits_issuedSupply.
  - apply M_bind_Ok in Hrun as (? & c1 & Hrun & [= <-]).
    unfold Retire in Hrun. apply M_bind_Ok in Hrun as ([] & c2 & Hrun & [= <- <-]).
    refine (forEach_preserves P _ _ _ _ _ Hrun HP).
    intros credit c c' Hbody Hc. unfold P in *.
    etrans; [|exact Hc]. by eapply retireCredits_issuedSupply.
  - apply M_bind_Ok in Hrun as (? & c1 & Hrun & [= <-]).
    unfold Cancel in Hrun. apply M_bind_Ok in Hrun as (owner & c2 & Howner & Hrun).
    apply lift_inv in Howner as [Howner ->].
    apply M_bind_Ok in Hrun as ([] & c3 & Hrun & [= <- <-]).
    refine (forEach_preserves P _ _ _ _ _ Hrun HP).
    intros credit c c' Hbody Hc. unfold P in *.
    etrans; [|exact Hc]. by eapply cancelCredits_issuedSupply.
Qed.

(** C3: over any sequence of successful Send, Retire and Cancel messages the
    tradable plus retired plus cancelled supply of every batch keeps its value. *)
Theorem supply_conservation ms ctx ctx' key :
  delivered ctx ms ctx' →
  (issuedSupply key (stateStore ctx') == issuedSupply key (stateStore ctx))%Q.
Proof.
  induction 1 as [ctx|ctx m ctx1 ms ctx2 Hm _ IH]; [reflexivity|].
  etrans; [exact IH|]. by eapply deliver_issuedSupply.
Qed.
(** ** Scenario A, the supply frame of Send, failures *)

Lemma Send_single_Ok req credit ctx resp ctx' :
  MsgSend.Credits req = [credit] →
  Send req ctx = (Ok resp, ctx') →
  ∃ c1,
    sendEcocredits credit
      (addressOrEmpty (AccAddressFromBech32 (MsgSend.Recipient req)))
      (addressOrEmpty (AccAddressFromBech32 (MsgSend.Sender req))) ctx = (Ok (), c1) ∧
    stateStore ctx' = stateStore c1 ∧ storeWrites ctx' = storeWrites c1.
Proof.
  intros Hc Hrun. unfold Send in Hrun. rewrite Hc in Hrun.
  apply M_bind_Ok in Hrun as ([] & c2 & Hrun & [= _ <-]).
  simpl in Hrun. apply M_bind_Ok in Hrun as ([] & c3 & Hrun & [= <-]).
  apply M_bind_Ok in Hrun as ([] & c1 & Hsend & Hrun).
  apply M_bind_Ok in Hrun as ([] & c4 & [= <-] & [= <-]).
  by exists c1.
Qed.

(** C2 (scenario A), as the code has it: when the sender holds "100.00"
    tradable credits of a batch of precision 2 and the recipient is another
    holder, a successful Send of the one entry (tradable "30.00", retired
    "10.00") leaves the sender's tradable balance at "60.00", adds 30.00 to
    the recipient's tradable balance and 10.00 to its retired balance,
    which are then "30.00" and "10.00" when the recipient held nothing
    before (no record, or amounts of zero), takes "10.00" off the tradable
    supply of the batch and adds "10.00" to its retired supply. *)
Theorem send_scenario_A req credit ctx resp ctx' batch creditType senderBalance :
  let store := stateStore ctx in
  let store' := stateStore ctx' in
  let sender := addressOrEmpty (AccAddressFromBech32 (MsgSend.Sender req)) in
  let recipient := addressOrEmpty (AccAddressFromBech32 (MsgSend.Recipient req)) in
  let key := Batch.Key batch in
  let before := sendTo batch recipient store in
  MsgSend.Credits req = [credit] →
  SendCredits.TradableAmount credit = "30.00"%string →
  SendCredits.RetiredAmount credit = "10.00"%string →
  batchByDenom (BatchTable store) (SendCredits.BatchDenom credit) = Some batch →
  creditTypeOfDenom store (Batch.Denom batch) = Ok creditType →
  CreditType.Precision creditType = 2%N →
  BatchBalanceTable store !! (sender, key) = Some senderBalance →
  BatchBalance.TradableAmount senderBalance = "100.00"%string →
  sender ≠ recipient →
  Send req ctx = (Ok resp, ctx') →
  (∃ b, BatchBalanceTable store' !! (sender, key) = Some b ∧
        BatchBalance.TradableAmount b = "60.00"%string) ∧
  (∃ b, BatchBalanceTable store' !! (recipient, key) = Some b ∧
        (amount (BatchBalance.TradableAmount b)
         == amount (BatchBalance.TradableAmount before) + amount "30.00"%string)%Q ∧
        (amount (BatchBalance.RetiredAmount b)
         == amount (BatchBalance.RetiredAmount before) + amount "10.00"%string)%Q ∧
        ((amount (BatchBalance.TradableAmount before) == 0)%Q →
         BatchBalance.TradableAmount b = "30.00"%string) ∧
        ((amount (BatchBalance.RetiredAmount before) == 0)%Q →
         BatchBalance.RetiredAmount b = "10.00"%string)) ∧
  (amount (BatchSupply.TradableAmount (supplyOf key store'))
   == amount (BatchSupply.TradableAmount (supplyOf key store)) - amount "10.00"%string)%Q ∧
  (amount (BatchSupply.RetiredAmount (supplyOf key store'))
   == amount (BatchSupply.RetiredAmount (supplyOf key store)) + amount "10.00"%string)%Q.
Proof.
  intros store store' sender recipient key before Hcredits HT HR Hbatch Hct Hprec
    Hsender HsT Hne Hrun.
  destruct (Send_single_Ok _ _ _ _ _ Hcredits Hrun) as (c1 & Hsend & Hstore & _).
  subst store'. rewrite Hstore. clear Hrun Hstore ctx'.
  apply sendEcocredits_Ok in Hsend
    as (batch' & creditType' & batchSupply & fromBalance
        & tT & tR & fT & fR & aT & aR & sT & sR & fT1 & tT1 & fT2 & tR1 & sR1 & sT1
        & Hbatch' & Hct' & Hsup & Hfrom & Hdecs & H1 & H2 & ->).
  fold store in Hbatch', Hct', Hsup, Hfrom, Hdecs.
  rewrite Hbatch in Hbatch'. injection Hbatch' as <-. fold key in Hsup, Hfrom.
  rewrite Hct in Hct'. injection Hct' as <-. rewrite Hprec in Hdecs.
  fold sender in Hfrom. rewrite Hsender in Hfrom. injection Hfrom as <-.
  fold recipient before in Hdecs.
  rewrite HsT, HT, HR in Hdecs.
  repeat (apply GetNonNegativeFixedDecs_cons in Hdecs as [?Hd Hdecs]).
  assert (fT = math.mkDec 10000 2) as ->
    by (eapply parsed_literal; [exact Hd1 | vm_compute; reflexivity]).
  assert (aT = math.mkDec 3000 2) as ->
    by (eapply parsed_literal; [exact Hd3 | vm_compute; reflexivity]).
  assert (aR = math.mkDec 1000 2) as ->
    by (eapply parsed_literal; [exact Hd4 | vm_compute; reflexivity]).
  change (negb (math.IsZero (math.mkDec 3000 2))) with true in H1.
  change (negb (math.IsZero (math.mkDec 1000 2))) with true in H2 |- *.
  cbv iota in H1, H2 |- *.
  destruct H1 as [HfT1 HtT1]. vm_compute in HfT1. injection HfT1 as <-.
  destruct H2 as (HfT2 & HtR1 & HsR1 & HsT1). vm_compute in HfT2. injection HfT2 as <-.
  cbn [stateStore BatchBalanceTable BatchSupplyTable].
  split_and!.
  - eexists. rewrite lookup_insert_eq. split; [reflexivity|]. vm_compute. reflexivity.
  - eexists. rewrite lookup_insert_ne by (intros [= ?]; done). rewrite lookup_insert_eq.
    split; [reflexivity|].
    cbn [BatchBalance.TradableAmount BatchBalance.RetiredAmount].
    rewrite !amount_String, (amount_parsed _ _ _ Hd), (amount_parsed _ _ _ Hd0).
    split_and!.
    + rewrite (value_Add _ _ _ HtT1). unfold amount. vm_compute math.NewDecFromString.
      reflexivity.
    + rewrite (value_Add _ _ _ HtR1). unfold amount. vm_compute math.NewDecFromString.
      reflexivity.
    + intros Hz. apply NewNonNegativeFixed_Ok in Hd as (_ & _ & Hscale).
      rewrite (Add_zero_literal tT (math.mkDec 3000 2) tT1 Hz Hscale eq_refl HtT1). vm_compute. reflexivity.
    + intros Hz. apply NewNonNegativeFixed_Ok in Hd0 as (_ & _ & Hscale).
      rewrite (Add_zero_literal tR (math.mkDec 1000 2) tR1 Hz Hscale eq_refl HtR1). vm_compute. reflexivity.
  - unfold supplyOf. cbn [BatchSupplyTable]. rewrite lookup_insert_eq, Hsup.
    unfold default, id. cbn [from_option BatchSupply.TradableAmount].
    rewrite amount_String, (amount_parsed _ _ _ Hd5).
    apply value_Sub in HsT1. rewrite HsT1. unfold amount. vm_compute math.NewDecFromString.
    reflexivity.
  - unfold supplyOf. cbn [BatchSupplyTable]. rewrite lookup_insert_eq, Hsup.
    unfold default, id. cbn [from_option BatchSupply.RetiredAmount].
    rewrite amount_String, (amount_parsed _ _ _ Hd6).
    apply value_Add in HsR1. rewrite HsR1. unfold amount. vm_compute math.NewDecFromString.
    reflexivity.
Qed.

(** C8: a successful Send entry whose retired amount is zero writes no
    supply record and leaves the supply table as it was; when the retired
    amount is not zero the only supply record written is that of the batch,
    and it carries the cancelled amount of the record it replaces. *)
Theorem send_supply_frame credit to from ctx ctx' :
  sendEcocredits credit to from ctx = (Ok (), ctx') →
  let store := stateStore ctx in
  let store' := stateStore ctx' in
  ∃ newWrites,
    storeWrites ctx' = newWrites ++ storeWrites ctx ∧
    ((amount (SendCredits.RetiredAmount credit) == 0)%Q →
       BatchSupplyTable store' = BatchSupplyTable store ∧
       ∀ s, WriteSupply s ∉ newWrites) ∧
    (¬ (amount (SendCredits.RetiredAmount credit) == 0)%Q →
       ∃ batch old new,
         batchByDenom (BatchTable store) (SendCredits.BatchDenom credit) = Some batch ∧
         BatchSupplyTable store !! Batch.Key batch = Some old ∧
         BatchSupplyTable store' = <[Batch.Key batch := new]> (BatchSupplyTable store) ∧
         BatchSupply.CancelledAmount new = BatchSupply.CancelledAmount old ∧
         ∀ s, WriteSupply s ∈ newWrites → s = new).
Proof.
  intros Hrun store store'. subst store'.
  apply sendEcocredits_Ok in Hrun
    as (batch & creditType & batchSupply & fromBalance
        & tT & tR & fT & fR & aT & aR & sT & sR & fT1 & tT1 & fT2 & tR1 & sR1 & sT1
        & Hbatch & Hct & Hsup & Hfrom & Hdecs & H1 & H2 & ->).
  fold store in Hbatch, Hsup |- *.
  apply GetNonNegativeFixedDecs_amounts in Hdecs as [Hdecs _].
  injection Hdecs as _ _ _ _ _ HaR _ _. rewrite HaR.
  cbn [stateStore storeWrites BatchSupplyTable].
  destruct (math.IsZero aR) eqn:Hzero; cbn [negb].
  - eexists [_; _]. split; [reflexivity|]. split.
    + intros _. split; [done|]. intros s Hs.
      repeat (apply elem_of_cons in Hs as [Hs|Hs]; [discriminate Hs|]).
      by apply elem_of_nil in Hs.
    + intros Hnz. exfalso. apply Hnz. by apply value_IsZero.
  - eexists [_; _; _]. split; [reflexivity|]. split.
    + intros Hz%value_zero_iff. congruence.
    + intros _. eexists batch, batchSupply, _. split_and!; [done..|].
      intros s Hs. apply elem_of_cons in Hs as [Hs|Hs]; [by injection Hs as ->|].
      repeat (apply elem_of_cons in Hs as [Hs|Hs]; [discriminate Hs|]).
      by apply elem_of_nil in Hs.
Qed.

(** X8: every balance record that a successful Send entry writes, the sender's
    and the recipient's, has an empty escrowed amount. *)
Lemma sendEcocredits_writes_escrow credit to from ctx ctx' :
  sendEcocredits credit to from ctx = (Ok (), ctx') →
  ∃ newWrites, storeWrites ctx' = newWrites ++ storeWrites ctx ∧
    ∀ b, WriteBalance b ∈ newWrites → BatchBalance.EscrowedAmount b = EmptyString.
Proof.
  intros Hrun.
  apply sendEcocredits_Ok in Hrun
    as (batch & creditType & batchSupply & fromBalance
        & tT & tR & fT & fR & aT & aR & sT & sR & fT1 & tT1 & fT2 & tR1 & sR1 & sT1
        & Hbatch & Hct & Hsup & Hfrom & Hdecs & H1 & H2 & ->).
  cbn [storeWrites].
  destruct (negb (math.IsZero aR)).
  - eexists [_; _; _]. split; [reflexivity|]. intros b Hb.
    apply elem_of_cons in Hb as [Hb|Hb]; [discriminate Hb|].
    apply elem_of_cons in Hb as [[= ->]|Hb]; [done|].
    apply list_elem_of_singleton in Hb. by injection Hb as ->.
  - eexists [_; _]. split; [reflexivity|]. intros b Hb.
    apply elem_of_cons in Hb as [[= ->]|Hb]; [done|].
    apply list_elem_of_singleton in Hb. by injection Hb as ->.
Qed.




End KeeperFacts.

(** * Genesis validation *)

Lemma validateSupply_range_Err sup l e :
  validateSupply_range sup l = Err e →
  ∃ k cs, (k, cs) ∈ l ∧
    ((sup !! k = None ∧ e = ErrNotFound_supply k) ∨
     (∃ s, sup !! k = Some s ∧ math.Cmp s cs ≠ Eq ∧ e = ErrInvalidCoins_supply k)).
Proof.
  induction l as [|[k cs] l IH]; [done|]. simpl.
  destruct (sup !! k) as [s|] eqn:Hk.
  - case_bool_decide as Hcmp.
    + intros [= <-]. exists k, cs. split; [left|]. right. by exists s.
    + intros (k' & cs' & Hin & H)%IH. exists k', cs'. split; [by right|done].
  - intros [= <-]. exists k, cs. split; [left|]. by left.
Qed.

Lemma validateSupply_range_Ok sup l :
  validateSupply_range sup l = Ok () ↔
  ∀ k cs, (k, cs) ∈ l → ∃ s, sup !! k = Some s ∧ math.Cmp s cs = Eq.
Proof.
  induction l as [|[k cs] l IH]; simpl.
  - split; [|done]. intros _ k cs Hin. by apply elem_of_nil in Hin.
  - destruct (sup !! k) as [s|] eqn:Hk.
    + case_bool_decide as Hcmp.
      * split; [done|]. intros Hall. destruct (Hall k cs) as (s' & Hs' & Heq); [left|].
        congruence.
      * rewrite IH. split.
        -- intros Hall k' cs' [[= -> ->]|Hin]%elem_of_cons; [|by apply Hall].
           exists s. split; [done|]. by destruct (math.Cmp s cs).
        -- intros Hall k' cs' Hin. apply Hall. by right.
    + split; [done|]. intros Hall. destruct (Hall k cs) as (s' & Hs' & _); [left|].
      congruence.
Qed.


(** The failures of [validateSupply]: it fails with a dedicated
    InvalidRequest error when one of the two maps is empty and the other is
    not.  Otherwise, as soon as some batch of the calculated map has no
    declared supply or a declared supply of another value, validation fails:
    with a NotFound error naming a batch that has a calculated but no
    declared supply, or with an InvalidCoins error naming a batch whose
    declared and calculated supplies differ. *)
Theorem validateSupply_failures (cal sup : gmap N math.Dec) :
  (size cal = 0%nat → size sup ≠ 0%nat →
   validateSupply cal sup = Err ErrInvalidRequest_noBalances) ∧
  (size sup = 0%nat → size cal ≠ 0%nat →
   validateSupply cal sup = Err ErrInvalidRequest_noSupplies) ∧
  (∀ k cs,
     cal !! k = Some cs → size sup ≠ 0%nat →
     (sup !! k = None ∨ ∃ s, sup !! k = Some s ∧ ¬ (math.value s == math.value cs)%Q) →
     ∃ k',
       (validateSupply cal sup = Err (ErrNotFound_supply k')
        ∧ is_Some (cal !! k') ∧ sup !! k' = None) ∨
       (validateSupply cal sup = Err (ErrInvalidCoins_supply k')
        ∧ ∃ s cs', cal !! k' = Some cs' ∧ sup !! k' = Some s
                   ∧ ¬ (math.value s == math.value cs')%Q)).
Proof.
  split_and!.
  - intros Hc Hs. unfold validateSupply. rewrite bool_decide_true; [done|]. lia.
  - intros Hs Hc. unfold validateSupply.
    rewrite bool_decide_false by lia. rewrite bool_decide_true; [done|]. lia.
  - intros k cs Hk Hs Hbad. unfold validateSupply.
    assert (size cal ≠ 0%nat) as Hc.
    { intros Hz%map_size_empty_iff. by rewrite Hz in Hk. }
    rewrite !bool_decide_false by lia.
    destruct (validateSupply_range sup (map_to_list cal)) as [[]|e] eqn:Hrange.
    + exfalso. apply (proj1 (validateSupply_range_Ok _ _)) with (k := k) (cs := cs) in Hrange
        as (s & Hs' & Heq); [|by apply elem_of_map_to_list].
      apply Cmp_Eq_value in Heq.
      destruct Hbad as [?|(s' & ? & Hne)]; [congruence|].
      apply Hne. congruence.
    + apply validateSupply_range_Err in Hrange as (k' & cs' & Hin & Hcases).
      apply elem_of_map_to_list in Hin. exists k'.
      destruct Hcases as [[Hnone ->]|(s & Hsome & Hcmp & ->)].
      * left. by eauto.
      * right. split; [done|]. exists s, cs'. split_and!; [done..|].
        by rewrite <- Cmp_Eq_value.
Qed.

(** When validation succeeds. *)
Lemma validateSupply_Ok_iff (cal sup : gmap N math.Dec) :
  validateSupply cal sup = Ok () ↔
    (size cal = 0%nat ↔ size sup = 0%nat) ∧
    ∀ k cs, cal !! k = Some cs →
            ∃ s, sup !! k = Some s ∧ (math.value s == math.value cs)%Q.
Proof.
  unfold validateSupply. repeat case_bool_decide.
  - split; [done|]. intros [Hiff _]. lia.
  - split; [done|]. intros [Hiff _]. lia.
  - rewrite validateSupply_range_Ok. split.
    + intros Hall. split; [lia|]. intros k cs Hk.
      destruct (Hall k cs) as (s & Hs & Hcmp); [by apply elem_of_map_to_list|].
      exists s. split; [done|]. by apply Cmp_Eq_value.
    + intros [_ Hall] k cs Hk%elem_of_map_to_list.
      destruct (Hall k cs Hk) as (s & Hs & Hv). exists s. split; [done|].
      by apply Cmp_Eq_value.
Qed.

Lemma Compare_after (a b : Timestamp.t) :
  Timestamp.Compare a b = 1 ↔ Timestamp.after a b.
Proof.
  unfold Timestamp.Compare, Timestamp.after.
  repeat case_bool_decide; split; intros; try lia; try done.
Qed.

(** * Genesis validation *)

Lemma Result_bind_Ok {A B} (f : A → Result B) (r : Result A) b :
  r ≫= f = Ok b → ∃ a, r = Ok a ∧ f a = Ok b.
Proof. destruct r as [a|e]; [eauto|discriminate]. Qed.

Lemma parseOrZero_amount s p d :
  parseOrZero s p = Ok d → amount s = math.value d ∧ 0 ≤ math.coeff d.
Proof.
  unfold parseOrZero. case_bool_decide as Hs.
  - intros Hd. split; [by eapply amount_parsed|].
    by apply NewNonNegativeFixed_Ok in Hd as (_ & ? & _).
  - intros [= <-]. subst s. split; [reflexivity|done].
Qed.

Lemma mapValue_insert m k d key :
  mapValue (<[k := d]> m) key = if decide (k = key) then math.value d else mapValue m key.
Proof. unfold mapValue. rewrite lookup_insert. by case_decide. Qed.

Lemma calculateSupply_step_Ok prec m b m' :
  calculateSupply_step prec m b = Ok m' →
  is_Some (prec !! BatchBalance.BatchKey b) ∧
  (∀ key, (mapValue m' key ==
           mapValue m key
           + (if bool_decide (BatchBalance.BatchKey b = key) then balanceTotal b else 0))%Q) ∧
  (∀ key, m' !! key = None ↔ m !! key = None ∧ BatchBalance.BatchKey b ≠ key).
Proof.
  unfold calculateSupply_step.
  destruct (prec !! BatchBalance.BatchKey b) as [p|]; [|done].
  intros H.
  apply Result_bind_Ok in H as (t & Ht & H).
  apply Result_bind_Ok in H as (r & Hr & H).
  apply Result_bind_Ok in H as (e & He & H).
  apply Result_bind_Ok in H as (tr & Htr & H).
  apply Result_bind_Ok in H as (total & Htotal & H).
  apply parseOrZero_amount in Ht as [Ht _], Hr as [Hr _], He as [He _].
  apply value_Add in Htr, Htotal.
  assert (Hbal : (math.value total == balanceTotal b)%Q).
  { unfold balanceTotal. rewrite Ht, Hr, He, Htotal, Htr. reflexivity. }
  split; [by eexists|].
  destruct (m !! BatchBalance.BatchKey b) as [supply|] eqn:Hm.
  - apply Result_bind_Ok in H as (res & Hres & [= <-]).
    apply value_Add in Hres. split.
    + intros key. rewrite mapValue_insert. case_decide as Hk.
      * subst key. rewrite bool_decide_true by done. unfold mapValue. rewrite Hm.
        rewrite Hres, Hbal. reflexivity.
      * rewrite bool_decide_false by done. lra.
    + intros key. rewrite lookup_insert. case_decide as Hk.
      * split; [done|]. by intros [_ ?].
      * split; [by split|]. by intros [? _].
  - injection H as <-. split.
    + intros key. rewrite mapValue_insert. case_decide as Hk.
      * subst key. rewrite bool_decide_true by done. unfold mapValue. rewrite Hm.
        rewrite Hbal. lra.
      * rewrite bool_decide_false by done. lra.
    + intros key. rewrite lookup_insert. case_decide as Hk.
      * split; [done|]. by intros [_ ?].
      * split; [by split|]. by intros [? _].
Qed.

Lemma calculateSupply_Ok prec l : ∀ m m',
  calculateSupply prec l m = Ok m' →
  (∀ b, b ∈ l → is_Some (prec !! BatchBalance.BatchKey b)) ∧
  (∀ key, (mapValue m' key == mapValue m key + genesisHeld key l)%Q) ∧
  (∀ key, m' !! key = None ↔
          m !! key = None ∧ ∀ b, b ∈ l → BatchBalance.BatchKey b ≠ key).
Proof.
  unfold calculateSupply. induction l as [|b l IH]; intros m m' H.
  - injection H as <-. split_and!.
    + intros b Hb. by apply elem_of_nil in Hb.
    + intros key. simpl. lra.
    + intros key. split; [intros ?; split; [done|]|by intros [? _]].
      intros b Hb. by apply elem_of_nil in Hb.
  - simpl in H. apply Result_bind_Ok in H as (m1 & Hstep & H).
    apply calculateSupply_step_Ok in Hstep as (Hp & Hv & Hn).
    apply IH in H as (Hp' & Hv' & Hn'). split_and!.
    + intros b' [->|Hb]%elem_of_cons; [done|by apply Hp'].
    + intros key. rewrite Hv', Hv. simpl. case_bool_decide; lra.
    + intros key. rewrite Hn', Hn. split.
      * intros [[Hm Hb] Hl]. split; [done|].
        intros b' [->|Hb']%elem_of_cons; [done|by apply Hl].
      * intros [Hm Hl]. split_and!; [done| |].
        -- apply Hl. by left.
        -- intros b' Hb'. apply Hl. by right.
Qed.

Lemma lastWith_elem {A} (P : A → bool) (l : list A) x :
  lastWith P l = Some x → x ∈ l ∧ P x = true.
Proof.
  induction l as [|y l IH]; [done|]. simpl.
  destruct (lastWith P l) as [z|].
  - intros [= ->]. destruct IH as [? ?]; [done|]. split; [by right|done].
  - destruct (P y) eqn:Hy; [|done]. intros [= ->]. split; [by left|done].
Qed.

Lemma lastWith_None {A} (P : A → bool) (l : list A) :
  lastWith P l = None ↔ ∀ x, x ∈ l → P x = false.
Proof.
  induction l as [|y l IH]; simpl.
  - split; [|done]. intros _ x Hx. by apply elem_of_nil in Hx.
  - destruct (lastWith P l) as [z|] eqn:Hl.
    + split; [done|]. intros Hall. apply lastWith_elem in Hl as [Hz Hp].
      rewrite Hall in Hp by (by right). done.
    + destruct (P y) eqn:Hy.
      * split; [done|]. intros Hall. rewrite Hall in Hy by (by left). done.
      * split; [|done]. intros _ x [->|Hx]%elem_of_cons; [done|].
        by apply (proj1 IH).
Qed.

Lemma foldlM_last_index {A} (f : gmap N math.Dec → A → Result (gmap N math.Dec))
    (keyOf : A → N) (val : A → Q) :
  (∀ m x m', f m x = Ok m' →
             ∃ d, m' = <[keyOf x := d]> m ∧ (math.value d == val x)%Q) →
  ∀ l m m', foldlM f m l = Ok m' →
  ∀ key,
    match lastWith (λ x, bool_decide (keyOf x = key)) l with
    | Some x => ∃ d, m' !! key = Some d ∧ (math.value d == val x)%Q
    | None => m' !! key = m !! key
    end.
Proof.
  intros Hf. induction l as [|x l IH]; intros m m' H key.
  - by injection H as <-.
  - simpl in H. apply Result_bind_Ok in H as (m1 & Hstep & H).
    specialize (IH _ _ H key). simpl.
    destruct (lastWith _ l) as [y|]; [done|].
    apply Hf in Hstep as (d & -> & Hd).
    case_bool_decide as Hk.
    + exists d. by rewrite IH, Hk, lookup_insert_eq.
    + by rewrite IH, lookup_insert_ne.
Qed.

Lemma foldlM_denoms
    (f : gmap N N * gmap string N → Batch.t → Result (gmap N N * gmap string N)) :
  (∀ bp bd b acc', f (bp, bd) b = Ok acc' →
                   acc'.2 = <[Batch.Denom b := Batch.Key b]> bd) →
  ∀ l acc acc', foldlM f acc l = Ok acc' →
  ∀ d, acc'.2 !! d =
       match lastBatch d l with
       | Some b => Some (Batch.Key b)
       | None => acc.2 !! d
       end.
Proof.
  intros Hf. unfold lastBatch. induction l as [|b l IH]; intros acc acc' H d.
  - by injection H as <-.
  - simpl in H. apply Result_bind_Ok in H as (acc1 & Hstep & H).
    specialize (IH _ _ H d). simpl.
    destruct (lastWith _ l) as [y|]; [done|].
    destruct acc as [bp bd]. apply Hf in Hstep. rewrite IH, Hstep. simpl.
    case_bool_decide as Hk.
    + by rewrite Hk, lookup_insert_eq.
    + by rewrite lookup_insert_ne.
Qed.

Lemma foldlM_baskets (bd : gmap string N) (batches : list Batch.t)
    (f : gmap N math.Dec → BasketBalance.t → Result (gmap N math.Dec)) :
  (∀ d, bd !! d = Batch.Key <$> lastBatch d batches) →
  (∀ m bb m', f m bb = Ok m' →
     ∃ k d, bd !! BasketBalance.BatchDenom bb = Some k ∧ is_Some (m !! k) ∧
            m' = <[k := d]> m ∧
            (math.value d == mapValue m k + amount (BasketBalance.Balance bb))%Q) →
  ∀ l m m', foldlM f m l = Ok m' →
  (∀ key, (mapValue m' key == mapValue m key + genesisBasket key batches l)%Q) ∧
  (∀ key, m' !! key = None ↔ m !! key = None) ∧
  (∀ bb, bb ∈ l →
         ∃ k, bd !! BasketBalance.BatchDenom bb = Some k ∧ is_Some (m !! k)).
Proof.
  intros Hbd Hf. induction l as [|bb l IH]; intros m m' H.
  - injection H as <-. split_and!; [|done|].
    + intros key. simpl. lra.
    + intros bb Hbb. by apply elem_of_nil in Hbb.
  - simpl in H. apply Result_bind_Ok in H as (m1 & Hstep & H).
    apply IH in H as (Hv & Hn & Hin).
    apply Hf in Hstep as (k & d & Hk & [old Hold] & -> & Hd). split_and!.
    + intros key. rewrite Hv, mapValue_insert. simpl.
      rewrite <- Hbd, Hk. case_decide as Hkey.
      * subst key. rewrite bool_decide_true by done. rewrite Hd. lra.
      * rewrite bool_decide_false by congruence. lra.
    + intros key. rewrite Hn, lookup_insert. case_decide as Hkey; [|done].
      subst key. rewrite Hold. done.
    + intros bb' [->|Hbb]%elem_of_cons; [by eauto|].
      destruct (Hin _ Hbb) as (k' & Hk' & Hs). exists k'. split; [done|].
      rewrite lookup_insert in Hs. case_decide; [subst; by eexists|done].
Qed.

Lemma foldlM_precisions
    (f : gmap N N * gmap string N → Batch.t → Result (gmap N N * gmap string N)) :
  (∀ bp bd b acc' k, f (bp, bd) b = Ok acc' →
                     is_Some (acc'.1 !! k) → is_Some (bp !! k) ∨ Batch.Key b = k) →
  ∀ l acc acc', foldlM f acc l = Ok acc' →
  ∀ k, is_Some (acc'.1 !! k) →
       is_Some (acc.1 !! k) ∨ ∃ b, b ∈ l ∧ Batch.Key b = k.
Proof.
  intros Hf. induction l as [|b l IH]; intros acc acc' H k Hk.
  - injection H as <-. by left.
  - simpl in H. apply Result_bind_Ok in H as (acc1 & Hstep & H).
    destruct (IH _ _ H k Hk) as [H1|(b' & Hb' & Hkey)].
    + destruct acc as [bp bd]. destruct (Hf _ _ _ _ _ Hstep H1) as [?|?]; [by left|].
      right. exists b. split; [by left|done].
    + right. exists b'. split; [by right|done].
Qed.

(** What the steps of an accepted genesis validation have established. *)
Lemma ValidateGenesis_Ok_inv g :
  ValidateGenesis g = Ok () →
  ∃ sup cal : gmap N math.Dec,
    (∀ key, (mapValue cal key
             == genesisHeld key (BatchBalances g)
                + genesisBasket key (Batches g) (BasketBalances g))%Q) ∧
    (∀ key, cal !! key = None ↔
            ∀ b, b ∈ BatchBalances g → BatchBalance.BatchKey b ≠ key) ∧
    (∀ key,
       match lastSupply key (BatchSupplies g) with
       | Some s => ∃ d, sup !! key = Some d ∧
                        (math.value d == amount (BatchSupply.TradableAmount s)
                                         + amount (BatchSupply.RetiredAmount s))%Q
       | None => sup !! key = None
       end) ∧
    (∀ bb, bb ∈ BasketBalances g →
           ∃ batch, lastBatch (BasketBalance.BatchDenom bb) (Batches g) = Some batch ∧
                    is_Some (cal !! Batch.Key batch)) ∧
    (∀ b, b ∈ BatchBalances g →
          ∃ batch, batch ∈ Batches g ∧ Batch.Key batch = BatchBalance.BatchKey b) ∧
    validateSupply cal sup = Ok ().
Proof.
  intros H. unfold ValidateGenesis in H. cbv zeta in H.
  apply Result_bind_Ok in H as ([] & _ & H).
  apply Result_bind_Ok in H as ([bp bd] & Hidx & H).
  apply Result_bind_Ok in H as (sup & Hsup & H).
  apply Result_bind_Ok in H as (cal & Hcal & H).
  apply Result_bind_Ok in H as (cal' & Hbask & H).
  exists sup, cal'.
  (* the denom index and the precisions *)
  assert (Hbd : ∀ d, bd !! d = Batch.Key <$> lastBatch d (Batches g)).
  { intros d. eapply foldlM_denoms with (d := d) in Hidx.
    - simpl in Hidx. rewrite Hidx. by destruct (lastBatch d (Batches g)).
    - clear. intros bp bd b acc' H.
      destruct (bp !! Batch.Key b); [by injection H as <-|].
      destruct (list_find _ _) as [[? class]|]; [|done].
      case_bool_decide; by injection H as <-. }
  assert (Hbp : ∀ k, is_Some (bp !! k) → ∃ b, b ∈ Batches g ∧ Batch.Key b = k).
  { intros k Hk. eapply foldlM_precisions with (k := k) in Hidx; [| |exact Hk].
    - destruct Hidx as [[? Hempty]|?]; [|done]. simpl in Hempty.
      by rewrite lookup_empty in Hempty.
    - clear. intros bp bd b acc' k H Hk.
      destruct (bp !! Batch.Key b) eqn:Hb; [injection H as <-; by left|].
      destruct (list_find _ _) as [[? class]|]; [|done].
      case_bool_decide; injection H as <-; simpl in Hk; [|by left].
      rewrite lookup_insert in Hk. case_decide; [by right|by left]. }
  (* the calculated supplies *)
  apply calculateSupply_Ok in Hcal as (Hprec & Hcalv & Hcaln).
  eapply foldlM_baskets in Hbask as (Hbv & Hbn & Hbin); [|exact Hbd|]; last first.
  { clear. intros m bb m' H.
    destruct (bd !! BasketBalance.BatchDenom bb) as [k|]; [|done].
    apply Result_bind_Ok in H as (d & Hd & H).
    destruct (m !! k) as [old|] eqn:Hold; [|done].
    apply Result_bind_Ok in H as (res & Hres & [= <-]).
    exists k, res. split_and!; [done|by eexists|done|].
    apply value_Add in Hres. rewrite Hres. unfold mapValue. rewrite Hold.
    apply Result_bind_Ok in Hd as (d' & Hd' & Hneg).
    destruct (math.IsNegative d'); [done|]. injection Hneg as ->.
    unfold amount. rewrite Hd'. reflexivity. }
  split_and!; [| | | | |done].
  - intros key. rewrite Hbv, Hcalv. unfold mapValue. rewrite lookup_empty. lra.
  - intros key. rewrite Hbn, Hcaln. rewrite lookup_empty.
    split; [by intros [_ ?]|by intros ?; split].
  - intros key.
    eapply (foldlM_last_index _ BatchSupply.BatchKey
              (λ s, (amount (BatchSupply.TradableAmount s)
                     + amount (BatchSupply.RetiredAmount s))%Q))
      with (key := key) in Hsup; last first.
    { clear. intros m s m' H.
      apply Result_bind_Ok in H as (t & Ht & H).
      apply Result_bind_Ok in H as (r & Hr & H).
      apply Result_bind_Ok in H as (total & Htotal & [= <-]).
      exists total. split; [done|].
      apply parseOrZero_amount in Ht as [-> _], Hr as [-> _].
      by apply value_Add in Htotal. }
    fold (lastSupply key (BatchSupplies g)) in Hsup.
    destruct (lastSupply key (BatchSupplies g)); [done|].
    by rewrite Hsup, lookup_empty.
  - intros bb Hbb. destruct (Hbin _ Hbb) as (k & Hk & Hs).
    rewrite Hbd in Hk. destruct (lastBatch _ _) as [batch|]; [|done].
    injection Hk as <-. exists batch. split; [done|].
    destruct (cal' !! Batch.Key batch) eqn:Hc; [by eexists|].
    apply Hbn in Hc. destruct Hs as [? Hs]. congruence.
  - intros b Hb. by apply Hbp, Hprec.
Qed.

(** X1: an accepted genesis state has, for every batch that a balance record
    names, a supply record whose tradable and retired amounts add up to what
    the balance records and the basket balances of the batch hold. *)
Theorem ValidateGenesis_sound g b :
  ValidateGenesis g = Ok () →
  b ∈ BatchBalances g →
  let key := BatchBalance.BatchKey b in
  ∃ s, lastSupply key (BatchSupplies g) = Some s ∧
       (genesisHeld key (BatchBalances g)
        + genesisBasket key (Batches g) (BasketBalances g)
        == amount (BatchSupply.TradableAmount s)
           + amount (BatchSupply.RetiredAmount s))%Q.
Proof.
  intros H Hb key.
  apply ValidateGenesis_Ok_inv in H as (sup & cal & Hv & Hn & Hsup & _ & _ & Hval).
  apply validateSupply_Ok_iff in Hval as [_ Hall].
  destruct (cal !! key) as [cs|] eqn:Hcs; last first.
  { exfalso. by apply (proj1 (Hn key) Hcs b). }
  destruct (Hall _ _ Hcs) as (d & Hd & Hvd).
  specialize (Hsup key). destruct (lastSupply key (BatchSupplies g)) as [s|].
  - destruct Hsup as (d' & Hd' & Hv'). exists s. split; [done|].
    rewrite Hd in Hd'. injection Hd' as <-.
    rewrite <- Hv', Hvd, <- Hv. unfold mapValue. by rewrite Hcs.
  - congruence.
Qed.

(** X2: an accepted genesis state has balance records and supply records, or
    neither; what a basket holds is of a batch that some balance record
    names; and the batch of every balance record is in the batch table. *)
Theorem ValidateGenesis_tables g :
  ValidateGenesis g = Ok () →
  (BatchBalances g = [] ↔ BatchSupplies g = []) ∧
  (∀ bb, bb ∈ BasketBalances g →
     ∃ batch b,
       lastBatch (BasketBalance.BatchDenom bb) (Batches g) = Some batch ∧
       b ∈ BatchBalances g ∧ BatchBalance.BatchKey b = Batch.Key batch) ∧
  (∀ b, b ∈ BatchBalances g →
     ∃ batch, batch ∈ Batches g ∧ Batch.Key batch = BatchBalance.BatchKey b).
Proof.
  intros H.
  apply ValidateGenesis_Ok_inv in H as (sup & cal & Hv & Hn & Hsup & Hbask & Hbatch & Hval).
  apply validateSupply_Ok_iff in Hval as [Hsize _].
  split_and!; [|  |done].
  - assert (Hcal : size cal = 0%nat ↔ BatchBalances g = []).
    { rewrite map_size_empty_iff. split.
      - intros ->. destruct (BatchBalances g) as [|b l] eqn:Hl; [done|].
        exfalso. apply (proj1 (Hn (BatchBalance.BatchKey b)) (lookup_empty _) b); [|done].
        by left.
      - intros Hl. apply map_eq. intros key. rewrite lookup_empty. apply Hn.
        intros b Hb. rewrite Hl in Hb. by apply elem_of_nil in Hb. }
    assert (Hs : size sup = 0%nat ↔ BatchSupplies g = []).
    { rewrite map_size_empty_iff. split.
      - intros ->. destruct (BatchSupplies g) as [|s l] eqn:Hl; [done|].
        exfalso. specialize (Hsup (BatchSupply.BatchKey s)).
        destruct (lastSupply _ _) as [s'|] eqn:Hlast.
        + destruct Hsup as (d & Hd & _). by rewrite lookup_empty in Hd.
        + unfold lastSupply in Hlast. rewrite lastWith_None in Hlast.
          specialize (Hlast s ltac:(by left)).
          by rewrite bool_decide_true in Hlast.
      - intros Hl. apply map_eq. intros key. rewrite lookup_empty.
        specialize (Hsup key). by rewrite Hl in Hsup. }
    rewrite <- Hcal, <- Hs. done.
  - intros bb Hbb. destruct (Hbask _ Hbb) as (batch & Hlast & [d Hd]).
    destruct (decide (Exists (λ b, BatchBalance.BatchKey b = Batch.Key batch)
                             (BatchBalances g)))
      as [(b & ? & ?)%Exists_exists|Hno]; [by exists batch, b|].
    exfalso. assert (cal !! Batch.Key batch = None); [|congruence].
    apply Hn. intros b Hb Hk. apply Hno, Exists_exists. by exists b.
Qed.

(** X3: [validateSupply] accepts exactly when the calculated and the declared
    supplies are both empty or both not, and every batch with a calculated
    supply has a declared supply of the same value; a declared supply of a
    batch without a calculated one is not looked at. *)
Theorem validateSupply_accepts (cal sup : gmap N math.Dec) :
  validateSupply cal sup = Ok () ↔
    (cal = ∅ ↔ sup = ∅) ∧
    ∀ key, is_Some (cal !! key) →
           is_Some (sup !! key) ∧ (mapValue sup key == mapValue cal key)%Q.
Proof.
  rewrite validateSupply_Ok_iff, !map_size_empty_iff. split.
  - intros [Hiff Hall]. split; [done|]. intros key [cs Hcs].
    destruct (Hall _ _ Hcs) as (s & Hs & Hv). split; [by eexists|].
    unfold mapValue. by rewrite Hs, Hcs.
  - intros [Hiff Hall]. split; [done|]. intros k cs Hcs.
    destruct (Hall k) as [[s Hs] Hv]; [by eexists|]. exists s. split; [done|].
    unfold mapValue in Hv. by rewrite Hs, Hcs in Hv.
Qed.

(** X5: when [calculateSupply] succeeds, every balance record is of a batch
    with a known precision, the supply it has calculated for a batch is the
    one it was given plus the tradable, retired and escrowed amounts of the
    records of the batch, and the batches it has a supply for are those it
    was given and those of the records. *)
Theorem calculateSupply_sums prec balances (m0 m : gmap N math.Dec) :
  calculateSupply prec balances m0 = Ok m →
  (∀ b, b ∈ balances → is_Some (prec !! BatchBalance.BatchKey b)) ∧
  ∀ key,
    (mapValue m key == mapValue m0 key + genesisHeld key balances)%Q ∧
    (is_Some (m !! key) ↔
       is_Some (m0 !! key) ∨ ∃ b, b ∈ balances ∧ BatchBalance.BatchKey b = key).
Proof.
  intros (Hp & Hv & Hn)%calculateSupply_Ok. split; [done|]. intros key.
  split; [done|]. rewrite <- !not_eq_None_Some, Hn. split.
  - intros Hnot.
    destruct (m0 !! key) eqn:H0; [by left|right].
    destruct (decide (Exists (λ b, BatchBalance.BatchKey b = key) balances))
      as [(b & ? & ?)%Exists_exists|Hno]; [by exists b|].
    exfalso. apply Hnot. split; [done|]. intros b Hb Hk.
    apply Hno, Exists_exists. by exists b.
  - intros [H0|(b & Hb & Hk)] [Hnone Hall]; [done|]. by apply (Hall b).
Qed.

Section BatchValidateFacts.
Context {codec : Bech32}.
Variable ValidateBatchDenom : string → Result unit.

(** C10, as the code has it: for a batch with both dates present, Validate
    returns no error if and only if the denom is valid, the project key is
    not zero, the end date is strictly after the start date (equal dates are
    rejected) and the issuer address is accepted. *)
Theorem Batch_Validate_spec (b : Batch.t) (startDate endDate : Timestamp.t) :
  Batch.StartDate b = Some startDate →
  Batch.EndDate b = Some endDate →
  Batch_Validate ValidateBatchDenom b = Ok () ↔
    ValidateBatchDenom (Batch.Denom b) = Ok () ∧
    Batch.ProjectKey b ≠ 0%N ∧
    Timestamp.after endDate startDate ∧
    isOk (AccAddressFromBech32 (AccAddress_String (Batch.Issuer b))) = true.
Proof.
  intros Hs He. unfold Batch_Validate. rewrite Hs, He.
  destruct (ValidateBatchDenom (Batch.Denom b)) as [[]|e]; simpl;
    [|split; [done|by intros [? _]]].
  case_bool_decide as Hp; [split; [done|by intros (_ & ? & _)]|].
  case_bool_decide as Hc.
  - split; [done|]. intros (_ & _ & Hafter%Compare_after & _). done.
  - assert (Timestamp.Compare endDate startDate = 1) as Hc'
      by (destruct (decide (Timestamp.Compare endDate startDate = 1)); [done|]; by destruct Hc).
    apply Compare_after in Hc'.
    destruct (AccAddressFromBech32 _) as [a|e]; simpl; [by split|].
    split; [done|]. by intros (_ & _ & _ & ?).
Qed.
End BatchValidateFacts.

(** * The invariant of the data model *)

Lemma holdersTotal_step key k b acc :
  ((if bool_decide (k.2 = key) then (balanceTotal b + acc)%Q else acc)
   == held key k b + acc)%Q.
Proof. unfold held. case_bool_decide; lra. Qed.

Lemma holdersTotal_fresh (key : N) (k : AccAddress * N) (b : BatchBalance.t)
    (t : gmap (AccAddress * N) BatchBalance.t) :
  t !! k = None →
  (holdersTotal key (<[k := b]> t) == held key k b + holdersTotal key t)%Q.
Proof.
  intros Hk. unfold holdersTotal.
  rewrite (map_fold_insert Qeq); [apply holdersTotal_step| | |done].
  - intros j z x y Hxy. case_bool_decide; [by rewrite Hxy|done].
  - intros j1 j2 z1 z2 y _ _ _. rewrite !holdersTotal_step. lra.
Qed.

Lemma holdersTotal_delete (key : N) (k : AccAddress * N) (b : BatchBalance.t)
    (t : gmap (AccAddress * N) BatchBalance.t) :
  t !! k = Some b →
  (holdersTotal key t == held key k b + holdersTotal key (delete k t))%Q.
Proof.
  intros Hk. rewrite <- (insert_delete_id t k b) at 1 by done.
  apply holdersTotal_fresh. apply lookup_delete_eq.
Qed.

Lemma holdersTotal_insert (key : N) (k : AccAddress * N) (b : BatchBalance.t)
    (t : gmap (AccAddress * N) BatchBalance.t) :
  (holdersTotal key (<[k := b]> t)
   == holdersTotal key t + held key k b - heldBefore key k t)%Q.
Proof.
  unfold heldBefore. destruct (t !! k) as [old|] eqn:Hk.
  - rewrite <- insert_delete_eq.
    rewrite holdersTotal_fresh by apply lookup_delete_eq.
    rewrite (holdersTotal_delete key k old t) by done. lra.
  - rewrite holdersTotal_fresh by done. lra.
Qed.

Lemma held_other key k b : k.2 ≠ key → held key k b = 0%Q.
Proof. intros Hk. unfold held. by rewrite bool_decide_false. Qed.

Lemma held_same a key b : held key (a, key) b = balanceTotal b.
Proof. unfold held. by rewrite bool_decide_true. Qed.

Lemma heldBefore_other key k t : k.2 ≠ key → heldBefore key k t = 0%Q.
Proof. intros Hk. unfold heldBefore. destruct (t !! k); [by apply held_other|done]. Qed.

Lemma basketTotal_frame key s s' :
  BatchTable s' = BatchTable s →
  BasketBalanceTable s' = BasketBalanceTable s →
  basketTotal key s' = basketTotal key s.
Proof. intros H1 H2. unfold basketTotal. by rewrite H1, H2. Qed.

Section InvariantFacts.
Context {codec : Bech32}.

(** What a successful Send entry does to the total held of a batch: the
    escrowed amounts of the two records it rewrites are lost, and a holder
    sending to itself also loses what it sent. *)
Lemma sendEcocredits_holdersTotal credit to from ctx ctx' key :
  sendEcocredits credit to from ctx = (Ok (), ctx') →
  ∃ batch fromBalance,
    let store := stateStore ctx in
    batchByDenom (BatchTable store) (SendCredits.BatchDenom credit) = Some batch ∧
    BatchBalanceTable store !! (from, Batch.Key batch) = Some fromBalance ∧
    (holdersTotal key (BatchBalanceTable (stateStore ctx'))
     == holdersTotal key (BatchBalanceTable store)
        - (if bool_decide (Batch.Key batch = key)
           then amount (BatchBalance.EscrowedAmount fromBalance)
                + (if bool_decide (from = to)
                   then amount (SendCredits.TradableAmount credit)
                        + amount (SendCredits.RetiredAmount credit)
                   else amount (BatchBalance.EscrowedAmount (sendTo batch to store)))
           else 0))%Q.
Proof.
  intros Hrun. apply sendEcocredits_Ok in Hrun
    as (batch & creditType & batchSupply & fromBalance
        & tT & tR & fT & fR & aT & aR & sT & sR & fT1 & tT1 & fT2 & tR1 & sR1 & sT1
        & Hbatch & Hct & Hsup & Hfrom & Hdecs & H1 & H2 & ->).
  exists batch, fromBalance. cbv zeta. split_and!; [done..|].
  cbn [stateStore BatchBalanceTable].
  set (store := stateStore ctx) in *. set (k := Batch.Key batch) in *.
  rewrite !holdersTotal_insert.
  case_bool_decide as Hkey; last first.
  { rewrite !held_other, !heldBefore_other by done. lra. }
  subst key. rewrite !held_same. unfold balanceTotal at 1 2.
  cbn [BatchBalance.TradableAmount BatchBalance.RetiredAmount BatchBalance.EscrowedAmount].
  rewrite !amount_String.
  apply GetNonNegativeFixedDecs_amounts in Hdecs as [Hdecs _].
  injection Hdecs as HtT HtR HfT HfR HaT HaR _ _.
  assert (HfT1 : (math.value fT1 == math.value fT - math.value aT)%Q
                 ∧ (math.value tT1 == math.value tT + math.value aT)%Q).
  { destruct (math.IsZero aT) eqn:Hz; cbn [negb] in H1.
    - destruct H1 as [-> ->]. apply value_IsZero in Hz. rewrite Hz. split; lra.
    - destruct H1 as [[Ha _]%value_SafeSubBalance Hb%value_Add]. by split. }
  assert (HfT2 : (math.value fT2 == math.value fT1 - math.value aR)%Q
                 ∧ (math.value tR1 == math.value tR + math.value aR)%Q).
  { destruct (math.IsZero aR) eqn:Hz; cbn [negb] in H2.
    - destruct H2 as (-> & -> & _ & _). apply value_IsZero in Hz. rewrite Hz. split; lra.
    - destruct H2 as ([Ha _]%value_SafeSubBalance & Hb%value_Add & _ & _). by split. }
  destruct HfT1 as [HfT1 HtT1], HfT2 as [HfT2 HtR1].
  assert (Hempty : amount EmptyString = 0%Q) by reflexivity.
  rewrite Hempty, HaT, HaR.
  case_bool_decide as Hself.
  - subst to. unfold heldBefore. rewrite lookup_insert_eq, Hfrom, !held_same.
    unfold balanceTotal.
    cbn [BatchBalance.TradableAmount BatchBalance.RetiredAmount BatchBalance.EscrowedAmount].
    rewrite !amount_String, Hempty.
    unfold sendTo in HtT, HtR. fold store k in HtT, HtR.
    rewrite Hfrom in HtT, HtR. cbn [default from_option] in HtT, HtR.
    unfold id in HtT, HtR. rewrite HfT, HfR. rewrite HfT in HtT. rewrite HfR in HtR.
    assert (math.value tT == math.value fT)%Q by (by rewrite HtT).
    assert (math.value tR == math.value fR)%Q by (by rewrite HtR).
    lra.
  - unfold heldBefore. rewrite lookup_insert_ne by congruence.
    rewrite Hfrom, held_same. unfold balanceTotal at 1. rewrite HfT, HfR.
    unfold sendTo in *. fold store k in HtT, HtR |- *.
    destruct (BatchBalanceTable store !! (to, k)) as [toBalance|] eqn:Hto.
    + rewrite held_same. unfold balanceTotal.
      cbn [default from_option] in HtT, HtR |- *. unfold id in *.
      rewrite HtT, HtR. lra.
    + cbn [default from_option BatchBalance.EscrowedAmount] in HtT, HtR |- *.
      unfold id in *.
      cbn [BatchBalance.TradableAmount BatchBalance.RetiredAmount] in HtT, HtR.
      assert (Hzero : amount "0"%string = 0%Q) by reflexivity.
      rewrite Hzero in HtT, HtR. rewrite Hempty. rewrite <- HtT in HtT1.
      rewrite <- HtR in HtR1. lra.
Qed.

Lemma retireCredits_holdersTotal req owner credit ctx ctx' key :
  retireCredits req owner credit ctx = (Ok (), ctx') →
  ∃ batch userBalance,
    let store := stateStore ctx in
    batchByDenom (BatchTable store) (Credits.BatchDenom credit) = Some batch ∧
    BatchBalanceTable store !! (owner, Batch.Key batch) = Some userBalance ∧
    (holdersTotal key (BatchBalanceTable (stateStore ctx'))
     == holdersTotal key (BatchBalanceTable store)
        - (if bool_decide (Batch.Key batch = key)
           then amount (BatchBalance.EscrowedAmount userBalance) else 0))%Q ∧
    (declaredSupply key (stateStore ctx') == declaredSupply key store)%Q.
Proof.
  intros Hrun. apply retireCredits_Ok in Hrun
    as (batch & creditType & userBalance & batchSupply
        & amt & uT & uT1 & uR & uR1 & sR & sT & sR1 & sT1
        & Hbatch & Hct & Huser & Hsup & Hdecs & HuT1 & HuR & HuR1 & Hsdecs
        & HsR1 & HsT1 & ->).
  exists batch, userBalance. cbv zeta. split_and!; [done..| |].
  - cbn [stateStore BatchBalanceTable].
    set (store := stateStore ctx) in *. set (k := Batch.Key batch) in *.
    rewrite holdersTotal_insert.
    case_bool_decide as Hkey; last first.
    { rewrite held_other, heldBefore_other by done. lra. }
    subst key. unfold heldBefore. rewrite Huser, !held_same. unfold balanceTotal.
    cbn [BatchBalance.TradableAmount BatchBalance.RetiredAmount BatchBalance.EscrowedAmount].
    rewrite !amount_String.
    apply GetNonNegativeFixedDecs_amounts in Hdecs as [Hdecs _].
    injection Hdecs as _ HuT. rewrite HuT, (amount_parsed _ _ _ HuR).
    apply value_SafeSubBalance in HuT1 as [HuT1 _]. apply value_Add in HuR1.
    assert (Hempty : amount EmptyString = 0%Q) by reflexivity. rewrite Hempty. lra.
  - unfold declaredSupply, supplyOf. cbn [stateStore BatchSupplyTable].
    rewrite lookup_insert. case_decide as Hk; [subst key|reflexivity].
    rewrite Hsup. unfold default, id.
    cbn [from_option BatchSupply.TradableAmount BatchSupply.RetiredAmount].
    apply GetNonNegativeFixedDecs_amounts in Hsdecs as [Hsdecs _].
    injection Hsdecs as HsR HsT. rewrite !amount_String, HsT, HsR.
    apply value_Add in HsR1. apply value_SafeSubBalance in HsT1 as [HsT1 _]. lra.
Qed.

Lemma cancelCredits_holdersTotal req owner credit ctx ctx' key :
  cancelCredits req owner credit ctx = (Ok (), ctx') →
  ∃ batch userBalance,
    let store := stateStore ctx in
    let cancelled :=
      if bool_decide (Batch.Key batch = key) then amount (Credits.Amount credit) else 0%Q in
    batchByDenom (BatchTable store) (Credits.BatchDenom credit) = Some batch ∧
    BatchBalanceTable store !! (owner, Batch.Key batch) = Some userBalance ∧
    (holdersTotal key (BatchBalanceTable (stateStore ctx'))
     == holdersTotal key (BatchBalanceTable store) - cancelled
        - (if bool_decide (Batch.Key batch = key)
           then amount (BatchBalance.EscrowedAmount userBalance) else 0))%Q ∧
    (declaredSupply key (stateStore ctx') == declaredSupply key store - cancelled)%Q.
Proof.
  intros Hrun. apply cancelCredits_Ok in Hrun
    as (batch & creditType & userBalance & batchSupply
        & amt & sT & uT & cD & uT1 & sT1 & cD1
        & Hbatch & Hct & Huser & Hsup & Hdecs & HuT1 & HsT1 & HcD1 & ->).
  exists batch, userBalance. cbv zeta. split_and!; [done..| |].
  - cbn [stateStore BatchBalanceTable].
    set (store := stateStore ctx) in *. set (k := Batch.Key batch) in *.
    rewrite holdersTotal_insert.
    case_bool_decide as Hkey; last first.
    { rewrite held_other, heldBefore_other by done. lra. }
    subst key. unfold heldBefore. rewrite Huser, !held_same. unfold balanceTotal.
    cbn [BatchBalance.TradableAmount BatchBalance.RetiredAmount BatchBalance.EscrowedAmount].
    rewrite !amount_String.
    apply GetNonNegativeFixedDecs_amounts in Hdecs as [Hdecs _].
    injection Hdecs as Hamt _ HuT _. rewrite HuT, Hamt.
    apply value_SafeSubBalance in HuT1 as [HuT1 _].
    assert (Hempty : amount EmptyString = 0%Q) by reflexivity. rewrite Hempty. lra.
  - unfold declaredSupply, supplyOf. cbn [stateStore BatchSupplyTable].
    rewrite lookup_insert. case_decide as Hk.
    + subst key. rewrite bool_decide_true by done.
      rewrite Hsup. unfold default, id.
      cbn [from_option BatchSupply.TradableAmount BatchSupply.RetiredAmount].
      apply GetNonNegativeFixedDecs_amounts in Hdecs as [Hdecs _].
      injection Hdecs as Hamt HsT _ _. rewrite !amount_String, HsT, Hamt.
      apply value_SafeSubBalance in HsT1 as [HsT1 _]. lra.
    + rewrite bool_decide_false by done. lra.
Qed.

Lemma sendEcocredits_declaredSupply credit to from ctx ctx' key :
  sendEcocredits credit to from ctx = (Ok (), ctx') →
  (declaredSupply key (stateStore ctx') == declaredSupply key (stateStore ctx))%Q.
Proof.
  intros Hrun. apply sendEcocredits_Ok in Hrun
    as (batch & creditType & batchSupply & fromBalance
        & tT & tR & fT & fR & aT & aR & sT & sR & fT1 & tT1 & fT2 & tR1 & sR1 & sT1
        & Hbatch & Hct & Hsup & Hfrom & Hdecs & H1 & H2 & ->).
  unfold declaredSupply, supplyOf. cbn [stateStore BatchSupplyTable].
  destruct (negb (math.IsZero aR)); [|reflexivity].
  rewrite lookup_insert. case_decide as Hk; [subst key|reflexivity].
  rewrite Hsup. unfold default, id.
  cbn [from_option BatchSupply.TradableAmount BatchSupply.RetiredAmount].
  apply GetNonNegativeFixedDecs_amounts in Hdecs as [Hdecs _].
  injection Hdecs as _ _ _ _ _ _ HsT HsR.
  destruct H2 as (_ & _ & HsR1 & HsT1).
  rewrite !amount_String, HsT, HsR.
  apply value_Add in HsR1. apply value_Sub in HsT1. lra.
Qed.

(** X18: the invariant of a batch survives every successful entry of a Send
    between two different holders, of a Retire and of a Cancel, when the
    records that the entry rewrites (those of the holders it names, for the
    batch of its denom) had nothing in escrow. *)
Theorem supplyInvariant_without_escrow key ctx ctx' :
  supplyInvariant key (stateStore ctx) →
  (∀ credit to from,
     sendEcocredits credit to from ctx = (Ok (), ctx') →
     from ≠ to →
     noEscrow from (SendCredits.BatchDenom credit) (stateStore ctx) →
     noEscrow to (SendCredits.BatchDenom credit) (stateStore ctx) →
     supplyInvariant key (stateStore ctx')) ∧
  (∀ req owner credit,
     retireCredits req owner credit ctx = (Ok (), ctx') →
     noEscrow owner (Credits.BatchDenom credit) (stateStore ctx) →
     supplyInvariant key (stateStore ctx')) ∧
  (∀ req owner credit,
     cancelCredits req owner credit ctx = (Ok (), ctx') →
     noEscrow owner (Credits.BatchDenom credit) (stateStore ctx) →
     supplyInvariant key (stateStore ctx')).
Proof.
  unfold supplyInvariant. intros Hinv. split_and!.
  - intros credit to from Hrun Hne Hfrom Hto.
    pose proof (sendEcocredits_declaredSupply _ _ _ _ _ key Hrun) as Hd.
    destruct (sendEcocredits_holdersTotal _ _ _ _ _ key Hrun)
      as (batch & fromBalance & Hbatch & Hlook & Hh).
    assert (Hb : basketTotal key (stateStore ctx') = basketTotal key (stateStore ctx)).
    { apply sendEcocredits_Ok in Hrun as (?&?&?&?&?&?&?&?&?&?&?&?&?&?&?&?&?&?&?&?&?&?&?&?&?&->). reflexivity. }
    rewrite Hb, Hd, Hh, <- Hinv. rewrite (bool_decide_false (from = to)) by done.
    assert (He : (amount (BatchBalance.EscrowedAmount fromBalance) == 0)%Q)
      by exact (Hfrom _ _ Hbatch Hlook).
    assert (Hz : (amount (BatchBalance.EscrowedAmount (sendTo batch to (stateStore ctx))) == 0)%Q).
    { unfold sendTo. destruct (_ !! (to, _)) as [b|] eqn:Hb'; [by eapply Hto|reflexivity]. }
    case_bool_decide; [rewrite He, Hz|]; lra.
  - intros req owner credit Hrun Hown.
    destruct (retireCredits_holdersTotal _ _ _ _ _ key Hrun)
      as (batch & userBalance & Hbatch & Hlook & Hh & Hd).
    assert (Hb : basketTotal key (stateStore ctx') = basketTotal key (stateStore ctx)).
    { apply retireCredits_Ok in Hrun as (?&?&?&?&?&?&?&?&?&?&?&?&?&?&?&?&?&?&?&?&?&?&?&?&->). reflexivity. }
    assert (He : (amount (BatchBalance.EscrowedAmount userBalance) == 0)%Q)
      by exact (Hown _ _ Hbatch Hlook).
    rewrite Hb, Hd, Hh, <- Hinv. case_bool_decide; [rewrite He|]; lra.
  - intros req owner credit Hrun Hown.
    destruct (cancelCredits_holdersTotal _ _ _ _ _ key Hrun)
      as (batch & userBalance & Hbatch & Hlook & Hh & Hd).
    assert (Hb : basketTotal key (stateStore ctx') = basketTotal key (stateStore ctx)).
    { apply cancelCredits_Ok in Hrun as (?&?&?&?&?&?&?&?&?&?&?&?&?&?&?&?&?&?&?&->). reflexivity. }
    assert (He : (amount (BatchBalance.EscrowedAmount userBalance) == 0)%Q)
      by exact (Hown _ _ Hbatch Hlook).
    rewrite Hb, Hd, Hh, <- Hinv. case_bool_decide; [rewrite He|]; lra.
Qed.
End InvariantFacts.

(** * Signs of the amounts written *)

Section NonNegativeFacts.
Context {codec : Bech32}.

(** Every amount that a successful Send entry computes for a balance record
    is non-negative; of the supply record it writes, the retired amount is. *)
Lemma sendEcocredits_nonneg credit to from ctx ctx' :
  sendEcocredits credit to from ctx = (Ok (), ctx') →
  ∃ newWrites, storeWrites ctx' = (newWrites ++ storeWrites ctx)%list ∧
    (∀ b, WriteBalance b ∈ newWrites →
          (0 <= amount (BatchBalance.TradableAmount b))%Q ∧
          (0 <= amount (BatchBalance.RetiredAmount b))%Q) ∧
    (∀ s, WriteSupply s ∈ newWrites →
          (0 <= amount (BatchSupply.RetiredAmount s))%Q).
Proof.
  intros Hrun. apply sendEcocredits_Ok in Hrun
    as (batch & creditType & batchSupply & fromBalance
        & tT & tR & fT & fR & aT & aR & sT & sR & fT1 & tT1 & fT2 & tR1 & sR1 & sT1
        & Hbatch & Hct & Hsup & Hfrom & Hdecs & H1 & H2 & ->).
  apply GetNonNegativeFixedDecs_amounts in Hdecs as [_ Hpos].
  repeat match goal with
         | H : Forall _ (_ :: _) |- _ => apply Forall_cons in H as [? H]
         end.
  assert (0 ≤ math.coeff fT1 ∧ 0 ≤ math.coeff tT1) as [HfT1 HtT1].
  { destruct (negb (math.IsZero aT)).
    - destruct H1 as [[_ ?]%value_SafeSubBalance ?%Add_nonneg]; done.
    - by destruct H1 as [-> ->]. }
  assert (0 ≤ math.coeff fT2 ∧ 0 ≤ math.coeff tR1 ∧
          (negb (math.IsZero aR) = true → 0 ≤ math.coeff sR1)) as (HfT2 & HtR1 & HsR1).
  { destruct (negb (math.IsZero aR)).
    - destruct H2 as ([_ ?]%value_SafeSubBalance & ?%Add_nonneg & ?%Add_nonneg & _); done.
    - destruct H2 as (-> & -> & _ & _). split_and!; done. }
  cbn [storeWrites].
  destruct (negb (math.IsZero aR)).
  - eexists [_; _; _]. split; [reflexivity|]. split.
    + intros b Hb.
      apply elem_of_cons in Hb as [Hb|Hb]; [discriminate Hb|].
      apply elem_of_cons in Hb as [[= ->]|Hb]; [by split; apply amount_String_nonneg|].
      apply list_elem_of_singleton in Hb. injection Hb as ->.
      by split; apply amount_String_nonneg.
    + intros s Hs. apply elem_of_cons in Hs as [[= ->]|Hs].
      * apply amount_String_nonneg. by apply HsR1.
      * repeat (apply elem_of_cons in Hs as [Hs|Hs]; [discriminate Hs|]).
        by apply elem_of_nil in Hs.
  - eexists [_; _]. split; [reflexivity|]. split.
    + intros b Hb.
      apply elem_of_cons in Hb as [[= ->]|Hb]; [by split; apply amount_String_nonneg|].
      apply list_elem_of_singleton in Hb. injection Hb as ->.
      by split; apply amount_String_nonneg.
    + intros s Hs.
      repeat (apply elem_of_cons in Hs as [Hs|Hs]; [discriminate Hs|]).
      by apply elem_of_nil in Hs.
Qed.

(** Retire computes every amount it writes with the checked subtraction or
    an addition of non-negative amounts. *)
Lemma retireCredits_nonneg req owner credit ctx ctx' :
  retireCredits req owner credit ctx = (Ok (), ctx') →
  ∃ b s, storeWrites ctx' = WriteSupply s :: WriteBalance b :: storeWrites ctx ∧
    BatchBalance.EscrowedAmount b = EmptyString ∧
    (0 <= amount (BatchBalance.TradableAmount b))%Q ∧
    (0 <= amount (BatchBalance.RetiredAmount b))%Q ∧
    (0 <= amount (BatchSupply.TradableAmount s))%Q ∧
    (0 <= amount (BatchSupply.RetiredAmount s))%Q.
Proof.
  intros Hrun. apply retireCredits_Ok in Hrun
    as (batch & creditType & userBalance & batchSupply
        & amt & uT & uT1 & uR & uR1 & sR & sT & sR1 & sT1
        & Hbatch & Hct & Huser & Hsup & Hdecs & HuT1 & HuR & HuR1 & Hsdecs
        & HsR1 & HsT1 & ->).
  apply GetNonNegativeFixedDecs_amounts in Hdecs as [_ Hpos].
  apply GetNonNegativeFixedDecs_amounts in Hsdecs as [_ Hspos].
  repeat match goal with
         | H : Forall _ (_ :: _) |- _ => apply Forall_cons in H as [? H]
         end.
  apply NewNonNegativeFixed_Ok in HuR as (_ & HuR & _).
  apply value_SafeSubBalance in HuT1 as [_ HuT1].
  apply value_SafeSubBalance in HsT1 as [_ HsT1].
  apply Add_nonneg in HuR1; [|done..]. apply Add_nonneg in HsR1; [|done..].
  eexists _, _. cbn [storeWrites]. split; [reflexivity|].
  cbn [BatchBalance.EscrowedAmount BatchBalance.TradableAmount BatchBalance.RetiredAmount
       BatchSupply.TradableAmount BatchSupply.RetiredAmount].
  split_and!; [done|by apply amount_String_nonneg..].
Qed.

(** Cancel computes the tradable amounts and the cancelled amount it writes
    with the checked subtraction or an addition of non-negative amounts. *)
Lemma cancelCredits_nonneg req owner credit ctx ctx' :
  cancelCredits req owner credit ctx = (Ok (), ctx') →
  ∃ b s, storeWrites ctx' = WriteSupply s :: WriteBalance b :: storeWrites ctx ∧
    BatchBalance.EscrowedAmount b = EmptyString ∧
    (0 <= amount (BatchBalance.TradableAmount b))%Q ∧
    (0 <= amount (BatchSupply.TradableAmount s))%Q ∧
    (0 <= amount (BatchSupply.CancelledAmount s))%Q.
Proof.
  intros Hrun. apply cancelCredits_Ok in Hrun
    as (batch & creditType & userBalance & batchSupply
        & amt & sT & uT & cD & uT1 & sT1 & cD1
        & Hbatch & Hct & Huser & Hsup & Hdecs & HuT1 & HsT1 & HcD1 & ->).
  apply GetNonNegativeFixedDecs_amounts in Hdecs as [_ Hpos].
  repeat match goal with
         | H : Forall _ (_ :: _) |- _ => apply Forall_cons in H as [? H]
         end.
  apply value_SafeSubBalance in HuT1 as [_ HuT1].
  apply value_SafeSubBalance in HsT1 as [_ HsT1].
  apply Add_nonneg in HcD1; [|done..].
  eexists _, _. cbn [storeWrites]. split; [reflexivity|].
  cbn [BatchBalance.EscrowedAmount BatchBalance.TradableAmount
       BatchSupply.TradableAmount BatchSupply.CancelledAmount].
  split_and!; [done|by apply amount_String_nonneg..].
Qed.
End NonNegativeFacts.

(** * What an entry does to the records *)

Section EntryEffects.
Context {codec : Bech32}.

Ltac decs_pos :=
  repeat match goal with
         | H : Forall _ (_ :: _) |- _ => apply Forall_cons in H as [? H]
         end.

(** X6: what a successful entry of a Send does to the records of two different
    holders: the sender's tradable amount goes down by what is sent, the
    recipient's tradable and retired amounts go up by the tradable and the
    retired part, and the sender had at least what is sent. *)
Theorem sendEcocredits_effect credit to from ctx ctx' :
  sendEcocredits credit to from ctx = (Ok (), ctx') →
  from ≠ to →
  ∃ batch fromBalance newFrom newTo,
    let store := stateStore ctx in
    let key := Batch.Key batch in
    let toBalance := sendTo batch to store in
    let aT := amount (SendCredits.TradableAmount credit) in
    let aR := amount (SendCredits.RetiredAmount credit) in
    batchByDenom (BatchTable store) (SendCredits.BatchDenom credit) = Some batch ∧
    BatchBalanceTable store !! (from, key) = Some fromBalance ∧
    BatchBalanceTable (stateStore ctx') !! (from, key) = Some newFrom ∧
    BatchBalanceTable (stateStore ctx') !! (to, key) = Some newTo ∧
    (amount (BatchBalance.TradableAmount newFrom)
     == amount (BatchBalance.TradableAmount fromBalance) - aT - aR)%Q ∧
    (amount (BatchBalance.RetiredAmount newFrom)
     == amount (BatchBalance.RetiredAmount fromBalance))%Q ∧
    (amount (BatchBalance.TradableAmount newTo)
     == amount (BatchBalance.TradableAmount toBalance) + aT)%Q ∧
    (amount (BatchBalance.RetiredAmount newTo)
     == amount (BatchBalance.RetiredAmount toBalance) + aR)%Q ∧
    (0 <= aT)%Q ∧ (0 <= aR)%Q ∧
    (aT + aR <= amount (BatchBalance.TradableAmount fromBalance))%Q.
Proof.
  intros Hrun Hne. apply sendEcocredits_Ok in Hrun
    as (batch & creditType & batchSupply & fromBalance
        & tT & tR & fT & fR & aT & aR & sT & sR & fT1 & tT1 & fT2 & tR1 & sR1 & sT1
        & Hbatch & Hct & Hsup & Hfrom & Hdecs & H1 & H2 & ->).
  eexists batch, fromBalance, _, _. cbv zeta.
  cbn [stateStore BatchBalanceTable].
  split_and!; [done|done|apply lookup_insert_eq| |..].
  { rewrite lookup_insert_ne by (intros [= ?]; done). apply lookup_insert_eq. }
  all: cbn [BatchBalance.TradableAmount BatchBalance.RetiredAmount];
    rewrite ?amount_String;
    apply GetNonNegativeFixedDecs_amounts in Hdecs as [Hdecs Hpos];
    injection Hdecs as HtT HtR HfT HfR HaT HaR HsT HsR;
    rewrite ?HtT, ?HtR, ?HfT, ?HfR, ?HaT, ?HaR;
    decs_pos;
    assert ((math.value fT1 == math.value fT - math.value aT)%Q ∧
            (math.value tT1 == math.value tT + math.value aT)%Q) as [HfT1 HtT1]
      by (destruct (math.IsZero aT) eqn:Hz; simpl in H1;
          [destruct H1 as [-> ->]; apply value_IsZero in Hz; split; lra
          |destruct H1 as [[? _]%value_SafeSubBalance ?%value_Add]; done]);
    assert ((math.value fT2 == math.value fT1 - math.value aR)%Q ∧
            (math.value tR1 == math.value tR + math.value aR)%Q ∧
            0 ≤ math.coeff fT2) as (HfT2 & HtR1 & Hpos2)
      by (destruct (math.IsZero aR) eqn:Hz; simpl in H2;
          [destruct H2 as (-> & -> & _ & _); apply value_IsZero in Hz;
           split_and!; [lra|lra|];
           destruct (math.IsZero aT); simpl in H1;
           [by destruct H1 as [-> _]
           |by destruct H1 as [[_ ?]%value_SafeSubBalance _]]
          |destruct H2 as ([? ?]%value_SafeSubBalance & ?%value_Add & _); done]);
    apply value_sign in Hpos2;
    repeat match goal with
           | H : 0 ≤ math.coeff _ |- _ => apply value_sign in H
           end;
    try lra.
Qed.

(** X7: a holder that sends credits to itself loses them: the record written
    last is the sender's, with the amounts sent taken off and nothing
    added. *)
Theorem sendEcocredits_to_self credit holder ctx ctx' :
  sendEcocredits credit holder holder ctx = (Ok (), ctx') →
  ∃ batch balance newBalance,
    let store := stateStore ctx in
    let key := Batch.Key batch in
    batchByDenom (BatchTable store) (SendCredits.BatchDenom credit) = Some batch ∧
    BatchBalanceTable store !! (holder, key) = Some balance ∧
    BatchBalanceTable (stateStore ctx') !! (holder, key) = Some newBalance ∧
    (amount (BatchBalance.TradableAmount newBalance)
     == amount (BatchBalance.TradableAmount balance)
        - amount (SendCredits.TradableAmount credit)
        - amount (SendCredits.RetiredAmount credit))%Q ∧
    (amount (BatchBalance.RetiredAmount newBalance)
     == amount (BatchBalance.RetiredAmount balance))%Q.
Proof.
  intros Hrun. apply sendEcocredits_Ok in Hrun
    as (batch & creditType & batchSupply & fromBalance
        & tT & tR & fT & fR & aT & aR & sT & sR & fT1 & tT1 & fT2 & tR1 & sR1 & sT1
        & Hbatch & Hct & Hsup & Hfrom & Hdecs & H1 & H2 & ->).
  eexists batch, fromBalance, _. cbv zeta.
  cbn [stateStore BatchBalanceTable].
  split_and!; [done|done|apply lookup_insert_eq|..].
  all: cbn [BatchBalance.TradableAmount BatchBalance.RetiredAmount];
    rewrite ?amount_String;
    apply GetNonNegativeFixedDecs_amounts in Hdecs as [Hdecs Hpos];
    injection Hdecs as HtT HtR HfT HfR HaT HaR HsT HsR;
    rewrite ?HfT, ?HfR, ?HaT, ?HaR; try reflexivity.
  assert (math.value fT1 == math.value fT - math.value aT)%Q as HfT1.
  { destruct (math.IsZero aT) eqn:Hz; simpl in H1.
    - destruct H1 as [-> ->]. apply value_IsZero in Hz. lra.
    - by destruct H1 as [[? _]%value_SafeSubBalance _]. }
  assert (math.value fT2 == math.value fT1 - math.value aR)%Q as HfT2.
  { destruct (math.IsZero aR) eqn:Hz; simpl in H2.
    - destruct H2 as (-> & _). apply value_IsZero in Hz. lra.
    - by destruct H2 as ([? _]%value_SafeSubBalance & _). }
  lra.
Qed.

(** X9: what a successful entry of a Retire does: the amount moves from the
    tradable to the retired amount of the holder and of the supply, the
    cancelled supply is kept, the escrowed amount of the record is written
    empty, and neither the holder nor the supply had less than the amount. *)
Theorem retireCredits_effect req owner credit ctx ctx' :
  retireCredits req owner credit ctx = (Ok (), ctx') →
  ∃ batch userBalance batchSupply newBalance newSupply,
    let store := stateStore ctx in
    let key := Batch.Key batch in
    let a := amount (Credits.Amount credit) in
    batchByDenom (BatchTable store) (Credits.BatchDenom credit) = Some batch ∧
    BatchBalanceTable store !! (owner, key) = Some userBalance ∧
    BatchSupplyTable store !! key = Some batchSupply ∧
    BatchBalanceTable (stateStore ctx') !! (owner, key) = Some newBalance ∧
    BatchSupplyTable (stateStore ctx') !! key = Some newSupply ∧
    (amount (BatchBalance.TradableAmount newBalance)
     == amount (BatchBalance.TradableAmount userBalance) - a)%Q ∧
    (amount (BatchBalance.RetiredAmount newBalance)
     == amount (BatchBalance.RetiredAmount userBalance) + a)%Q ∧
    BatchBalance.EscrowedAmount newBalance = EmptyString ∧
    (amount (BatchSupply.TradableAmount newSupply)
     == amount (BatchSupply.TradableAmount batchSupply) - a)%Q ∧
    (amount (BatchSupply.RetiredAmount newSupply)
     == amount (BatchSupply.RetiredAmount batchSupply) + a)%Q ∧
    BatchSupply.CancelledAmount newSupply = BatchSupply.CancelledAmount batchSupply ∧
    (0 <= a)%Q ∧
    (a <= amount (BatchBalance.TradableAmount userBalance))%Q ∧
    (a <= amount (BatchSupply.TradableAmount batchSupply))%Q.
Proof.
  intros Hrun. apply retireCredits_Ok in Hrun
    as (batch & creditType & userBalance & batchSupply
        & amt & uT & uT1 & uR & uR1 & sR & sT & sR1 & sT1
        & Hbatch & Hct & Huser & Hsup & Hdecs & HuT1 & HuR & HuR1 & Hsdecs
        & HsR1 & HsT1 & ->).
  eexists batch, userBalance, batchSupply, _, _. cbv zeta.
  cbn [stateStore BatchBalanceTable BatchSupplyTable].
  split_and!; [done|done|done|apply lookup_insert_eq|apply lookup_insert_eq|..].
  all: cbn [BatchBalance.TradableAmount BatchBalance.RetiredAmount
            BatchBalance.EscrowedAmount BatchSupply.TradableAmount
            BatchSupply.RetiredAmount BatchSupply.CancelledAmount];
    try reflexivity;
    rewrite ?amount_String;
    apply GetNonNegativeFixedDecs_amounts in Hdecs as [Hdecs Hpos];
    apply GetNonNegativeFixedDecs_amounts in Hsdecs as [Hsdecs _];
    injection Hdecs as Hamt HuT; injection Hsdecs as HsR HsT;
    rewrite ?Hamt, ?HuT, ?HsR, ?HsT, ?(amount_parsed _ _ _ HuR);
    apply Forall_cons in Hpos as [Hpos _]; apply value_sign in Hpos;
    apply value_SafeSubBalance in HuT1 as [HuT1 HuT1pos];
    apply value_SafeSubBalance in HsT1 as [HsT1 HsT1pos];
    apply value_sign in HuT1pos, HsT1pos;
    apply value_Add in HuR1, HsR1; lra.
Qed.

(** X10: what a successful entry of a Cancel does: the amount leaves the
    tradable amount of the holder and of the supply and is added to the
    cancelled supply; the retired amounts are kept as they are written, the
    escrowed amount of the record is written empty, and neither the holder
    nor the supply had less than the amount. *)
Theorem cancelCredits_effect req owner credit ctx ctx' :
  cancelCredits req owner credit ctx = (Ok (), ctx') →
  ∃ batch userBalance batchSupply newBalance newSupply,
    let store := stateStore ctx in
    let key := Batch.Key batch in
    let a := amount (Credits.Amount credit) in
    batchByDenom (BatchTable store) (Credits.BatchDenom credit) = Some batch ∧
    BatchBalanceTable store !! (owner, key) = Some userBalance ∧
    BatchSupplyTable store !! key = Some batchSupply ∧
    BatchBalanceTable (stateStore ctx') !! (owner, key) = Some newBalance ∧
    BatchSupplyTable (stateStore ctx') !! key = Some newSupply ∧
    (amount (BatchBalance.TradableAmount newBalance)
     == amount (BatchBalance.TradableAmount userBalance) - a)%Q ∧
    BatchBalance.RetiredAmount newBalance = BatchBalance.RetiredAmount userBalance ∧
    BatchBalance.EscrowedAmount newBalance = EmptyString ∧
    (amount (BatchSupply.TradableAmount newSupply)
     == amount (BatchSupply.TradableAmount batchSupply) - a)%Q ∧
    BatchSupply.RetiredAmount newSupply = BatchSupply.RetiredAmount batchSupply ∧
    (amount (BatchSupply.CancelledAmount newSupply)
     == amount (BatchSupply.CancelledAmount batchSupply) + a)%Q ∧
    (0 <= a)%Q ∧
    (a <= amount (BatchBalance.TradableAmount userBalance))%Q ∧
    (a <= amount (BatchSupply.TradableAmount batchSupply))%Q.
Proof.
  intros Hrun. apply cancelCredits_Ok in Hrun
    as (batch & creditType & userBalance & batchSupply
        & amt & sT & uT & cD & uT1 & sT1 & cD1
        & Hbatch & Hct & Huser & Hsup & Hdecs & HuT1 & HsT1 & HcD1 & ->).
  eexists batch, userBalance, batchSupply, _, _. cbv zeta.
  cbn [stateStore BatchBalanceTable BatchSupplyTable].
  split_and!; [done|done|done|apply lookup_insert_eq|apply lookup_insert_eq|..].
  all: cbn [BatchBalance.TradableAmount BatchBalance.RetiredAmount
            BatchBalance.EscrowedAmount BatchSupply.TradableAmount
            BatchSupply.RetiredAmount BatchSupply.CancelledAmount];
    try reflexivity;
    rewrite ?amount_String;
    apply GetNonNegativeFixedDecs_amounts in Hdecs as [Hdecs Hpos];
    injection Hdecs as Hamt HsT HuT HcD;
    rewrite ?Hamt, ?HuT, ?HsT, ?HcD;
    apply Forall_cons in Hpos as [Hpos _]; apply value_sign in Hpos;
    apply value_SafeSubBalance in HuT1 as [HuT1 HuT1pos];
    apply value_SafeSubBalance in HsT1 as [HsT1 HsT1pos];
    apply value_sign in HuT1pos, HsT1pos;
    apply value_Add in HcD1; lra.
Qed.

End EntryEffects.

(** * When an entry succeeds *)

Lemma SafeSubBalance_Ok x y :
  (math.value y <= math.value x)%Q → ∃ z, math.SafeSubBalance x y = Ok z.
Proof.
  intros Hle. unfold math.SafeSubBalance.
  destruct (math.Sub x y) as [z|e] eqn:Hsub; [|discriminate Hsub].
  simpl. destruct (math.IsNegative z) eqn:Hneg; [|by eexists].
  exfalso. apply value_Sub in Hsub.
  unfold math.IsNegative in Hneg. apply bool_decide_eq_true in Hneg.
  assert (0 <= math.value z)%Q as Hz%value_sign by lra. lia.
Qed.

Section SuccessFacts.
Context {codec : Bech32}.

(** X22: an entry of a Send succeeds when the batch, its credit type, its supply
    and the sender's balance record are found, the amounts sent and the
    stored amounts it reads are non-negative decimals within the precision
    of the credit type, and the sender's tradable amount covers what is
    sent; the tradable supply is not compared with the amount retired. *)
Theorem sendEcocredits_succeeds credit to from ctx
    batch creditType batchSupply fromBalance tT tR fT fR aT aR sT sR :
  let store := stateStore ctx in
  let key := Batch.Key batch in
  let toBalance := sendTo batch to store in
  batchByDenom (BatchTable store) (SendCredits.BatchDenom credit) = Some batch →
  creditTypeOfDenom store (Batch.Denom batch) = Ok creditType →
  BatchSupplyTable store !! key = Some batchSupply →
  BatchBalanceTable store !! (from, key) = Some fromBalance →
  GetNonNegativeFixedDecs (CreditType.Precision creditType)
    [BatchBalance.TradableAmount toBalance; BatchBalance.RetiredAmount toBalance;
     BatchBalance.TradableAmount fromBalance; BatchBalance.RetiredAmount fromBalance;
     SendCredits.TradableAmount credit; SendCredits.RetiredAmount credit;
     BatchSupply.TradableAmount batchSupply; BatchSupply.RetiredAmount batchSupply]
    = Ok [tT; tR; fT; fR; aT; aR; sT; sR] →
  (amount (SendCredits.TradableAmount credit) + amount (SendCredits.RetiredAmount credit)
   <= amount (BatchBalance.TradableAmount fromBalance))%Q →
  (sendEcocredits credit to from ctx).1 = Ok ().
Proof.
  intros store key toBalance Hbatch Hct Hsup Hfrom Hdecs Hle.
  pose proof Hdecs as [Hval Hpos]%GetNonNegativeFixedDecs_amounts.
  injection Hval as HtT HtR HfT HfR HaT HaR HsT HsR.
  rewrite HfT, HaT, HaR in Hle.
  repeat match goal with
         | H : Forall _ (_ :: _) |- _ => apply Forall_cons in H as [? H]
         end.
  assert (0 <= math.value aT)%Q by by apply value_sign.
  assert (0 <= math.value aR)%Q by by apply value_sign.
  assert (∃ fT1 tT1,
            (if negb (math.IsZero aT)
             then math.SafeSubBalance fT aT = Ok fT1 ∧ math.Add tT aT = Ok tT1
             else fT1 = fT ∧ tT1 = tT) ∧
            (math.value fT1 == math.value fT - math.value aT)%Q)
    as (fT1 & tT1 & Hstep1 & HfT1).
  { destruct (math.IsZero aT) eqn:Hz; simpl.
    - exists fT, tT. split; [done|]. apply value_IsZero in Hz. lra.
    - destruct (SafeSubBalance_Ok fT aT) as [fT1 Hsub]; [lra|].
      eexists fT1, _. split; [split; [done|reflexivity]|].
      by apply value_SafeSubBalance in Hsub as [? _]. }
  assert (∃ fT2 tR1 sR1 sT1,
            if negb (math.IsZero aR)
            then math.SafeSubBalance fT1 aR = Ok fT2 ∧ math.Add tR aR = Ok tR1 ∧
                 math.Add sR aR = Ok sR1 ∧ math.Sub sT aR = Ok sT1
            else fT2 = fT1 ∧ tR1 = tR ∧ sR1 = sR ∧ sT1 = sT)
    as (fT2 & tR1 & sR1 & sT1 & Hstep2).
  { destruct (math.IsZero aR) eqn:Hz; simpl.
    - by exists fT1, tR, sR, sT.
    - destruct (SafeSubBalance_Ok fT1 aR) as [fT2 Hsub]; [lra|].
      eexists fT2, _, _, _. split_and!; [done|reflexivity..]. }
  by rewrite (sendEcocredits_intro credit to from ctx batch creditType batchSupply
                fromBalance tT tR fT fR aT aR sT sR fT1 tT1 fT2 tR1 sR1 sT1
                Hbatch Hct Hsup Hfrom Hdecs Hstep1 Hstep2).
Qed.

(** X23: an entry of a Retire succeeds when the batch, its credit type, the
    holder's balance record and the supply are found, the amount and the
    stored amounts it reads are non-negative decimals within the precision
    of the credit type, and both the holder's tradable amount and the
    tradable supply cover the amount. *)
Theorem retireCredits_succeeds req owner credit ctx
    batch creditType userBalance batchSupply amt uT uR sR sT :
  let store := stateStore ctx in
  let key := Batch.Key batch in
  let p := CreditType.Precision creditType in
  batchByDenom (BatchTable store) (Credits.BatchDenom credit) = Some batch →
  creditTypeOfDenom store (Batch.Denom batch) = Ok creditType →
  BatchBalanceTable store !! (owner, key) = Some userBalance →
  BatchSupplyTable store !! key = Some batchSupply →
  GetNonNegativeFixedDecs p
    [Credits.Amount credit; BatchBalance.TradableAmount userBalance] = Ok [amt; uT] →
  math.NewNonNegativeFixedDecFromString (BatchBalance.RetiredAmount userBalance) p = Ok uR →
  GetNonNegativeFixedDecs p
    [BatchSupply.RetiredAmount batchSupply; BatchSupply.TradableAmount batchSupply]
    = Ok [sR; sT] →
  (amount (Credits.Amount credit) <= amount (BatchBalance.TradableAmount userBalance))%Q →
  (amount (Credits.Amount credit) <= amount (BatchSupply.TradableAmount batchSupply))%Q →
  (retireCredits req owner credit ctx).1 = Ok ().
Proof.
  intros store key p Hbatch Hct Huser Hsup Hdecs HuR Hsdecs Hle Hsle.
  pose proof Hdecs as [Hval _]%GetNonNegativeFixedDecs_amounts.
  pose proof Hsdecs as [Hsval _]%GetNonNegativeFixedDecs_amounts.
  injection Hval as Hamt HuT. injection Hsval as HsR HsT.
  rewrite Hamt, HuT in Hle. rewrite Hamt, HsT in Hsle.
  destruct (SafeSubBalance_Ok uT amt Hle) as [uT1 HuT1].
  destruct (SafeSubBalance_Ok sT amt Hsle) as [sT1 HsT1].
  unfold retireCredits.
  erewrite M_bind_run; last first.
  { apply try_ok. rewrite BatchTable_GetByDenom_run. fold store.
    rewrite Hbatch. reflexivity. }
  cbv beta. erewrite M_bind_run; [|reflexivity].
  erewrite M_bind_run; last first.
  { rewrite GetCreditTypeFromBatchDenom_run. fold store. rewrite Hct. reflexivity. }
  erewrite M_bind_run; last first.
  { apply try_ok. rewrite BatchBalanceTable_Get_run. unfold lookupOr. fold store key.
    rewrite Huser. reflexivity. }
  cbv beta. erewrite M_bind_run; [|reflexivity].
  erewrite M_bind_run; last first.
  { unfold lift. fold p. rewrite Hdecs. reflexivity. }
  cbv beta zeta.
  change ([amt; uT] !!! 0%nat) with amt. change ([amt; uT] !!! 1%nat) with uT.
  erewrite M_bind_run; [|unfold lift; rewrite HuT1; reflexivity].
  erewrite M_bind_run; [|unfold lift; fold p; rewrite HuR; reflexivity].
  erewrite M_bind_run; [|unfold lift; reflexivity].
  erewrite M_bind_run; last first.
  { rewrite BatchSupplyTable_Get_run. unfold lookupOr. fold store key.
    rewrite Hsup. reflexivity. }
  erewrite M_bind_run; last first.
  { unfold lift. fold p. rewrite Hsdecs. reflexivity. }
  cbv beta zeta.
  change ([sR; sT] !!! 0%nat) with sR. change ([sR; sT] !!! 1%nat) with sT.
  erewrite M_bind_run; [|unfold lift; reflexivity].
  erewrite M_bind_run; [|unfold lift; rewrite HsT1; reflexivity].
  erewrite M_bind_run; last first.
  { rewrite BatchBalanceTable_Update_run; [reflexivity|].
    unfold balanceKey. cbn [BatchBalance.Address BatchBalance.BatchKey].
    fold store key. by rewrite Huser. }
  erewrite M_bind_run; last first.
  { apply BatchSupplyTable_Update_run.
    cbn [stateStore BatchSupplyTable set_BatchBalanceTable BatchSupply.BatchKey].
    fold store key. by rewrite Hsup. }
  reflexivity.
Qed.

(** X24: an entry of a Cancel succeeds when the batch, its credit type, the
    holder's balance record and the supply are found, the amount and the
    stored amounts it reads are non-negative decimals within the precision
    of the credit type, and both the holder's tradable amount and the
    tradable supply cover the amount. *)
Theorem cancelCredits_succeeds req owner credit ctx
    batch creditType userBalance batchSupply amt sT uT cD :
  let store := stateStore ctx in
  let key := Batch.Key batch in
  let p := CreditType.Precision creditType in
  batchByDenom (BatchTable store) (Credits.BatchDenom credit) = Some batch →
  creditTypeOfDenom store (Batch.Denom batch) = Ok creditType →
  BatchBalanceTable store !! (owner, key) = Some userBalance →
  BatchSupplyTable store !! key = Some batchSupply →
  GetNonNegativeFixedDecs p
    [Credits.Amount credit; BatchSupply.TradableAmount batchSupply;
     BatchBalance.TradableAmount userBalance; BatchSupply.CancelledAmount batchSupply]
    = Ok [amt; sT; uT; cD] →
  (amount (Credits.Amount credit) <= amount (BatchBalance.TradableAmount userBalance))%Q →
  (amount (Credits.Amount credit) <= amount (BatchSupply.TradableAmount batchSupply))%Q →
  (cancelCredits req owner credit ctx).1 = Ok ().
Proof.
  intros store key p Hbatch Hct Huser Hsup Hdecs Hle Hsle.
  pose proof Hdecs as [Hval _]%GetNonNegativeFixedDecs_amounts.
  injection Hval as Hamt HsT HuT HcD.
  rewrite Hamt, HuT in Hle. rewrite Hamt, HsT in Hsle.
  destruct (SafeSubBalance_Ok uT amt Hle) as [uT1 HuT1].
  destruct (SafeSubBalance_Ok sT amt Hsle) as [sT1 HsT1].
  unfold cancelCredits.
  erewrite M_bind_run; last first.
  { apply try_ok. rewrite BatchTable_GetByDenom_run. fold store.
    rewrite Hbatch. reflexivity. }
  cbv beta. erewrite M_bind_run; [|reflexivity].
  erewrite M_bind_run; last first.
  { rewrite GetCreditTypeFromBatchDenom_run. fold store. rewrite Hct. reflexivity. }
  erewrite M_bind_run; last first.
  { apply try_ok. rewrite BatchBalanceTable_Get_run. unfold lookupOr. fold store key.
    rewrite Huser. reflexivity. }
  cbv beta. erewrite M_bind_run; [|reflexivity].
  erewrite M_bind_run; last first.
  { rewrite BatchSupplyTable_Get_run. unfold lookupOr. fold store key.
    rewrite Hsup. reflexivity. }
  erewrite M_bind_run; last first.
  { unfold lift. fold p. rewrite Hdecs. reflexivity. }
  cbv beta zeta.
  change ([amt; sT; uT; cD] !!! 0%nat) with amt.
  change ([amt; sT; uT; cD] !!! 1%nat) with sT.
  change ([amt; sT; uT; cD] !!! 2%nat) with uT.
  change ([amt; sT; uT; cD] !!! 3%nat) with cD.
  erewrite M_bind_run; [|unfold lift; rewrite HuT1; reflexivity].
  erewrite M_bind_run; [|unfold lift; rewrite HsT1; reflexivity].
  erewrite M_bind_run; [|unfold lift; reflexivity].
  erewrite M_bind_run; last first.
  { rewrite BatchBalanceTable_Update_run; [reflexivity|].
    unfold balanceKey. cbn [BatchBalance.Address BatchBalance.BatchKey].
    fold store key. by rewrite Huser. }
  erewrite M_bind_run; last first.
  { apply BatchSupplyTable_Update_run.
    cbn [stateStore BatchSupplyTable set_BatchBalanceTable BatchSupply.BatchKey].
    fold store key. by rewrite Hsup. }
  reflexivity.
Qed.

End SuccessFacts.

(** * What a call leaves alone *)

Lemma frame_refl holders s : frame holders s s.
Proof. unfold frame. naive_solver. Qed.

Lemma frame_trans holders s1 s2 s3 :
  frame holders s1 s2 → frame holders s2 s3 → frame holders s1 s3.
Proof.
  unfold frame.
  intros (H1 & H2 & H3 & H4 & H5 & H6 & H7 & H8) (G1 & G2 & G3 & G4 & G5 & G6 & G7 & G8).
  split_and!; try congruence.
  - intros key. by rewrite G6.
  - intros k Hk. by apply G7, H7.
  - intros addr key Hn. by rewrite G8, H8.
Qed.

Lemma forEach_any {A} (P : Context → Prop) (body : A → M unit) l :
  (∀ x c r c', body x c = (r, c') → P c → P c') →
  ∀ ctx r ctx', forEach l body ctx = (r, ctx') → P ctx → P ctx'.
Proof.
  intros Hbody. induction l as [|x l IH]; intros ctx r ctx' Hrun HP.
  - by injection Hrun as <- <-.
  - simpl in Hrun. destruct r as [[]|e].
    + apply M_bind_Ok in Hrun as ([] & c1 & Hx & Hrest). eauto.
    + apply M_bind_Err in Hrun as [Hx|([] & c1 & Hx & Hrest)]; eauto.
Qed.

Section FrameFacts.
Context {codec : Bech32}.

Lemma sendEcocredits_frame credit to from ctx r ctx' holders :
  sendEcocredits credit to from ctx = (r, ctx') →
  from ∈ holders → to ∈ holders →
  frame holders (stateStore ctx) (stateStore ctx').
Proof.
  intros Hrun Hfrom Hto. destruct r as [[]|e]; last first.
  { apply sendEcocredits_Err in Hrun as ->. apply frame_refl. }
  apply sendEcocredits_Ok in Hrun
    as (batch & creditType & batchSupply & fromBalance
        & tT & tR & fT & fR & aT & aR & sT & sR & fT1 & tT1 & fT2 & tR1 & sR1 & sT1
        & Hbatch & Hct & Hsup & Hbal & Hdecs & H1 & H2 & ->).
  unfold frame. cbn [stateStore CreditTypeTable ClassTable ProjectTable BatchTable
                     BasketBalanceTable BatchSupplyTable BatchBalanceTable].
  split_and!; try reflexivity.
  - intros key. destruct (negb (math.IsZero aR)); [|done].
    rewrite lookup_insert. case_decide; [subst key|done].
    rewrite Hsup. split; by eexists.
  - intros k Hk. rewrite !lookup_insert. repeat case_decide; try done; by eexists.
  - intros addr key Hn.
    rewrite !lookup_insert_ne; [done|intros [= <- _]; done..].
Qed.

Lemma retireCredits_frame req owner credit ctx r ctx' :
  retireCredits req owner credit ctx = (r, ctx') →
  frame [owner] (stateStore ctx) (stateStore ctx').
Proof.
  intros Hrun. destruct r as [[]|e]; last first.
  { apply retireCredits_Err in Hrun as ->. apply frame_refl. }
  apply retireCredits_Ok in Hrun
    as (batch & creditType & userBalance & batchSupply
        & amt & uT & uT1 & uR & uR1 & sR & sT & sR1 & sT1
        & Hbatch & Hct & Huser & Hsup & Hdecs & HuT1 & HuR & HuR1 & Hsdecs
        & HsR1 & HsT1 & ->).
  unfold frame. cbn [stateStore CreditTypeTable ClassTable ProjectTable BatchTable
                     BasketBalanceTable BatchSupplyTable BatchBalanceTable].
  split_and!; try reflexivity.
  - intros key. rewrite lookup_insert. case_decide; [subst key|done].
    rewrite Hsup. split; by eexists.
  - intros k Hk. rewrite !lookup_insert. repeat case_decide; try done; by eexists.
  - intros addr key Hn.
    rewrite !lookup_insert_ne; [done|intros [= <- _]; apply Hn; by left].
Qed.

Lemma cancelCredits_frame req owner credit ctx r ctx' :
  cancelCredits req owner credit ctx = (r, ctx') →
  frame [owner] (stateStore ctx) (stateStore ctx').
Proof.
  intros Hrun. destruct r as [[]|e]; last first.
  { apply cancelCredits_Err in Hrun as ->. apply frame_refl. }
  apply cancelCredits_Ok in Hrun
    as (batch & creditType & userBalance & batchSupply
        & amt & sT & uT & cD & uT1 & sT1 & cD1
        & Hbatch & Hct & Huser & Hsup & Hdecs & HuT1 & HsT1 & HcD1 & ->).
  unfold frame. cbn [stateStore CreditTypeTable ClassTable ProjectTable BatchTable
                     BasketBalanceTable BatchSupplyTable BatchBalanceTable].
  split_and!; try reflexivity.
  - intros key. rewrite lookup_insert. case_decide; [subst key|done].
    rewrite Hsup. split; by eexists.
  - intros k Hk. rewrite !lookup_insert. repeat case_decide; try done; by eexists.
  - intros addr key Hn.
    rewrite !lookup_insert_ne; [done|intros [= <- _]; apply Hn; by left].
Qed.

(** X11: whatever its outcome, a Send, Retire or Cancel call changes nothing but
    the amounts of supply records and the balance records of the holders
    that the message names: the credit types, classes, projects, batches and
    basket balances are as before, no supply record is created or deleted,
    no balance record is deleted, and the records of every other holder are
    as before. *)
Theorem deliver_frame m ctx r ctx' :
  deliver m ctx = (r, ctx') →
  frame (parties m) (stateStore ctx) (stateStore ctx').
Proof.
  intros Hrun.
  set (P := λ c, frame (parties m) (stateStore ctx) (stateStore c)).
  change (P ctx'). assert (HP : P ctx) by apply frame_refl.
  assert (Hend : ∀ (A : Type) (call : M A) c1,
            (∀ r1 c2, call ctx = (r1, c2) → P c2) →
            (call ≫= λ _, mret ()) ctx = (r, c1) → P c1).
  { intros A call c1 Hcall Hbind. unfold mbind, M_bind in Hbind.
    destruct (call ctx) as [[a|e] c2] eqn:Hc.
    - injection Hbind as _ <-. by eapply Hcall.
    - injection Hbind as _ <-. by eapply Hcall. }
  destruct m as [req|req|req]; simpl in Hrun; eapply Hend; try exact Hrun;
    clear Hrun Hend r ctx'; intros r ctx' Hrun.
  - unfold Send in Hrun. unfold mbind at 1, M_bind at 1 in Hrun.
    destruct (forEach _ _ ctx) as [r0 c0] eqn:Hloop.
    assert (P c0); last by (destruct r0; injection Hrun as _ <-).
    refine (forEach_any P _ _ _ _ _ _ Hloop HP).
    intros credit c r1 c1 Hbody Hc. unfold P in *.
    eapply frame_trans; [exact Hc|].
    unfold mbind at 1, M_bind at 1 in Hbody.
    destruct (sendEcocredits _ _ _ c) as [r2 c2] eqn:Hsend.
    apply sendEcocredits_frame with (holders := parties (MSend req)) in Hsend;
      [|simpl; set_solver..].
    destruct r2; [|by injection Hbody as _ <-].
    by injection Hbody as _ <-.
  - unfold Retire in Hrun. unfold mbind at 1, M_bind at 1 in Hrun.
    destruct (forEach _ _ ctx) as [r0 c0] eqn:Hloop.
    assert (P c0); last by (destruct r0; injection Hrun as _ <-).
    refine (forEach_any P _ _ _ _ _ _ Hloop HP).
    intros credit c r1 c1 Hbody Hc. unfold P in *.
    eapply frame_trans; [exact Hc|]. by eapply retireCredits_frame.
  - unfold Cancel in Hrun. unfold mbind at 1, M_bind at 1 in Hrun.
    unfold lift at 1 in Hrun.
    destruct (AccAddressFromBech32 (MsgCancel.Owner req)) as [owner|e] eqn:Howner;
      [|by injection Hrun as _ <-].
    unfold mbind at 1, M_bind at 1 in Hrun.
    destruct (forEach _ _ ctx) as [r0 c0] eqn:Hloop.
    assert (P c0); last by (destruct r0; injection Hrun as _ <-).
    refine (forEach_any P _ _ _ _ _ _ Hloop HP).
    intros credit c r1 c1 Hbody Hc. unfold P in *.
    eapply frame_trans; [exact Hc|].
    simpl. rewrite Howner. simpl. by eapply cancelCredits_frame.
Qed.

End FrameFacts.

(** * Gas, events and refusals *)

Lemma forEach_gas {A} (body : A → M unit) l :
  (∀ x c c', body x c = (Ok (), c') →
             gasConsumed c' = (gasConsumed c + GasCostPerIteration)%N) →
  ∀ ctx ctx', forEach l body ctx = (Ok (), ctx') →
  gasConsumed ctx' = (gasConsumed ctx + GasCostPerIteration * N.of_nat (length l))%N.
Proof.
  intros Hbody. induction l as [|x l IH]; intros ctx ctx' Hrun.
  - injection Hrun as <-. simpl. lia.
  - simpl in Hrun. apply M_bind_Ok in Hrun as ([] & c1 & Hx & Hrest).
    rewrite (IH _ _ Hrest), (Hbody _ _ _ Hx). simpl length. lia.
Qed.

Lemma forEach_events {A} (body : A → M unit) (ev : A → Event) l :
  (∀ x c c', body x c = (Ok (), c') → events c' = ev x :: events c) →
  ∀ ctx ctx', forEach l body ctx = (Ok (), ctx') →
  events ctx' = (rev (ev <$> l) ++ events ctx)%list.
Proof.
  intros Hbody. induction l as [|x l IH]; intros ctx ctx' Hrun.
  - by injection Hrun as <-.
  - simpl in Hrun. apply M_bind_Ok in Hrun as ([] & c1 & Hx & Hrest).
    rewrite (IH _ _ Hrest), (Hbody _ _ _ Hx). simpl. by rewrite <- app_assoc.
Qed.

Section CallFacts.
Context {codec : Bech32}.

(** X12: a successful Send, Retire or Cancel call consumes the gas cost of one
    iteration for each entry of the message. *)
Theorem deliver_gas m ctx ctx' :
  deliver m ctx = (Ok (), ctx') →
  gasConsumed ctx' =
    (gasConsumed ctx + GasCostPerIteration * N.of_nat (entries m))%N.
Proof.
  intros Hrun. destruct m as [req|req|req]; simpl in Hrun.
  - apply M_bind_Ok in Hrun as (? & c1 & Hrun & [= <-]).
    unfold Send in Hrun. apply M_bind_Ok in Hrun as ([] & c2 & Hrun & [= <- <-]).
    refine (forEach_gas _ _ _ _ _ Hrun).
    intros credit c c' Hbody.
    apply M_bind_Ok in Hbody as ([] & c3 & Hsend & Hbody).
    apply M_bind_Ok in Hbody as ([] & c4 & [= <-] & [= <-]).
    cbn [gasConsumed]. f_equal.
    apply sendEcocredits_Ok in Hsend
      as (? & ? & ? & ? & ? & ? & ? & ? & ? & ? & ? & ? & ? & ? & ? & ? & ? & ?
          & ? & ? & ? & ? & ? & ? & ? & ->).
    reflexivity.
  - apply M_bind_Ok in Hrun as (? & c1 & Hrun & [= <-]).
    unfold Retire in Hrun. apply M_bind_Ok in Hrun as ([] & c2 & Hrun & [= <- <-]).
    refine (forEach_gas _ _ _ _ _ Hrun).
    intros credit c c' Hbody.
    apply retireCredits_Ok in Hbody
      as (? & ? & ? & ? & ? & ? & ? & ? & ? & ? & ? & ? & ?
          & ? & ? & ? & ? & ? & ? & ? & ? & ? & ? & ? & ->).
    reflexivity.
  - apply M_bind_Ok in Hrun as (? & c1 & Hrun & [= <-]).
    unfold Cancel in Hrun. apply M_bind_Ok in Hrun as (owner & c2 & Howner & Hrun).
    apply lift_inv in Howner as [Howner ->].
    apply M_bind_Ok in Hrun as ([] & c3 & Hrun & [= <- <-]).
    refine (forEach_gas _ _ _ _ _ Hrun).
    intros credit c c' Hbody.
    apply cancelCredits_Ok in Hbody
      as (? & ? & ? & ? & ? & ? & ? & ? & ? & ? & ?
          & ? & ? & ? & ? & ? & ? & ? & ? & ->).
    reflexivity.
Qed.

(** X13: a successful Retire call emits one retire event per entry, in the order
    of the entries (the latest first in the log), each with the owner and
    the jurisdiction of the message and the denom and the amount of the
    entry as they were sent. *)
Theorem Retire_events req ctx resp ctx' :
  Retire req ctx = (Ok resp, ctx') →
  events ctx' =
    (rev ((λ credit, EventRetire (MsgRetire.Owner req) (Credits.BatchDenom credit)
                       (Credits.Amount credit) (MsgRetire.Jurisdiction req))
          <$> MsgRetire.Credits req)
     ++ events ctx)%list.
Proof.
  intros Hrun.
  unfold Retire in Hrun. apply M_bind_Ok in Hrun as ([] & c2 & Hrun & [= <- <-]).
  refine (forEach_events _ _ _ _ _ _ Hrun).
  intros credit c c' Hbody.
  apply retireCredits_Ok in Hbody
    as (? & ? & ? & ? & ? & ? & ? & ? & ? & ? & ? & ? & ?
        & ? & ? & ? & ? & ? & ? & ? & ? & ? & ? & ? & ->).
  reflexivity.
Qed.

(** X14: a successful Cancel call emits one cancel event per entry, in the order
    of the entries (the latest first in the log), each with the decoded
    owner printed again, the reason of the message and the denom and the
    amount of the entry as they were sent. *)
Theorem Cancel_events req ctx resp ctx' :
  Cancel req ctx = (Ok resp, ctx') →
  ∃ owner, AccAddressFromBech32 (MsgCancel.Owner req) = Ok owner ∧
  events ctx' =
    (rev ((λ credit, EventCancel (AccAddress_String owner) (Credits.BatchDenom credit)
                       (Credits.Amount credit) (MsgCancel.Reason req))
          <$> MsgCancel.Credits req)
     ++ events ctx)%list.
Proof.
  intros Hrun.
  unfold Cancel in Hrun. apply M_bind_Ok in Hrun as (owner & c2 & Howner & Hrun).
  apply lift_inv in Howner as [Howner ->].
  apply M_bind_Ok in Hrun as ([] & c3 & Hrun & [= <- <-]).
  exists owner. split; [done|].
  refine (forEach_events _ _ _ _ _ _ Hrun).
  intros credit c c' Hbody.
  apply cancelCredits_Ok in Hbody
    as (? & ? & ? & ? & ? & ? & ? & ? & ? & ? & ?
        & ? & ? & ? & ? & ? & ? & ? & ? & ->).
  reflexivity.
Qed.

(** X15: an entry that names a denom of no batch is refused with an invalid
    request error that names the denom, by Send, Retire and Cancel alike,
    and nothing is written. *)
Theorem unknown_denom_rejected ctx denom :
  batchByDenom (BatchTable (stateStore ctx)) denom = None →
  (∀ credit to from, SendCredits.BatchDenom credit = denom →
     sendEcocredits credit to from ctx = (Err (ErrInvalidRequest_getBatch denom), ctx)) ∧
  (∀ req owner credit, Credits.BatchDenom credit = denom →
     retireCredits req owner credit ctx = (Err (ErrInvalidRequest_getBatch denom), ctx)) ∧
  (∀ req owner credit, Credits.BatchDenom credit = denom →
     cancelCredits req owner credit ctx = (Err (ErrInvalidRequest_getBatch denom), ctx)).
Proof.
  intros Hnone. split_and!.
  - intros credit to from <-. unfold sendEcocredits.
    erewrite M_bind_run; last first.
    { apply try_ok. rewrite BatchTable_GetByDenom_run, Hnone. reflexivity. }
    reflexivity.
  - intros req owner credit <-. unfold retireCredits.
    erewrite M_bind_run; last first.
    { apply try_ok. rewrite BatchTable_GetByDenom_run, Hnone. reflexivity. }
    reflexivity.
  - intros req owner credit <-. unfold cancelCredits.
    erewrite M_bind_run; last first.
    { apply try_ok. rewrite BatchTable_GetByDenom_run, Hnone. reflexivity. }
    reflexivity.
Qed.

(** X16: Retire and Cancel refuse an entry of a holder that has no balance record
    for the batch with an invalid request error that names the denom of the
    batch and the holder, and nothing is written. *)
Theorem missing_balance_rejected ctx owner credit batch creditType :
  let store := stateStore ctx in
  batchByDenom (BatchTable store) (Credits.BatchDenom credit) = Some batch →
  creditTypeOfDenom store (Batch.Denom batch) = Ok creditType →
  BatchBalanceTable store !! (owner, Batch.Key batch) = None →
  (∀ req, retireCredits req owner credit ctx =
            (Err (ErrInvalidRequest_getBalance (Batch.Denom batch)
                    (AccAddress_String owner)), ctx)) ∧
  (∀ req, cancelCredits req owner credit ctx =
            (Err (ErrInvalidRequest_getBalance (Batch.Denom batch)
                    (AccAddress_String owner)), ctx)).
Proof.
  intros store Hbatch Hct Hnone. split.
  - intros req. unfold retireCredits.
    erewrite M_bind_run; last first.
    { apply try_ok. rewrite BatchTable_GetByDenom_run. fold store. rewrite Hbatch.
      reflexivity. }
    erewrite M_bind_run; [|reflexivity].
    erewrite M_bind_run; last first.
    { rewrite GetCreditTypeFromBatchDenom_run. fold store. rewrite Hct. reflexivity. }
    erewrite M_bind_run; last first.
    { apply try_ok. rewrite BatchBalanceTable_Get_run. fold store.
      unfold lookupOr. rewrite Hnone. reflexivity. }
    reflexivity.
  - intros req. unfold cancelCredits.
    erewrite M_bind_run; last first.
    { apply try_ok. rewrite BatchTable_GetByDenom_run. fold store. rewrite Hbatch.
      reflexivity. }
    erewrite M_bind_run; [|reflexivity].
    erewrite M_bind_run; last first.
    { rewrite GetCreditTypeFromBatchDenom_run. fold store. rewrite Hct. reflexivity. }
    erewrite M_bind_run; last first.
    { apply try_ok. rewrite BatchBalanceTable_Get_run. fold store.
      unfold lookupOr. rewrite Hnone. reflexivity. }
    reflexivity.
Qed.

End CallFacts.

(** * Retired and cancelled credits stay so *)

Lemma retiredKept_refl s : retiredKept s s.
Proof. intros key. split_and!; [apply Qle_refl..|]. intros addr. apply Qle_refl. Qed.

Lemma retiredKept_trans s1 s2 s3 :
  retiredKept s1 s2 → retiredKept s2 s3 → retiredKept s1 s3.
Proof.
  intros H1 H2 key. destruct (H1 key) as (A1 & B1 & C1), (H2 key) as (A2 & B2 & C2).
  split_and!; [by eapply Qle_trans..|]. intros addr. eapply Qle_trans; [apply C1|apply C2].
Qed.

Section MonotoneFacts.
Context {codec : Bech32}.

Lemma sendEcocredits_retiredKept credit to from ctx ctx' :
  sendEcocredits credit to from ctx = (Ok (), ctx') →
  retiredKept (stateStore ctx) (stateStore ctx').
Proof.
  intros Hrun. apply sendEcocredits_Ok in Hrun
    as (batch & creditType & batchSupply & fromBalance
        & tT & tR & fT & fR & aT & aR & sT & sR & fT1 & tT1 & fT2 & tR1 & sR1 & sT1
        & Hbatch & Hct & Hsup & Hfrom & Hdecs & H1 & H2 & ->).
  apply GetNonNegativeFixedDecs_amounts in Hdecs as [Hdecs Hpos].
  injection Hdecs as HtT HtR HfT HfR HaT HaR HsT HsR.
  repeat match goal with
         | H : Forall _ (_ :: _) |- _ => apply Forall_cons in H as [? H]
         end.
  assert (HaRpos : (0 <= math.value aR)%Q) by by apply value_sign.
  assert ((math.value tR <= math.value tR1)%Q ∧
          (negb (math.IsZero aR) = true → math.value sR <= math.value sR1)%Q)
    as [HtR1 HsR1].
  { destruct (negb (math.IsZero aR)).
    - destruct H2 as (_ & ?%value_Add & ?%value_Add & _). split; [lra|intros _; lra].
    - destruct H2 as (_ & -> & _ & _). split; [lra|done]. }
  intros key. cbn [stateStore]. split_and!.
  - unfold supplyOf. cbn [BatchSupplyTable].
    destruct (negb (math.IsZero aR)); [|apply Qle_refl].
    rewrite lookup_insert. case_decide; [subst key|apply Qle_refl].
    rewrite Hsup. unfold default, id. cbn [from_option BatchSupply.RetiredAmount].
    rewrite amount_String, HsR. by apply HsR1.
  - unfold supplyOf. cbn [BatchSupplyTable].
    destruct (negb (math.IsZero aR)); [|apply Qle_refl].
    rewrite lookup_insert. case_decide; [subst key|apply Qle_refl].
    rewrite Hsup. unfold default, id. cbn [from_option BatchSupply.CancelledAmount].
    apply Qle_refl.
  - intros addr. unfold retiredBy. cbn [BatchBalanceTable].
    rewrite !lookup_insert. case_decide as Hf.
    + injection Hf as <- <-. rewrite Hfrom.
      cbn [BatchBalance.RetiredAmount]. rewrite amount_String, HfR. apply Qle_refl.
    + case_decide as Ht; [|apply Qle_refl].
      injection Ht as <- <-. cbn [BatchBalance.RetiredAmount]. rewrite amount_String.
      unfold sendTo in HtR.
      destruct (BatchBalanceTable (stateStore ctx) !! (to, Batch.Key batch)) as [b|].
      * unfold default, id in HtR. cbn [from_option] in HtR. rewrite HtR. exact HtR1.
      * assert (0 <= math.value tR)%Q by by apply value_sign. lra.
Qed.

Lemma retireCredits_retiredKept req owner credit ctx ctx' :
  retireCredits req owner credit ctx = (Ok (), ctx') →
  retiredKept (stateStore ctx) (stateStore ctx').
Proof.
  intros Hrun. apply retireCredits_Ok in Hrun
    as (batch & creditType & userBalance & batchSupply
        & amt & uT & uT1 & uR & uR1 & sR & sT & sR1 & sT1
        & Hbatch & Hct & Huser & Hsup & Hdecs & HuT1 & HuR & HuR1 & Hsdecs
        & HsR1 & HsT1 & ->).
  apply GetNonNegativeFixedDecs_amounts in Hdecs as [_ Hpos].
  apply GetNonNegativeFixedDecs_amounts in Hsdecs as [Hsdecs _].
  injection Hsdecs as HsR HsT.
  apply Forall_cons in Hpos as [Hpos _]. apply value_sign in Hpos.
  apply value_Add in HuR1, HsR1.
  intros key. cbn [stateStore]. split_and!.
  - unfold supplyOf. cbn [BatchSupplyTable].
    rewrite lookup_insert. case_decide; [subst key|apply Qle_refl].
    rewrite Hsup. unfold default, id. cbn [from_option BatchSupply.RetiredAmount].
    rewrite amount_String, HsR. lra.
  - unfold supplyOf. cbn [BatchSupplyTable].
    rewrite lookup_insert. case_decide; [subst key|apply Qle_refl].
    rewrite Hsup. unfold default, id. cbn [from_option BatchSupply.CancelledAmount].
    apply Qle_refl.
  - intros addr. unfold retiredBy. cbn [BatchBalanceTable].
    rewrite lookup_insert. case_decide as Hf; [|apply Qle_refl].
    injection Hf as <- <-. rewrite Huser.
    cbn [BatchBalance.RetiredAmount].
    rewrite amount_String, (amount_parsed _ _ _ HuR). lra.
Qed.

Lemma cancelCredits_retiredKept req owner credit ctx ctx' :
  cancelCredits req owner credit ctx = (Ok (), ctx') →
  retiredKept (stateStore ctx) (stateStore ctx').
Proof.
  intros Hrun. apply cancelCredits_Ok in Hrun
    as (batch & creditType & userBalance & batchSupply
        & amt & sT & uT & cD & uT1 & sT1 & cD1
        & Hbatch & Hct & Huser & Hsup & Hdecs & HuT1 & HsT1 & HcD1 & ->).
  apply GetNonNegativeFixedDecs_amounts in Hdecs as [Hdecs Hpos].
  injection Hdecs as Hamt HsT HuT HcD.
  apply Forall_cons in Hpos as [Hpos _]. apply value_sign in Hpos.
  apply value_Add in HcD1.
  intros key. cbn [stateStore]. split_and!.
  - unfold supplyOf. cbn [BatchSupplyTable].
    rewrite lookup_insert. case_decide; [subst key|apply Qle_refl].
    rewrite Hsup. unfold default, id. cbn [from_option BatchSupply.RetiredAmount].
    apply Qle_refl.
  - unfold supplyOf. cbn [BatchSupplyTable].
    rewrite lookup_insert. case_decide; [subst key|apply Qle_refl].
    rewrite Hsup. unfold default, id. cbn [from_option BatchSupply.CancelledAmount].
    rewrite amount_String, HcD. lra.
  - intros addr. unfold retiredBy. cbn [BatchBalanceTable].
    rewrite lookup_insert. case_decide as Hf; [|apply Qle_refl].
    injection Hf as <- <-. rewrite Huser.
    cbn [BatchBalance.RetiredAmount]. apply Qle_refl.
Qed.

Lemma deliver_retiredKept m ctx ctx' :
  deliver m ctx = (Ok (), ctx') →
  retiredKept (stateStore ctx) (stateStore ctx').
Proof.
  intros Hrun.
  set (P := λ c, retiredKept (stateStore ctx) (stateStore c)).
  change (P ctx'). assert (HP : P ctx) by apply retiredKept_refl.
  destruct m as [req|req|req]; simpl in Hrun.
  - apply M_bind_Ok in Hrun as (? & c1 & Hrun & [= <-]).
    unfold Send in Hrun. apply M_bind_Ok in Hrun as ([] & c2 & Hrun & [= <- <-]).
    refine (forEach_preserves P _ _ _ _ _ Hrun HP).
    intros credit c c' Hbody Hc.
    apply M_bind_Ok in Hbody as ([] & c3 & Hsend & Hbody).
    apply M_bind_Ok in Hbody as ([] & c4 & [= <-] & [= <-]).
    unfold P in *. cbn [stateStore].
    eapply retiredKept_trans; [exact Hc|]. by eapply sendEcocredits_retiredKept.
  - apply M_bind_Ok in Hrun as (? & c1 & Hrun & [= <-]).
    unfold Retire in Hrun. apply M_bind_Ok in Hrun as ([] & c2 & Hrun & [= <- <-]).
    refine (forEach_preserves P _ _ _ _ _ Hrun HP).
    intros credit c c' Hbody Hc. unfold P in *.
    eapply retiredKept_trans; [exact Hc|]. by eapply retireCredits_retiredKept.
  - apply M_bind_Ok in Hrun as (? & c1 & Hrun & [= <-]).
    unfold Cancel in Hrun. apply M_bind_Ok in Hrun as (owner & c2 & Howner & Hrun).
    apply lift_inv in Howner as [Howner ->].
    apply M_bind_Ok in Hrun as ([] & c3 & Hrun & [= <- <-]).
    refine (forEach_preserves P _ _ _ _ _ Hrun HP).
    intros credit c c' Hbody Hc. unfold P in *.
    eapply retiredKept_trans; [exact Hc|]. by eapply cancelCredits_retiredKept.
Qed.

(** X17: over any sequence of successful Send, Retire and Cancel messages, the
    retired and the cancelled supply of every batch and the retired amount
    of every holder never decrease: no message makes retired or cancelled
    credits tradable again. *)
Theorem retired_never_decreases ms ctx ctx' :
  delivered ctx ms ctx' →
  retiredKept (stateStore ctx) (stateStore ctx').
Proof.
  induction 1 as [ctx|ctx m ctx1 ms ctx2 Hm _ IH].
  - apply retiredKept_refl.
  - eapply retiredKept_trans; [|exact IH]. by eapply deliver_retiredKept.
Qed.

End MonotoneFacts.

(** * Simulation helpers *)

Lemma RandomExponent_cons d rest precision :
  utils.RandomExponent (d :: rest) precision =
    match utils.exponents !! utils.Intn d 11 with
    | Some x =>
        if bool_decide (precision < x)%N then Some x
        else utils.RandomExponent rest precision
    | None => None
    end.
Proof. reflexivity. Qed.

Lemma exponents_bound i x : utils.exponents !! i = Some x → (x ≤ 24)%N.
Proof.
  do 11 (destruct i as [|i]; [by intros [= <-]|]). done.
Qed.

(** X19: [RandomExponent] never returns for a precision of 24 or more: no
    exponent of its table exceeds it, whatever is drawn. *)
Theorem RandomExponent_never_returns r precision :
  (24 ≤ precision)%N → utils.RandomExponent r precision = None.
Proof.
  intros Hp. induction r as [|d rest IH]; [done|]. rewrite RandomExponent_cons.
  destruct (utils.exponents !! _) as [x|] eqn:Hx; [|done].
  rewrite bool_decide_false; [done|].
  apply exponents_bound in Hx. lia.
Qed.

(** X20: for a precision below 24, [RandomExponent] returns as soon as the index
    of the largest exponent is drawn, if not before, and what it returns is
    an exponent of its table that exceeds the precision. *)
Theorem RandomExponent_returns r precision d :
  (precision < 24)%N → d ∈ r → utils.Intn d 11 = 10%nat →
  ∃ x, utils.RandomExponent r precision = Some x ∧
       (precision < x)%N ∧ x ∈ utils.exponents.
Proof.
  intros Hp Hin Hd. induction r as [|d' rest IH].
  - by apply elem_of_nil in Hin.
  - rewrite RandomExponent_cons.
    destruct (utils.exponents !! _) as [x|] eqn:Hx; last first.
    { apply lookup_ge_None in Hx. unfold utils.Intn in Hx.
      change (length utils.exponents) with 11%nat in Hx.
      pose proof (Nat.mod_upper_bound d' 11). lia. }
    case_bool_decide as Hlt.
    + exists x. split; [done|]. split; [done|]. by eapply list_elem_of_lookup_2.
    + apply elem_of_cons in Hin as [<-|Hin]; [|by apply IH].
      exfalso. apply Hlt. rewrite Hd in Hx. injection Hx as <-. done.
Qed.

(** X21: [Contains] tells whether the string is an element of the list. *)
Theorem Contains_spec s e : utils.Contains s e = true ↔ e ∈ s.
Proof.
  induction s as [|a rest IH]; simpl.
  - split; [done|]. intros H. by apply elem_of_nil in H.
  - case_bool_decide as Ha.
    + subst a. split; [intros _; by left|done].
    + rewrite IH, elem_of_cons. split; [by right|]. by intros [->|?].
Qed.

Import Scenario.

(** * The scenarios and the claims at concrete ledgers *)

Lemma send_scenario_A_witness :
  Send (codec := textBech32) sendA ledgerA
    = (Ok mkMsgSendResponse, (Send (codec := textBech32) sendA ledgerA).2) ∧
  (∃ b, BatchBalanceTable (stateStore (Send (codec := textBech32) sendA ledgerA).2)
          !! ("alice"%string, 1%N) = Some b ∧
        BatchBalance.TradableAmount b = "60.00"%string).
Proof.
  split; [vm_compute; reflexivity|].
  refine (proj1 (send_scenario_A (codec := textBech32) sendA
            (SendCredits.mk denom "30.00" "10.00" "US") ledgerA mkMsgSendResponse
            (Send (codec := textBech32) sendA ledgerA).2 batch1 (CreditType.mk "C" 2)
            (BatchBalance.mk 1 "alice" "100.00" "0" EmptyString)
            _ _ _ _ _ _ _ _ _ _));
    first [vm_compute; reflexivity | vm_compute; intros [=]].
Defined.

(** C2 as stated fails: the sender holds "100.00", the Send of the entry
    (tradable "30.00", retired "10.00") succeeds, and the recipient, who
    held "5.00" tradable credits of the batch, is left with "35.00", not
    with "30.00". *)
Lemma send_scenario_A_recipient_holds :
  BatchBalanceTable (stateStore ledgerBobFive) !! ("alice"%string, 1%N)
    = Some (BatchBalance.mk 1 "alice" "100.00" "0" EmptyString) ∧
  (Send (codec := textBech32) sendA ledgerBobFive).1 = Ok mkMsgSendResponse ∧
  BatchBalanceTable (stateStore (Send (codec := textBech32) sendA ledgerBobFive).2)
    !! ("alice"%string, 1%N)
    = Some (BatchBalance.mk 1 "alice" "60.00" "0" EmptyString) ∧
  BatchBalanceTable (stateStore (Send (codec := textBech32) sendA ledgerBobFive).2)
    !! ("bob"%string, 1%N)
    = Some (BatchBalance.mk 1 "bob" "35.00" "10.00" EmptyString).
Proof. split_and!; vm_compute; reflexivity. Qed.

Lemma supply_conservation_witness :
  (issuedSupply 1
     (stateStore (deliver (codec := textBech32) (MCancel cancelFive)
                    (deliver (codec := textBech32) (MSend sendA) ledgerA).2).2)
   == issuedSupply 1 (stateStore ledgerA))%Q.
Proof.
  apply (supply_conservation (codec := textBech32)
           [MSend sendA; MCancel cancelFive] ledgerA).
  eapply delivered_cons; [vm_compute; reflexivity|].
  eapply delivered_cons; [vm_compute; reflexivity|].
  apply delivered_nil.
Defined.

Lemma send_supply_frame_witness :
  ∃ newWrites,
    storeWrites (sendEcocredits (codec := textBech32)
                   (SendCredits.mk denom "30.00" "0.00" EmptyString)
                   "bob" "alice" ledgerA).2 = newWrites ++ storeWrites ledgerA ∧
    ∀ s, WriteSupply s ∉ newWrites.
Proof.
  destruct (send_supply_frame (codec := textBech32)
              (SendCredits.mk denom "30.00" "0.00" EmptyString) "bob" "alice" ledgerA
              (sendEcocredits (codec := textBech32)
                 (SendCredits.mk denom "30.00" "0.00" EmptyString)
                 "bob" "alice" ledgerA).2)
    as (newWrites & Hw & Hzero & _); [vm_compute; reflexivity|].
  exists newWrites. split; [exact Hw|].
  apply Hzero. vm_compute. reflexivity.
Defined.





Lemma validateSupply_failures_witness :
  ∃ k', (validateSupply {[ 1%N := math.mkDec 5 0 ]} {[ 2%N := math.mkDec 5 0 ]}
           = Err (ErrNotFound_supply k')
         ∧ is_Some (({[ 1%N := math.mkDec 5 0 ]} : gmap N math.Dec) !! k')
         ∧ ({[ 2%N := math.mkDec 5 0 ]} : gmap N math.Dec) !! k' = None)
      ∨ (validateSupply {[ 1%N := math.mkDec 5 0 ]} {[ 2%N := math.mkDec 5 0 ]}
           = Err (ErrInvalidCoins_supply k')
         ∧ ∃ s cs', ({[ 1%N := math.mkDec 5 0 ]} : gmap N math.Dec) !! k' = Some cs'
                    ∧ ({[ 2%N := math.mkDec 5 0 ]} : gmap N math.Dec) !! k' = Some s
                    ∧ ¬ (math.value s == math.value cs')%Q).
Proof.
  apply (proj2 (proj2 (validateSupply_failures
                         {[ 1%N := math.mkDec 5 0 ]} {[ 2%N := math.mkDec 5 0 ]}))
           1%N (math.mkDec 5 0)).
  - vm_compute. reflexivity.
  - vm_compute. discriminate.
  - left. vm_compute. reflexivity.
Defined.

Lemma Batch_Validate_spec_witness :
  Batch_Validate (codec := textBech32) (λ _, Ok ()) batch1 = Ok ().
Proof.
  apply (Batch_Validate_spec (codec := textBech32) (λ _, Ok ()) batch1
           (Timestamp.mk 1577836800 0) (Timestamp.mk 1609459200 0));
    [reflexivity|reflexivity|].
  split_and!; [reflexivity|discriminate|left; simpl; lia|reflexivity].
Defined.

(** C9 does not hold of the code: a holder has "5.00" credits in escrow, and
    the record that a successful Cancel writes for that holder has an empty
    escrowed amount. *)
Lemma cancel_resets_escrow :
  BatchBalanceTable (stateStore ledgerEscrow) !! ("alice"%string, 1%N)
    = Some (BatchBalance.mk 1 "alice" "20.00" "0" "5.00") ∧
  (Cancel (codec := textBech32) cancelFive ledgerEscrow).1 = Ok mkMsgCancelResponse ∧
  BatchBalanceTable (stateStore (Cancel (codec := textBech32) cancelFive ledgerEscrow).2)
    !! ("alice"%string, 1%N)
    = Some (BatchBalance.mk 1 "alice" "15.00" "0" EmptyString).
Proof. split_and!; vm_compute; reflexivity. Qed.

(** C4 does not hold of the code: on a ledger that genesis validation
    accepts, a successful Send that retires 10 credits on receipt takes them
    off a tradable supply of 5 with the plain subtraction of the decimal
    type, and the supply record written has the tradable amount "-5". *)
Lemma send_negative_supply :
  ValidateGenesis genesisLowSupply = Ok () ∧
  (Send (codec := textBech32) sendRetireTen ledgerLowSupply).1 = Ok mkMsgSendResponse ∧
  BatchSupplyTable (stateStore (Send (codec := textBech32) sendRetireTen ledgerLowSupply).2)
    !! 1%N = Some (BatchSupply.mk 1 "-5" "15" "0") ∧
  (amount "-5" < 0)%Q.
Proof. split_and!; vm_compute; reflexivity. Qed.

(** C1 does not hold of the code: the invariant of the batch holds on a
    ledger where a holder has credits in escrow, a Cancel of that holder
    succeeds, and the invariant does not hold afterwards. *)
Lemma cancel_breaks_invariant :
  supplyInvariant 1 (stateStore ledgerEscrow) ∧
  (Cancel (codec := textBech32) cancelFive ledgerEscrow).1 = Ok mkMsgCancelResponse ∧
  ¬ supplyInvariant 1 (stateStore (Cancel (codec := textBech32) cancelFive ledgerEscrow).2).
Proof.
  split_and!.
  - vm_compute. reflexivity.
  - vm_compute. reflexivity.
  - intros H. vm_compute in H. discriminate H.
Qed.

(** C10 as stated fails: the end date is after the start date and the
    batch is rejected, for its project key. *)
Lemma Batch_Validate_not_only_dates :
  let b := Batch.mk 1 "issuer" 0 denom
             (Some (Timestamp.mk 1577836800 0)) (Some (Timestamp.mk 1609459200 0)) in
  Timestamp.after (Timestamp.mk 1609459200 0) (Timestamp.mk 1577836800 0) ∧
  Batch_Validate (codec := textBech32) (λ _, Ok ()) b ≠ Ok ().
Proof. split; [left; simpl; lia | discriminate]. Qed.

(** C6 does not hold of the code: batch 2 has a declared supply of 50 and
    no calculated supply (nothing is held of it), neither map is empty, and
    [validateSupply] returns no error: its loop goes through the calculated
    supplies only, so a declared supply without a calculated one is never
    compared. *)
Lemma validateSupply_misses_declared_supply :
  ({[ 1%N := math.mkDec 100 0 ]} : gmap N math.Dec) !! 2%N = None ∧
  ({[ 1%N := math.mkDec 100 0; 2%N := math.mkDec 50 0 ]} : gmap N math.Dec) !! 2%N
    = Some (math.mkDec 50 0) ∧
  ¬ (math.value (math.mkDec 50 0) == 0)%Q ∧
  validateSupply {[ 1%N := math.mkDec 100 0 ]}
                 {[ 1%N := math.mkDec 100 0; 2%N := math.mkDec 50 0 ]} = Ok ().
Proof. split_and!; [vm_compute; reflexivity..|vm_compute; discriminate|vm_compute; reflexivity]. Qed.

(** Scenario D: a supply and no balance at all. *)
Lemma genesis_scenario_D : ValidateGenesis genesisD = Err ErrInvalidRequest_noBalances.
Proof. vm_compute. reflexivity. Qed.


Lemma ValidateGenesis_sound_witness :
  ValidateGenesis genesisWithBasket = Ok () ∧
  ∃ s, lastSupply 1 (BatchSupplies genesisWithBasket) = Some s ∧
       (genesisHeld 1 (BatchBalances genesisWithBasket)
        + genesisBasket 1 (Batches genesisWithBasket) (BasketBalances genesisWithBasket)
        == amount (BatchSupply.TradableAmount s)
           + amount (BatchSupply.RetiredAmount s))%Q.
Proof.
  split; [vm_compute; reflexivity|].
  apply (ValidateGenesis_sound genesisWithBasket
           (BatchBalance.mk 1 "alice" "70" "20" EmptyString)).
  - vm_compute. reflexivity.
  - left.
Defined.

Lemma ValidateGenesis_tables_witness :
  (BatchBalances genesisWithBasket = [] ↔ BatchSupplies genesisWithBasket = []) ∧
  (∀ bb, bb ∈ BasketBalances genesisWithBasket →
     ∃ batch b,
       lastBatch (BasketBalance.BatchDenom bb) (Batches genesisWithBasket) = Some batch ∧
       b ∈ BatchBalances genesisWithBasket ∧ BatchBalance.BatchKey b = Batch.Key batch) ∧
  (∀ b, b ∈ BatchBalances genesisWithBasket →
     ∃ batch, batch ∈ Batches genesisWithBasket ∧ Batch.Key batch = BatchBalance.BatchKey b).
Proof.
  apply (ValidateGenesis_tables genesisWithBasket). vm_compute. reflexivity.
Defined.

Lemma calculateSupply_sums_witness :
  (mapValue
     (match calculateSupply {[ 1%N := 2%N ]} twoBalances ∅ with
      | Ok m => m
      | Err _ => ∅
      end) 1 == 100)%Q.
Proof.
  destruct (calculateSupply_sums {[ 1%N := 2%N ]} twoBalances ∅
              (match calculateSupply {[ 1%N := 2%N ]} twoBalances ∅ with
               | Ok m => m
               | Err _ => ∅
               end)) as [_ Hsum]; [vm_compute; reflexivity|].
  destruct (Hsum 1%N) as [-> _]. vm_compute. reflexivity.
Defined.


Lemma sendEcocredits_effect_witness :
  ∃ newFrom newTo,
    let ctx' := (sendEcocredits (codec := textBech32) creditA "bob" "alice" ledgerA).2 in
    BatchBalanceTable (stateStore ctx') !! ("alice"%string, 1%N) = Some newFrom ∧
    BatchBalanceTable (stateStore ctx') !! ("bob"%string, 1%N) = Some newTo ∧
    (amount (BatchBalance.TradableAmount newFrom) == 60)%Q ∧
    (amount (BatchBalance.TradableAmount newTo) == 30)%Q ∧
    (amount (BatchBalance.RetiredAmount newTo) == 10)%Q.
Proof.
  destruct (sendEcocredits_effect (codec := textBech32) creditA "bob" "alice" ledgerA
              (sendEcocredits (codec := textBech32) creditA "bob" "alice" ledgerA).2)
    as (batch & fromBalance & newFrom & newTo & Hbatch & Hfrom & HnewFrom & HnewTo
        & HfT & _ & HtT & HtR & _); [vm_compute; reflexivity|done|].
  injection Hbatch as <-. injection Hfrom as <-.
  exists newFrom, newTo. cbv zeta. split_and!; [exact HnewFrom|exact HnewTo|..].
  - rewrite HfT. vm_compute. reflexivity.
  - rewrite HtT. vm_compute. reflexivity.
  - rewrite HtR. vm_compute. reflexivity.
Defined.

Lemma sendEcocredits_to_self_witness :
  ∃ newBalance,
    BatchBalanceTable
      (stateStore (sendEcocredits (codec := textBech32) creditA "alice" "alice" ledgerA).2)
      !! ("alice"%string, 1%N) = Some newBalance ∧
    (amount (BatchBalance.TradableAmount newBalance) == 60)%Q ∧
    (amount (BatchBalance.RetiredAmount newBalance) == 0)%Q.
Proof.
  destruct (sendEcocredits_to_self (codec := textBech32) creditA "alice" ledgerA
              (sendEcocredits (codec := textBech32) creditA "alice" "alice" ledgerA).2)
    as (batch & balance & newBalance & Hbatch & Hbal & Hnew & HT & HR);
    [vm_compute; reflexivity|].
  injection Hbatch as <-. injection Hbal as <-.
  exists newBalance. split_and!; [exact Hnew|..].
  - rewrite HT. vm_compute. reflexivity.
  - rewrite HR. vm_compute. reflexivity.
Defined.

Lemma retireCredits_effect_witness :
  ∃ newBalance newSupply,
    let ctx' := (retireCredits (codec := textBech32) retireTen "alice"
                   (Credits.mk denom "10.00") ledgerA).2 in
    BatchBalanceTable (stateStore ctx') !! ("alice"%string, 1%N) = Some newBalance ∧
    BatchSupplyTable (stateStore ctx') !! 1%N = Some newSupply ∧
    (amount (BatchBalance.TradableAmount newBalance) == 90)%Q ∧
    (amount (BatchBalance.RetiredAmount newBalance) == 10)%Q ∧
    (amount (BatchSupply.TradableAmount newSupply) == 90)%Q ∧
    (amount (BatchSupply.RetiredAmount newSupply) == 10)%Q.
Proof.
  destruct (retireCredits_effect (codec := textBech32) retireTen "alice"
              (Credits.mk denom "10.00") ledgerA
              (retireCredits (codec := textBech32) retireTen "alice"
                 (Credits.mk denom "10.00") ledgerA).2)
    as (batch & userBalance & batchSupply & newBalance & newSupply
        & Hbatch & Huser & Hsup & Hnew & HnewS & HT & HR & _ & HsT & HsR & _);
    [vm_compute; reflexivity|].
  injection Hbatch as <-. injection Huser as <-. injection Hsup as <-.
  exists newBalance, newSupply. cbv zeta. split_and!; [exact Hnew|exact HnewS|..].
  - rewrite HT. vm_compute. reflexivity.
  - rewrite HR. vm_compute. reflexivity.
  - rewrite HsT. vm_compute. reflexivity.
  - rewrite HsR. vm_compute. reflexivity.
Defined.

Lemma cancelCredits_effect_witness :
  ∃ newBalance newSupply,
    let ctx' := (cancelCredits (codec := textBech32) cancelFive "alice"
                   (Credits.mk denom "5.00") ledgerA).2 in
    BatchBalanceTable (stateStore ctx') !! ("alice"%string, 1%N) = Some newBalance ∧
    BatchSupplyTable (stateStore ctx') !! 1%N = Some newSupply ∧
    (amount (BatchBalance.TradableAmount newBalance) == 95)%Q ∧
    (amount (BatchSupply.TradableAmount newSupply) == 95)%Q ∧
    (amount (BatchSupply.CancelledAmount newSupply) == 5)%Q.
Proof.
  destruct (cancelCredits_effect (codec := textBech32) cancelFive "alice"
              (Credits.mk denom "5.00") ledgerA
              (cancelCredits (codec := textBech32) cancelFive "alice"
                 (Credits.mk denom "5.00") ledgerA).2)
    as (batch & userBalance & batchSupply & newBalance & newSupply
        & Hbatch & Huser & Hsup & Hnew & HnewS & HT & _ & _ & HsT & _ & HsC & _);
    [vm_compute; reflexivity|].
  injection Hbatch as <-. injection Huser as <-. injection Hsup as <-.
  exists newBalance, newSupply. cbv zeta. split_and!; [exact Hnew|exact HnewS|..].
  - rewrite HT. vm_compute. reflexivity.
  - rewrite HsT. vm_compute. reflexivity.
  - rewrite HsC. vm_compute. reflexivity.
Defined.

Lemma deliver_frame_witness :
  frame ["alice"; "bob"]%string (stateStore ledgerA)
    (stateStore (deliver (codec := textBech32) (MSend sendTwice) ledgerA).2).
Proof.
  apply (deliver_frame (codec := textBech32) (MSend sendTwice) ledgerA
           (deliver (codec := textBech32) (MSend sendTwice) ledgerA).1).
  vm_compute. reflexivity.
Defined.

Lemma deliver_gas_witness :
  gasConsumed (deliver (codec := textBech32) (MSend sendA) ledgerA).2 = 10%N.
Proof.
  apply (deliver_gas (codec := textBech32) (MSend sendA) ledgerA).
  vm_compute. reflexivity.
Defined.

Lemma Retire_events_witness :
  events (Retire (codec := textBech32) retireTen ledgerA).2
  = [EventRetire "alice" denom "10.00" "US"].
Proof.
  apply (Retire_events (codec := textBech32) retireTen ledgerA mkMsgRetireResponse).
  vm_compute. reflexivity.
Defined.

Lemma Cancel_events_witness :
  ∃ owner, AccAddressFromBech32 (Bech32 := textBech32) "alice" = Ok owner ∧
    events (Cancel (codec := textBech32) cancelFive ledgerA).2
    = [EventCancel (AccAddress_String (Bech32 := textBech32) owner) denom "5.00" "bridge-out"].
Proof.
  apply (Cancel_events (codec := textBech32) cancelFive ledgerA mkMsgCancelResponse).
  vm_compute. reflexivity.
Defined.

Lemma unknown_denom_rejected_witness :
  retireCredits (codec := textBech32) retireTen "alice" (Credits.mk "C02" "10.00") ledgerA
  = (Err (ErrInvalidRequest_getBatch "C02"), ledgerA).
Proof.
  apply (unknown_denom_rejected (codec := textBech32) ledgerA "C02");
    [vm_compute; reflexivity|reflexivity].
Defined.

Lemma missing_balance_rejected_witness :
  retireCredits (codec := textBech32) retireTen "bob" (Credits.mk denom "10.00") ledgerA
  = (Err (ErrInvalidRequest_getBalance denom "bob"), ledgerA).
Proof.
  apply (missing_balance_rejected (codec := textBech32) ledgerA "bob"
           (Credits.mk denom "10.00") batch1 (CreditType.mk "C" 2));
    vm_compute; reflexivity.
Defined.

Lemma retired_never_decreases_witness :
  retiredKept (stateStore ledgerA)
    (stateStore (deliver (codec := textBech32) (MCancel cancelFive)
                   (deliver (codec := textBech32) (MSend sendA) ledgerA).2).2).
Proof.
  apply (retired_never_decreases (codec := textBech32)
           [MSend sendA; MCancel cancelFive] ledgerA).
  eapply delivered_cons; [vm_compute; reflexivity|].
  eapply delivered_cons; [vm_compute; reflexivity|].
  apply delivered_nil.
Defined.

Lemma sendEcocredits_writes_escrow_witness :
  ∃ newWrites,
    storeWrites (sendEcocredits (codec := textBech32)
                   (SendCredits.mk denom "5.00" "0" EmptyString)
                   "bob" "alice" ledgerEscrow).2
    = (newWrites ++ storeWrites ledgerEscrow)%list ∧
    ∀ b, WriteBalance b ∈ newWrites → BatchBalance.EscrowedAmount b = EmptyString.
Proof.
  apply (sendEcocredits_writes_escrow (codec := textBech32)
           (SendCredits.mk denom "5.00" "0" EmptyString) "bob" "alice" ledgerEscrow).
  vm_compute. reflexivity.
Defined.

Lemma RandomExponent_never_returns_witness :
  utils.RandomExponent [10; 3; 21]%nat 24 = None.
Proof. apply RandomExponent_never_returns. lia. Defined.

Lemma RandomExponent_returns_witness :
  ∃ x, utils.RandomExponent [0; 13; 21]%nat 6 = Some x ∧ (6 < x)%N ∧ x ∈ utils.exponents.
Proof.
  apply (RandomExponent_returns [0; 13; 21]%nat 6 21%nat);
    [lia|set_solver|reflexivity].
Defined.

Lemma supplyInvariant_without_escrow_witness :
  supplyInvariant 1
    (stateStore (sendEcocredits (codec := textBech32) creditA "bob" "alice"
                   ledgerOtherEscrow).2).
Proof.
  destruct (supplyInvariant_without_escrow (codec := textBech32) 1 ledgerOtherEscrow
              (sendEcocredits (codec := textBech32) creditA "bob" "alice"
                 ledgerOtherEscrow).2)
    as [Hsend _]; [vm_compute; reflexivity|].
  apply (Hsend creditA "bob"%string "alice"%string); [vm_compute; reflexivity|done|..].
  - intros batch b Hbatch Hb. vm_compute in Hbatch. injection Hbatch as <-.
    vm_compute in Hb. injection Hb as <-. vm_compute. reflexivity.
  - intros batch b Hbatch Hb. vm_compute in Hbatch. injection Hbatch as <-.
    vm_compute in Hb. discriminate Hb.
Defined.

Lemma sendEcocredits_succeeds_witness :
  (sendEcocredits (codec := textBech32) creditA "bob" "alice" ledgerA).1 = Ok ().
Proof.
  eapply (sendEcocredits_succeeds (codec := textBech32) creditA "bob" "alice" ledgerA
            batch1 (CreditType.mk "C" 2) (BatchSupply.mk 1 "100.00" "0" "0")
            (BatchBalance.mk 1 "alice" "100.00" "0" EmptyString));
    [vm_compute; reflexivity..|vm_compute; discriminate].
Defined.

Lemma retireCredits_succeeds_witness :
  (retireCredits (codec := textBech32) retireTen "alice" (Credits.mk denom "10.00")
     ledgerA).1 = Ok ().
Proof.
  eapply (retireCredits_succeeds (codec := textBech32) retireTen "alice"
            (Credits.mk denom "10.00") ledgerA
            batch1 (CreditType.mk "C" 2) (BatchBalance.mk 1 "alice" "100.00" "0" EmptyString)
            (BatchSupply.mk 1 "100.00" "0" "0"));
    [vm_compute; reflexivity..|vm_compute; discriminate|vm_compute; discriminate].
Defined.

Lemma cancelCredits_succeeds_witness :
  (cancelCredits (codec := textBech32) cancelFive "alice" (Credits.mk denom "5.00")
     ledgerA).1 = Ok ().
Proof.
  eapply (cancelCredits_succeeds (codec := textBech32) cancelFive "alice"
            (Credits.mk denom "5.00") ledgerA
            batch1 (CreditType.mk "C" 2) (BatchBalance.mk 1 "alice" "100.00" "0" EmptyString)
            (BatchSupply.mk 1 "100.00" "0" "0"));
    [vm_compute; reflexivity..|vm_compute; discriminate|vm_compute; discriminate].
Defined.
